(** * CeloShip load tester: the fleet orchestrator

    A shallow embedding of the orchestration code of the application
    (App.tsx: prepareFleet, resetFleet, updateFleetBalances, handleFundFleet,
    handleStartSwarm) and of the chain service it drives (celoService.ts:
    createWallets, createWalletsFromKeys, getBalance, getWalletNonce,
    fundWallets, executeInteraction, isValidPrivateKey).

    The ethers library and the RPC provider are outside the repository.
    Their synchronous entry points (the Wallet constructor, parseEther,
    formatEther) are taken as a record of functions; the answers of the
    provider to asynchronous requests are inputs of the operations and
    arrive as the payload of events.

    Wallets are objects shared by every array that holds them: the state
    updaters copy the array and change a wallet in place, and so does the
    loop of updateFleetBalances.  The embedding keeps the fleet as one list
    of records in the state; a closure that captured a wallet reads only
    its address and private key, which never change.  A refresh that
    nobody awaits works on a copy of the array of the fleet: as long as the
    fleet is not discarded its writes are writes to the fleet in the state.
    A refresh whose fleet is discarded by a reset is not followed further.

    Numbers: the counters of the program (txCount, the three stats fields,
    loop indices, the local nonce) are JavaScript numbers that start at 0 or
    at a transaction count and only ever receive [+ 1]; they are embedded as
    [nat].  The numeric form fields come from [parseInt] and are embedded as
    [Z]; a [NaN] there makes every loop test [i < NaN] false, like a value
    that is not positive. *)

From Stdlib Require Import String Ascii ZArith Lia List DecimalString Bool.
From stdpp Require Import base list.
Import ListNotations.
Open Scope string_scope.
Open Scope list_scope.

(** ** JavaScript strings *)

Module JS.

(** Template literals: the pieces are concatenated in order. *)
Definition cat (pieces : list string) : string :=
  fold_right String.append EmptyString pieces.

Definition show_nat (n : nat) : string := NilZero.string_of_uint (Nat.to_uint n).
Definition show_Z (z : Z) : string := NilZero.string_of_int (Z.to_int z).

(** White space and line terminators that [String.prototype.trim] strips,
    among the code units below 256. *)
Definition is_ws (c : ascii) : bool :=
  match nat_of_ascii c with
  | 9 | 10 | 11 | 12 | 13 | 32 | 160 => true
  | _ => false
  end.

Fixpoint trimStart (s : string) : string :=
  match s with
  | EmptyString => EmptyString
  | String c s' => if is_ws c then trimStart s' else s
  end.

Fixpoint trimEnd (s : string) : string :=
  match s with
  | EmptyString => EmptyString
  | String c s' =>
      match trimEnd s' with
      | EmptyString => if is_ws c then EmptyString else String c EmptyString
      | r => String c r
      end
  end.

Definition trim (s : string) : string := trimEnd (trimStart s).

(** [s.split('\n')]: always at least one piece. *)
Fixpoint split_nl (s : string) : list string :=
  match s with
  | EmptyString => [EmptyString]
  | String c s' =>
      if Ascii.eqb c "010"%char then EmptyString :: split_nl s'
      else match split_nl s' with
           | piece :: rest => String c piece :: rest
           | [] => [String c EmptyString]
           end
  end.

(** Truthiness of a string: only the empty string is falsy. *)
Definition truthy (s : string) : bool := negb (s =? "")%string.

(** [a || b] on strings. *)
Definition or_else (a b : string) : string := if truthy a then a else b.

(** A call with one argument more than the callee declares: the surplus
    actual is evaluated and dropped. *)
Definition call_surplus {R X : Type} (callee_result : R) (surplus : X) : R :=
  callee_result.

End JS.

(** ** types.ts *)

Inductive LogType := INFO | SUCCESS | ERROR | WARNING.

(** [id] (Math.random) and [timestamp] (Date.now) of an entry are drawn
    from the environment when the entry is made and are read by the view
    only; the entry is identified here by the rest. *)
Record LogEntry := mkLog {
  message : string;
  type : LogType;
  txHash : option string
}.

Inductive Status := idle | funding | sending | done | error.

Record WalletAccount := mkWallet {
  address : string;
  privateKey : string;
  balance : string;
  txCount : nat;
  status : Status
}.

Definition with_balance (b : string) (w : WalletAccount) : WalletAccount :=
  mkWallet (address w) (privateKey w) b (txCount w) (status w).
Definition with_status (st : Status) (w : WalletAccount) : WalletAccount :=
  mkWallet (address w) (privateKey w) (balance w) (txCount w) st.
Definition bump_txCount (w : WalletAccount) : WalletAccount :=
  mkWallet (address w) (privateKey w) (balance w) (txCount w + 1) (status w).

Record Stats := mkStats {
  totalTx : nat;
  successfulTx : nat;
  failedTx : nat
}.

Definition zero_stats : Stats := mkStats 0 0 0.

Inductive WalletMode := generate | import.

(** The form fields of the component. *)
Record Form := mkForm {
  targetContract : string;
  walletMode : WalletMode;
  walletCount : Z;
  importText : string;
  interactionsPerWallet : Z;
  fundingAmount : string;
  funderKey : string;
  customData : string;
  aiPrompt : string;
  gasLimit : Z
}.

(** ** The chain client *)

(** What [new Wallet(key)] yields when it does not throw. *)
Record KeyPair := mkKeyPair {
  kp_address : string;
  kp_privateKey : string
}.

Record Ethers := mkEthers {
  new_Wallet : string -> option KeyPair;     (* None: the constructor throws *)
  parseEther : string -> option Z;           (* None: throws *)
  formatEther : Z -> string;
  error_message : string                      (* .message of what they throw *)
}.

(** The object literal handed to [sendTransaction]; an absent field is
    [None]. *)
Record TxRequest := mkReq {
  req_to : string;
  req_value : Z;
  req_data : option string;
  req_nonce : option nat;
  req_gasLimit : option Z
}.

(** A transaction response: the hash is known at once, [tx.wait(n)] later
    yields a receipt ([true]) or throws ([false]). *)
Record TransactionResponse := mkTx {
  hash : string;
  wait : nat -> bool
}.

Inductive SendReply :=
| Accepted (tx : TransactionResponse)
| Rejected (reason msg : string).        (* .reason and .message, "" if absent *)

Inductive ChainCall :=
| GetTransactionCount (addr : string)
| SendTransaction (signerKey : string) (req : TxRequest)
| Wait (txh : string) (confirms : nat)
| GetBalance (addr : string).

(** Who awaits a call: the funding loop, the task of fleet wallet [w], or a
    balance refresh. *)
Inductive Actor := Funder | Fleet (w : nat) | Refresher.

(** Everything the program does that can be seen from outside, in the order
    it happens. *)
Inductive Obs :=
| Req (a : Actor) (c : ChainCall)        (* a request reaches the client *)
| Rsp (a : Actor) (ok : bool)            (* the awaited request settles *)
| Logged (e : LogEntry)                  (* addLog *)
| ConsoleWarn (msg : string)
| ConsoleError (msg : string).

(** ** The component *)

Inductive Pc :=
| AwaitNonce                              (* at [await getWalletNonce(...)] *)
| AwaitSend (i : nat) (nonce : nat)       (* at [await executeInteraction(...)] *)
| AwaitPause (i : nat) (nonce : nat)      (* at the 200 ms pause *)
| Returned.

(** One element of [walletPromises]: the wallet captured by the closure,
    where the task is suspended, and the nonce its single fetch returned. *)
Record Task := mkTask {
  t_wallet : WalletAccount;
  t_pc : Pc;
  t_seed : option nat
}.

(** A call of [updateFleetBalances] that nothing awaits: where its loop is
    suspended, and how its balance queries will settle. *)
Inductive RefreshPc :=
| AwaitBalance (i : nat)                  (* at [await getBalance(...)], index i *)
| Finished.

Record Refresh := mkRefresh {
  r_pc : RefreshPc;
  r_reply : nat -> option Z
}.

(** The state hooks of [App], the form values captured by the running
    swarm closure, its tasks, the history of observable effects and the
    balance refreshes under way on the fleet.  [mark] is the length of the
    history when the last swarm started. *)
Record App := mkApp {
  isFunding : bool;
  isSwarming : bool;
  logs : list LogEntry;
  wallets : list WalletAccount;
  stats : Stats;
  form : Form;
  captured : Form;
  tasks : list Task;
  mark : nat;
  history : list Obs;
  refreshes : list Refresh
}.

Definition set_isFunding (b : bool) (s : App) : App :=
  mkApp b (isSwarming s) (logs s) (wallets s) (stats s) (form s) (captured s)
        (tasks s) (mark s) (history s) (refreshes s).
Definition set_isSwarming (b : bool) (s : App) : App :=
  mkApp (isFunding s) b (logs s) (wallets s) (stats s) (form s) (captured s)
        (tasks s) (mark s) (history s) (refreshes s).
Definition set_logs (l : list LogEntry) (s : App) : App :=
  mkApp (isFunding s) (isSwarming s) l (wallets s) (stats s) (form s)
        (captured s) (tasks s) (mark s) (history s) (refreshes s).
Definition setWallets (f : list WalletAccount -> list WalletAccount) (s : App) : App :=
  mkApp (isFunding s) (isSwarming s) (logs s) (f (wallets s)) (stats s) (form s)
        (captured s) (tasks s) (mark s) (history s) (refreshes s).
Definition setStats (f : Stats -> Stats) (s : App) : App :=
  mkApp (isFunding s) (isSwarming s) (logs s) (wallets s) (f (stats s)) (form s)
        (captured s) (tasks s) (mark s) (history s) (refreshes s).
Definition set_form (f : Form) (s : App) : App :=
  mkApp (isFunding s) (isSwarming s) (logs s) (wallets s) (stats s) f
        (captured s) (tasks s) (mark s) (history s) (refreshes s).
Definition set_run (c : Form) (ts : list Task) (m : nat) (s : App) : App :=
  mkApp (isFunding s) (isSwarming s) (logs s) (wallets s) (stats s) (form s)
        c ts m (history s) (refreshes s).
Definition set_tasks (f : list Task -> list Task) (s : App) : App :=
  mkApp (isFunding s) (isSwarming s) (logs s) (wallets s) (stats s) (form s)
        (captured s) (f (tasks s)) (mark s) (history s) (refreshes s).
Definition observe (o : Obs) (s : App) : App :=
  mkApp (isFunding s) (isSwarming s) (logs s) (wallets s) (stats s) (form s)
        (captured s) (tasks s) (mark s) (history s ++ [o]) (refreshes s).
Definition set_refreshes (f : list Refresh -> list Refresh) (s : App) : App :=
  mkApp (isFunding s) (isSwarming s) (logs s) (wallets s) (stats s) (form s)
        (captured s) (tasks s) (mark s) (history s) (f (refreshes s)).

Definition isBusy (s : App) : bool := isFunding s || isSwarming s.

(** [setLogs(prev => [...prev, entry])]. *)
Definition addLog (msg : string) (t : LogType) (h : option string) (s : App) : App :=
  let entry := mkLog msg t h in
  observe (Logged entry) (set_logs (logs s ++ [entry]) s).

(** The component once it is mounted: the hooks at their initial values
    and the greeting that the first effect writes to the empty log. *)
Definition initial (f : Form) : App :=
  addLog "System Ready. Waiting for Celo Mainnet command." INFO None
    (mkApp false false [] [] zero_stats f f [] 0 [] []).

(** The updater used all over the component:
    [prev => { const updated = [...prev];
               if (updated[i]) <change updated[i]>; return updated; }]. *)
Definition update_at (i : nat) (change : WalletAccount -> WalletAccount)
  (prev : list WalletAccount) : list WalletAccount :=
  alter change i prev.

(** ** services/celoService.ts *)

Section Service.

Context (E : Ethers).

Definition fresh_wallet (k : KeyPair) : WalletAccount :=
  mkWallet (kp_address k) (kp_privateKey k) "0" 0 idle.

(** [createWallets(count)]; [random i] is what the i-th call of
    [Wallet.createRandom()] returns. *)
Definition createWallets (random : nat -> KeyPair) (count : Z) : list WalletAccount :=
  map (fun i => fresh_wallet (random i)) (seq 0 (Z.to_nat count)).

(** The body of the [for (const key of keys)] loop of
    [createWalletsFromKeys], on the array built so far. *)
Fixpoint createWalletsFromKeys_from (keys : list string)
  (wallets : list WalletAccount) (s : App) : list WalletAccount * App :=
  match keys with
  | [] => (wallets, s)
  | key :: rest =>
      if negb (JS.truthy key) || (JS.trim key =? "")%string
      then createWalletsFromKeys_from rest wallets s
      else
        let cleanKey := JS.trim key in
        match new_Wallet E cleanKey with
        | Some wallet =>
            createWalletsFromKeys_from rest (wallets ++ [fresh_wallet wallet]) s
        | None =>
            createWalletsFromKeys_from rest wallets
              (observe (ConsoleWarn
                 (JS.cat ["Invalid key skipped during import: "; key])) s)
        end
  end.

Definition createWalletsFromKeys (keys : list string) (s : App)
  : list WalletAccount * App :=
  createWalletsFromKeys_from keys [] s.

Definition isValidPrivateKey (key : string) : bool :=
  match new_Wallet E key with
  | Some _ => true
  | None => false
  end.

(** [getBalance(address)] from the moment [provider.getBalance] settles
    with [reply]: the string it returns. *)
Definition getBalance_settled (reply : option Z) (s : App) : string * App :=
  match reply with
  | Some bal => (formatEther E bal, observe (Rsp Refresher true) s)
  | None =>
      ("0", observe (ConsoleError "Error fetching balance:")
              (observe (Rsp Refresher false) s))
  end.

(** [getBalance(address)]; [reply] is how [provider.getBalance] settles. *)
Definition getBalance (addr : string) (reply : option Z) (s : App) : string * App :=
  getBalance_settled reply (observe (Req Refresher (GetBalance addr)) s).

(** The transaction request of [executeInteraction(walletData,
    targetContract, data, nonce?)] and the key that signs it; [None] when
    the Wallet constructor throws. *)
Definition executeInteraction (walletData : WalletAccount)
  (targetContract data : string) (nonce : option nat)
  : option (string * TxRequest) :=
  match new_Wallet E (privateKey walletData) with
  | None => None
  | Some wallet =>
      let txRequest :=
        mkReq targetContract 0 (Some (JS.or_else data "0x")) None None in
      let txRequest :=
        match nonce with
        | Some n => mkReq (req_to txRequest) (req_value txRequest)
                      (req_data txRequest) (Some n) (req_gasLimit txRequest)
        | None => txRequest
        end in
      Some (kp_privateKey wallet, txRequest)
  end.

(** The loop of [fundWallets] from index [i] on, over the targets that are
    left; [reply i] is how the transfer to wallet [i] settles. *)
Fixpoint fundWallets_from (funder : KeyPair) (amountWei : Z)
  (targets : list WalletAccount) (i : nat)
  (onProgress : nat -> string -> App -> App)
  (reply : nat -> SendReply) (s : App) : App :=
  match targets with
  | [] => s
  | target :: rest =>
      let failed s' :=
        observe (ConsoleError
          (JS.cat ["Funding failed for wallet "; JS.show_nat i])) s' in
      let s1 :=
        observe (Req Funder (SendTransaction (kp_privateKey funder)
          (mkReq (address target) amountWei None None None))) s in
      let s2 :=
        match reply i with
        | Rejected _ _ => failed (observe (Rsp Funder false) s1)
        | Accepted tx =>
            let s' := observe (Req Funder (Wait (hash tx) 1))
                        (observe (Rsp Funder true) s1) in
            if wait tx 1
            then onProgress i (hash tx) (observe (Rsp Funder true) s')
            else failed (observe (Rsp Funder false) s')
        end in
      fundWallets_from funder amountWei rest (S i) onProgress reply s2
  end.

(** [fundWallets]; [None] when the funder key or the amount does not parse
    and the promise rejects before the loop. *)
Definition fundWallets (funderPrivateKey : string)
  (targets : list WalletAccount) (amountPerWallet : string)
  (onProgress : nat -> string -> App -> App)
  (reply : nat -> SendReply) (s : App) : option App :=
  match new_Wallet E funderPrivateKey with
  | None => None
  | Some funder =>
      match parseEther E amountPerWallet with
      | None => None
      | Some amountWei =>
          Some (fundWallets_from funder amountWei targets 0 onProgress reply s)
      end
  end.

(** The loop of the earlier revision of [fundWallets] kept in the
    repository: it reports progress as soon as the transfer is accepted and
    waits afterwards. *)
Fixpoint fundWallets_legacy_from (funder : KeyPair) (amountWei : Z)
  (targets : list WalletAccount) (i : nat)
  (onProgress : nat -> string -> App -> App)
  (reply : nat -> SendReply) (s : App) : App :=
  match targets with
  | [] => s
  | target :: rest =>
      let failed s' :=
        observe (ConsoleError
          (JS.cat ["Funding failed for wallet "; JS.show_nat i])) s' in
      let s1 :=
        observe (Req Funder (SendTransaction (kp_privateKey funder)
          (mkReq (address target) amountWei None None None))) s in
      let s2 :=
        match reply i with
        | Rejected _ _ => failed (observe (Rsp Funder false) s1)
        | Accepted tx =>
            let s' := observe (Req Funder (Wait (hash tx) 1))
                        (onProgress i (hash tx) (observe (Rsp Funder true) s1)) in
            if wait tx 1
            then observe (Rsp Funder true) s'
            else failed (observe (Rsp Funder false) s')
        end in
      fundWallets_legacy_from funder amountWei rest (S i) onProgress reply s2
  end.

End Service.

(** ** App.tsx *)

Section Component.

Context (E : Ethers).

(** The loop of [updateFleetBalances] over the copied array, from index
    [i] on; [reply i] is how the balance query for wallet [i] settles. *)
Fixpoint updateFleetBalances_from (updatedWallets : list WalletAccount) (i : nat)
  (reply : nat -> option Z) (s : App) : list WalletAccount * App :=
  match updatedWallets with
  | [] => ([], s)
  | w :: rest =>
      let '(bal, s1) := getBalance E (address w) (reply i) s in
      let '(rest', s2) := updateFleetBalances_from rest (S i) reply s1 in
      (with_balance bal w :: rest', s2)
  end.

Definition updateFleetBalances (currentWallets : list WalletAccount)
  (reply : nat -> option Z) (s : App) : App :=
  let s0 := addLog "Refreshing fleet balances..." INFO None s in
  let '(updatedWallets, s1) := updateFleetBalances_from currentWallets 0 reply s0 in
  setWallets (fun _ => updatedWallets) s1.

(** [prepareFleet()]: the new wallets it returns and the state after. *)
Definition prepareFleet (random : nat -> KeyPair) (s : App)
  : list WalletAccount * App :=
  match walletMode (form s) with
  | generate =>
      let s1 := addLog (JS.cat ["Generating "; JS.show_Z (walletCount (form s));
                                " fresh wallets..."]) INFO None s in
      let newWallets := createWallets random (walletCount (form s)) in
      let s2 := addLog "Wallets generated successfully." SUCCESS None s1 in
      (newWallets, setWallets (fun _ => newWallets) s2)
  | import =>
      let s1 := addLog "Parsing imported keys..." INFO None s in
      let keys := JS.split_nl (importText (form s)) in
      let '(newWallets, s2) := createWalletsFromKeys E keys s1 in
      if (length newWallets =? 0)%nat
      then ([], addLog "No valid keys found in import." ERROR None s2)
      else
        let s3 := addLog (JS.cat ["Imported "; JS.show_nat (length newWallets);
                                  " wallets."]) SUCCESS None s2 in
        (newWallets, setWallets (fun _ => newWallets) s3)
  end.

(** [updateFleetBalances(currentWallets)] called without [await], on an
    array that holds the wallets of the fleet: the call runs up to its
    first [await] and leaves a refresh under way.  On an empty array the
    loop is skipped and [setWallets] stores the empty copy. *)
Definition start_refresh (reply : nat -> option Z) (s : App) : App :=
  let s0 := addLog "Refreshing fleet balances..." INFO None s in
  match wallets s0 !! 0 with
  | Some w =>
      set_refreshes (fun rs => rs ++ [mkRefresh (AwaitBalance 0) reply])
        (observe (Req Refresher (GetBalance (address w))) s0)
  | None => s0
  end.

(** The balance query of refresh [j] settles:
    [updatedWallets[i].balance = bal] writes to the wallet object, which
    the fleet in the state holds too, so the new balance is in the state
    at once; then [i++] and either the next query or, after the loop,
    [setWallets(updatedWallets)], which stores the same wallets again. *)
Definition resume_refresh (j : nat) (s : App) : App :=
  match refreshes s !! j with
  | Some (mkRefresh (AwaitBalance i) reply) =>
      let '(bal, s1) := getBalance_settled E (reply i) s in
      let s2 := setWallets (update_at i (with_balance bal)) s1 in
      match wallets s2 !! (i + 1) with
      | Some w =>
          set_refreshes
            (alter (fun r => mkRefresh (AwaitBalance (i + 1)) (r_reply r)) j)
            (observe (Req Refresher (GetBalance (address w))) s2)
      | None =>
          set_refreshes (alter (fun r => mkRefresh Finished (r_reply r)) j) s2
      end
  | _ => s
  end.

(** [resetFleet()].  A refresh that is still under way goes on over the
    wallets that are discarded here; it is not followed any further (its
    last step, [setWallets(updatedWallets)], would store the discarded
    wallets again). *)
Definition resetFleet (s : App) : App :=
  addLog "Fleet reset. Ready for new configuration." INFO None
    (setStats (fun _ => zero_stats)
       (set_refreshes (fun _ => []) (setWallets (fun _ => []) s))).

(** The progress callback that [handleFundFleet] hands to [fundWallets]. *)
Definition onFunded (index : nat) (txh : string) (s : App) : App :=
  setWallets (update_at index (with_status funding))
    (addLog (JS.cat ["Funded Wallet "; JS.show_nat (index + 1); " - Confirmed"])
            SUCCESS (Some txh) s).

(** What the environment supplies to one run of [handleFundFleet]. *)
Record FundScript := mkFundScript {
  fs_random : nat -> KeyPair;
  fs_transfer : nat -> SendReply;
  fs_balance : nat -> option Z
}.

(** The [try] block of [handleFundFleet]: the state when it completes, or
    the state and the message of the error it throws.  The array
    [currentWallets] and the array in the state hold the same wallet
    objects throughout (the updaters copy the array, never a wallet), so
    the final refresh reads the wallets as the state has them. *)
Definition fund_try (sc : FundScript) (s : App) : App + (App * string) :=
  let '(currentWallets, s1) :=
    if (length (wallets s) =? 0)%nat
    then prepareFleet (fs_random sc) s
    else (wallets s, s) in
  if (length currentWallets =? 0)%nat
  then inr (s1, "Failed to initialize fleet.")
  else
    let s2 := addLog (JS.cat ["Dispersing "; fundingAmount (form s); " CELO to ";
                              JS.show_nat (length currentWallets);
                              " wallets (Blocking)..."]) INFO None s1 in
    match fundWallets E (funderKey (form s)) currentWallets
            (fundingAmount (form s)) onFunded (fs_transfer sc) s2 with
    | None => inr (s2, error_message E)
    | Some s3 =>
        let s4 := addLog "Funds confirmed. Waiting 3s for network propagation..."
                    WARNING None s3 in
        let s5 := updateFleetBalances (wallets s4) (fs_balance sc) s4 in
        inl (addLog "Funding sequence complete. Fleet Ready." SUCCESS None s5)
    end.

Definition handleFundFleet (sc : FundScript) (s : App) : App :=
  if isFunding s || isSwarming s then s
  else if negb (isValidPrivateKey E (funderKey (form s)))
  then addLog "Invalid Funder Private Key" ERROR None s
  else
    let s1 := set_isFunding true s in
    let s2 :=
      match fund_try sc s1 with
      | inl s' => s'
      | inr (s', msg) => addLog (JS.cat ["Funding Error: "; msg]) ERROR None s'
      end in
    set_isFunding false s2.

(** *** The swarm *)

Definition set_pc (w : nat) (pc : Pc) (s : App) : App :=
  set_tasks (alter (fun t => mkTask (t_wallet t) pc (t_seed t)) w) s.

Definition set_seed (w : nat) (n : nat) (s : App) : App :=
  set_tasks (alter (fun t => mkTask (t_wallet t) (t_pc t) (Some n)) w) s.

(** The two updaters of the stats:
    [s => ({ ...s, totalTx: s.totalTx + 1, successfulTx: s.successfulTx + 1 })]
    and the same with [failedTx]. *)
Definition count_success (st : Stats) : Stats :=
  mkStats (totalTx st + 1) (successfulTx st + 1) (failedTx st).
Definition count_failure (st : Stats) : Stats :=
  mkStats (totalTx st + 1) (successfulTx st) (failedTx st + 1).

(** The [catch] block around [executeInteraction] in the task of wallet
    [wIndex]. *)
Definition on_send_error (wIndex : nat) (reason msg : string) (s : App) : App :=
  let reason := JS.or_else reason (JS.or_else msg "Unknown error") in
  let s1 := addLog (JS.cat ["[W"; JS.show_nat (wIndex + 1); "] Tx Failed: "; reason])
              ERROR None s in
  let s2 := setStats count_failure s1 in
  setWallets (update_at wIndex (with_status error)) s2.

(** What follows [executeInteraction] in the [try] block. *)
Definition on_send_ok (wIndex i : nat) (txh : string) (s : App) : App :=
  let s1 := addLog (JS.cat ["[W"; JS.show_nat (wIndex + 1); "] Tx ";
                            JS.show_nat (i + 1); "/";
                            JS.show_Z (interactionsPerWallet (captured s));
                            " confirmed"]) SUCCESS (Some txh) s in
  let s2 := setStats count_success s1 in
  setWallets (update_at wIndex bump_txCount) s2.

(** The task of wallet [wIndex] arrives at the loop test with index [i]
    and local nonce [nonce], and runs to its next [await].  The call
    [executeInteraction(wallet, targetContract, customData, nonce++,
    gasLimit)] has five actuals for the four formals of the callee. *)
Definition enter_iteration (wIndex : nat) (wallet : WalletAccount)
  (i nonce : nat) (s : App) : App :=
  if (Z.of_nat i <? interactionsPerWallet (captured s))%Z
  then
    let s1 := setWallets (update_at wIndex (with_status sending)) s in
    match JS.call_surplus
            (executeInteraction E wallet (targetContract (captured s))
               (customData (captured s)) (Some nonce))
            (gasLimit (captured s)) with
    | Some (signerKey, txRequest) =>
        set_pc wIndex (AwaitSend i (nonce + 1))
          (observe (Req (Fleet wIndex) (SendTransaction signerKey txRequest)) s1)
    | None =>
        set_pc wIndex (AwaitPause i (nonce + 1))
          (on_send_error wIndex "" (error_message E) s1)
    end
  else
    set_pc wIndex Returned (setWallets (update_at wIndex (with_status done)) s).

(** [wallets.map(async (wallet, wIndex) => ...)]: every task runs up to
    its first [await], in index order. *)
Fixpoint spawn_from (ws : list WalletAccount) (wIndex : nat) (s : App) : App :=
  match ws with
  | [] => s
  | wallet :: rest =>
      spawn_from rest (S wIndex)
        (observe (Req (Fleet wIndex) (GetTransactionCount (address wallet))) s)
  end.

Definition handleStartSwarm (s : App) : App :=
  if isFunding s || isSwarming s then s
  else if negb (JS.truthy (targetContract (form s)))
  then addLog "Target Contract address required" ERROR None s
  else if (length (wallets s) =? 0)%nat
  then addLog "No active fleet. Generate or Fund first." ERROR None s
  else
    let s1 := set_isSwarming true s in
    let s2 := setStats (fun _ => zero_stats) s1 in
    let s3 := addLog "INITIATING SWARM SEQUENCE..." INFO None s2 in
    let s4 := addLog (JS.cat ["TARGET: "; targetContract (form s)]) INFO None s3 in
    let s5 := addLog (JS.cat ["INTENSITY: ";
                              JS.show_Z (interactionsPerWallet (form s));
                              " txs per wallet"]) INFO None s4 in
    let s6 := addLog (JS.cat ["GAS LIMIT: "; JS.show_Z (gasLimit (form s));
                              " (Estimation Skipped)"]) INFO None s5 in
    let s7 := set_run (form s)
                (map (fun w => mkTask w AwaitNonce None) (wallets s))
                (length (history s6)) s6 in
    spawn_from (wallets s) 0 s7.

(** The nonce request of task [w] settles. *)
Definition resume_nonce (w : nat) (reply : option nat) (s : App) : App :=
  match tasks s !! w with
  | Some (mkTask wallet AwaitNonce _) =>
      match reply with
      | None =>
          set_pc w Returned
            (addLog (JS.cat ["[W"; JS.show_nat (w + 1);
                             "] Failed to fetch initial nonce."]) ERROR None
               (observe (Rsp (Fleet w) false) s))
      | Some nonce =>
          enter_iteration w wallet 0 nonce
            (set_seed w nonce (observe (Rsp (Fleet w) true) s))
      end
  | _ => s
  end.

(** The transaction of task [w] settles. *)
Definition resume_send (w : nat) (reply : SendReply) (s : App) : App :=
  match tasks s !! w with
  | Some (mkTask wallet (AwaitSend i nonce) _) =>
      match reply with
      | Accepted tx =>
          set_pc w (AwaitPause i nonce)
            (on_send_ok w i (hash tx) (observe (Rsp (Fleet w) true) s))
      | Rejected reason msg =>
          set_pc w (AwaitPause i nonce)
            (on_send_error w reason msg (observe (Rsp (Fleet w) false) s))
      end
  | _ => s
  end.

(** The pause of task [w] is over: [i++] and back to the loop test. *)
Definition resume_pause (w : nat) (s : App) : App :=
  match tasks s !! w with
  | Some (mkTask wallet (AwaitPause i nonce) _) =>
      enter_iteration w wallet (i + 1) nonce s
  | _ => s
  end.

Definition returned (t : Task) : bool :=
  match t_pc t with
  | Returned => true
  | _ => false
  end.

(** [await Promise.all(walletPromises)] resumes once every task has
    returned.  The final refresh is started from inside the [setWallets]
    updater and is not awaited: [finally] lowers the flag while the first
    balance query is pending.  [reply] is how the queries of that refresh
    will settle. *)
Definition finish_swarm (reply : nat -> option Z) (s : App) : App :=
  if isSwarming s && forallb returned (tasks s)
  then
    let s1 := addLog "SWARM COMPLETE." SUCCESS None s in
    let s2 := start_refresh reply s1 in
    set_isSwarming false s2
  else s.

(** *** The controls *)

Definition handleDownloadWallets (s : App) : App :=
  if (length (wallets s) =? 0)%nat
  then addLog "No wallets to download." WARNING None s
  else addLog "Wallets exported to CSV." SUCCESS None s.

(** The effect that keeps [walletCount] at the number of non-blank lines
    while importing. *)
Definition sync_walletCount (f : Form) : Form :=
  match walletMode f with
  | generate => f
  | import =>
      let lines := filter (fun line => (0 <? String.length (JS.trim line))%nat = true)
                     (JS.split_nl (importText f)) in
      mkForm (targetContract f) (walletMode f) (Z.of_nat (length lines))
             (importText f) (interactionsPerWallet f) (fundingAmount f)
             (funderKey f) (customData f) (aiPrompt f) (gasLimit f)
  end.

(** What the hosted model answers; the service returns a fallback of the
    same shape instead of failing. *)
Record GeminiSuggestion := mkSuggestion {
  reasoning : string;
  hexData : string
}.

Definition quote : string := String (ascii_of_nat 34) EmptyString.

Definition handleAiGeneration (promptOverride : string)
  (result : GeminiSuggestion) (s : App) : App :=
  let f := form s in
  if negb (JS.truthy (targetContract f))
  then addLog "Please enter a target contract address first." WARNING None s
  else
    let promptToUse := JS.or_else promptOverride (aiPrompt f) in
    if negb (JS.truthy promptToUse)
    then addLog "Please select an action or enter a custom intent." WARNING None s
    else
      let s1 := addLog (JS.cat ["Gemini Processing: "; quote; promptToUse; quote])
                  INFO None s in
      let s2 := set_form (mkForm (targetContract f) (walletMode f) (walletCount f)
                            (importText f) (interactionsPerWallet f)
                            (fundingAmount f) (funderKey f) (hexData result)
                            promptToUse (gasLimit f)) s1 in
      addLog (JS.cat ["Payload Generated: "; reasoning result]) SUCCESS None s2.

(** [handleAiGeneration] when its [try] block throws after the first log
    entry, as it does when the value that the service resolves with has no
    fields to read: the [catch] block logs the failure. *)
Definition handleAiGeneration_caught (promptOverride : string) (s : App) : App :=
  let f := form s in
  if negb (JS.truthy (targetContract f))
  then addLog "Please enter a target contract address first." WARNING None s
  else
    let promptToUse := JS.or_else promptOverride (aiPrompt f) in
    if negb (JS.truthy promptToUse)
    then addLog "Please select an action or enter a custom intent." WARNING None s
    else
      let s1 := set_form (mkForm (targetContract f) (walletMode f) (walletCount f)
                            (importText f) (interactionsPerWallet f)
                            (fundingAmount f) (funderKey f) (customData f)
                            promptToUse (gasLimit f)) s in
      let s2 := addLog (JS.cat ["Gemini Processing: "; quote; promptToUse; quote])
                  INFO None s1 in
      addLog "Failed to generate AI data." ERROR None s2.

(** What can happen to the component.  The tasks of a swarm run
    interleaved on the event loop: the settlement of each of their awaits
    is an event of its own, with the answer of the chain client as payload,
    and they may arrive in any order.  A funding pass and a refresh are one
    async function awaiting one request after the other; each is taken in a
    single step, with the answers it will receive supplied beforehand.
    State updates are applied in the order they are enqueued. *)
Inductive Event :=
| EditForm (f : Form)                      (* the operator edits the form *)
| ClickFund (sc : FundScript)
| ClickSwarm
| ClickReset
| ClickRefresh (reply : nat -> option Z)
| ClickDownload
| ClickAi (promptOverride : string) (result : option GeminiSuggestion)
                                          (* None: the try block throws *)
| NonceSettled (w : nat) (reply : option nat)
| SendSettled (w : nat) (reply : SendReply)
| PauseOver (w : nat)
| AllSettled (reply : nat -> option Z)
| BalanceSettled (j : nat).               (* the query of refresh j settles *)

(** Buttons: Fund is disabled while busy; Swarm while busy or without a
    fleet; Reset, Refresh and CSV are rendered with a fleet only, the
    first two disabled while busy. *)
Definition step (s : App) (e : Event) : App :=
  match e with
  | EditForm f => set_form (sync_walletCount f) s
  | ClickFund sc => if isBusy s then s else handleFundFleet sc s
  | ClickSwarm =>
      if isBusy s || (length (wallets s) =? 0)%nat then s else handleStartSwarm s
  | ClickReset =>
      if (0 <? length (wallets s))%nat && negb (isBusy s) then resetFleet s else s
  | ClickRefresh reply =>
      if (0 <? length (wallets s))%nat && negb (isBusy s)
      then start_refresh reply s else s
  | ClickDownload =>
      if (0 <? length (wallets s))%nat then handleDownloadWallets s else s
  | ClickAi promptOverride (Some result) =>
      handleAiGeneration promptOverride result s
  | ClickAi promptOverride None => handleAiGeneration_caught promptOverride s
  | NonceSettled w reply => resume_nonce w reply s
  | SendSettled w reply => resume_send w reply s
  | PauseOver w => resume_pause w s
  | AllSettled reply => finish_swarm reply s
  | BalanceSettled j => resume_refresh j s
  end.

Definition run (s : App) (events : list Event) : App := fold_left step events s.

End Component.

(** ** Reading the history *)

Section Observations.

Context (E : Ethers).

Definition blank (key : string) : bool := (JS.trim key =? "")%string.

(** A line that yields a wallet, and a line that is skipped with a
    warning. *)
Definition valid_line (key : string) : bool :=
  negb (blank key) && isValidPrivateKey E (JS.trim key).
Definition invalid_line (key : string) : bool :=
  negb (blank key) && negb (isValidPrivateKey E (JS.trim key)).

Definition imported (key : string) : option WalletAccount :=
  if blank key then None else fresh_wallet <$> new_Wallet E (JS.trim key).

Definition warning_for (key : string) : Obs :=
  ConsoleWarn (JS.cat ["Invalid key skipped during import: "; key]).

Definition actor_eqb (a b : Actor) : bool :=
  match a, b with
  | Funder, Funder => true
  | Fleet x, Fleet y => (x =? y)%nat
  | Refresher, Refresher => true
  | _, _ => false
  end.

(** The requests that actor [a] handed to the chain client, in order. *)
Definition requests (a : Actor) (h : list Obs) : list ChainCall :=
  omap (fun o => match o with
                 | Req b c => if actor_eqb a b then Some c else None
                 | _ => None
                 end) h.

(** What the balance query number [i] of a refresh leaves in a wallet. *)
Definition queried (reply : nat -> option Z) (i : nat) : string :=
  match reply i with
  | Some bal => formatEther E bal
  | None => "0"
  end.

(** Two wallet records that differ in the balance at most. *)
Definition same_but_balance (w w' : WalletAccount) : Prop :=
  address w' = address w /\ privateKey w' = privateKey w /\
  txCount w' = txCount w /\ status w' = status w.

(** The request a swarm task hands over for nonce [n], as the closure of
    the run builds it. *)
Definition swarm_send (c : Form) (signerKey : string) (n : nat) : ChainCall :=
  SendTransaction signerKey
    (mkReq (targetContract c) 0 (Some (JS.or_else (customData c) "0x"))
           (Some n) None).

(** Componentwise order on the stats. *)
Definition stats_le (a b : Stats) : Prop :=
  totalTx a <= totalTx b /\ successfulTx a <= successfulTx b /\
  failedTx a <= failedTx b.

(** The part of the history written since the last swarm started. *)
Definition since_start (s : App) : list Obs := skipn (mark s) (history s).

(** The nonce discipline of one swarm task, in a run with closure [c]:
    [reqs] are the requests the task has handed to the chain client since
    the swarm started.  There is exactly one nonce request, the first of
    them.  Before it has succeeded nothing else is requested; after it
    returned [n0] the transactions carry the nonces [n0], [n0 + 1], ... in
    this order, one per iteration begun, the local nonce is [n0] plus their
    number, and a task that has returned has sent one per configured
    interaction. *)
Definition nonce_discipline (c : Form) (t : Task) (reqs : list ChainCall) : Prop :=
  exists kp,
    new_Wallet E (privateKey (t_wallet t)) = Some kp /\
    match t_seed t with
    | None =>
        reqs = [GetTransactionCount (address (t_wallet t))] /\
        (t_pc t = AwaitNonce \/ t_pc t = Returned)
    | Some n0 =>
        exists m,
          reqs = GetTransactionCount (address (t_wallet t))
                   :: map (swarm_send c (kp_privateKey kp)) (seq n0 m) /\
          match t_pc t with
          | AwaitNonce => False
          | AwaitSend i n | AwaitPause i n =>
              m = i + 1 /\ n = n0 + m /\
              (Z.of_nat i < interactionsPerWallet c)%Z
          | Returned => m = Z.to_nat (interactionsPerWallet c)
          end
    end.

(** The invariant of a running swarm. *)
Definition swarm_inv (s : App) : Prop :=
  isSwarming s = true /\
  mark s <= length (history s) /\
  forall w t, tasks s !! w = Some t ->
              nonce_discipline (captured s) t (requests (Fleet w) (since_start s)).

(** The reading of "a count rises only on confirmed success" in which the
    confirmation is the one the network gives for the transaction. *)
Definition counted_only_when_confirmed : Prop :=
  forall s e i w w',
    wallets s !! i = Some w -> wallets (step E s e) !! i = Some w' ->
    txCount w < txCount w' ->
    exists tx, e = SendSettled i (Accepted tx) /\ wait tx 1 = true.

(** An entry of the application log of warning level. *)
Definition is_warning (e : LogEntry) : bool :=
  match type e with
  | WARNING => true
  | _ => false
  end.

(** The reading of "each invalid line produces one warning-level log
    entry" in which the entry is one of the application log: an import
    adds as many warning entries to the log as it skips lines. *)
Definition invalid_lines_logged : Prop :=
  forall random s,
    walletMode (form s) = import -> wallets s = [] ->
    let lines := JS.split_nl (importText (form s)) in
    let s' := snd (prepareFleet E random s) in
    length (List.filter is_warning (skipn (length (logs s)) (logs s'))) =
    length (List.filter invalid_line lines).

(** What a refresh with the answers [reply] makes of the wallets [ws]:
    wallet [i] keeps its address, private key, transaction count and
    status, and has the formatted balance that its query returned, or "0"
    when the query failed. *)
Definition refreshed (reply : nat -> option Z) (ws ws' : list WalletAccount)
  : Prop :=
  length ws' = length ws /\
  forall i w, ws !! i = Some w ->
    exists w', ws' !! i = Some w' /\
      address w' = address w /\ privateKey w' = privateKey w /\
      txCount w' = txCount w /\ status w' = status w /\
      balance w' = match reply i with
                   | Some bal => formatEther E bal
                   | None => "0"
                   end.

(** How the nonce request of the task of wallet [w] has settled among the
    events that have arrived since the swarm started: [None] when it is
    still pending, [Some reply] with the reply of the chain client
    otherwise.  The task awaits one nonce request only, so the first
    settlement is the one that counts. *)
Fixpoint fetched (w : nat) (events : list Event) : option (option nat) :=
  match events with
  | [] => None
  | NonceSettled w' reply :: rest =>
      if (w' =? w)%nat then Some reply else fetched w rest
  | _ :: rest => fetched w rest
  end.

(** A task against the settlement of its nonce request: pending, failed,
    or answered with [n]. *)
Definition seed_agrees (r : option (option nat)) (t : Task) : Prop :=
  match r with
  | None => t_pc t = AwaitNonce /\ t_seed t = None
  | Some None => t_pc t = Returned /\ t_seed t = None
  | Some (Some n) => t_seed t = Some n /\ t_pc t <> AwaitNonce
  end.

(** Events other than the one that ends the swarm. *)
Definition during_run (e : Event) : bool :=
  match e with
  | AllSettled _ => false
  | _ => true
  end.

End Observations.

(** ** The trace of a funding pass *)

Definition funding_failed (i : nat) : Obs :=
  ConsoleError (JS.cat ["Funding failed for wallet "; JS.show_nat i]).

Definition funded_entry (index : nat) (txh : string) : LogEntry :=
  mkLog (JS.cat ["Funded Wallet "; JS.show_nat (index + 1); " - Confirmed"])
        SUCCESS (Some txh).

(** What the transfer to fleet wallet [i] leaves in the history, from the
    request to its settlement. *)
Definition transfer_trace (funderKey : string) (amountWei : Z) (i : nat)
  (target : WalletAccount) (r : SendReply) : list Obs :=
  Req Funder (SendTransaction funderKey
                (mkReq (address target) amountWei None None None)) ::
  match r with
  | Rejected _ _ => [Rsp Funder false; funding_failed i]
  | Accepted tx =>
      Rsp Funder true :: Req Funder (Wait (hash tx) 1) ::
      (if wait tx 1
       then [Rsp Funder true; Logged (funded_entry i (hash tx))]
       else [Rsp Funder false; funding_failed i])
  end.

(** The transfer was accepted and its first confirmation arrived. *)
Definition confirmed (r : SendReply) : bool :=
  match r with
  | Accepted tx => wait tx 1
  | Rejected _ _ => false
  end.

(** The addresses that a list of requests sends to. *)
Definition recipients (cs : list ChainCall) : list string :=
  omap (fun c => match c with
                 | SendTransaction _ r => Some (req_to r)
                 | _ => None
                 end) cs.

(** The entries that a piece of history appends to the log. *)
Definition logged (h : list Obs) : list LogEntry :=
  omap (fun o => match o with Logged e => Some e | _ => None end) h.

(** A monitor for the funder: it follows one transfer at a time from the
    request to its settlement, accepts the next request only when no
    transfer is in flight, and accepts the success entry of the callback
    only right after the confirmation of the same transaction. *)
Inductive FundPhase :=
| NoTransfer
| Submitting
| Broadcast
| Confirming (txh : string)
| ConfirmedTx (txh : string)
| FailedTransfer.

Definition fund_monitor_step (ph : FundPhase) (o : Obs) : option FundPhase :=
  match ph, o with
  | NoTransfer, Req Funder (SendTransaction _ _) => Some Submitting
  | Submitting, Rsp Funder true => Some Broadcast
  | Submitting, Rsp Funder false => Some FailedTransfer
  | Broadcast, Req Funder (Wait txh 1) => Some (Confirming txh)
  | Confirming txh, Rsp Funder true => Some (ConfirmedTx txh)
  | Confirming txh, Rsp Funder false => Some FailedTransfer
  | ConfirmedTx txh, Logged (mkLog _ SUCCESS (Some txh')) =>
      if (txh =? txh')%string then Some NoTransfer else None
  | FailedTransfer, ConsoleError _ => Some NoTransfer
  | _, _ => None
  end.

Fixpoint fund_monitor (ph : FundPhase) (tr : list Obs) : option FundPhase :=
  match tr with
  | [] => Some ph
  | o :: tr' =>
      match fund_monitor_step ph o with
      | Some ph' => fund_monitor ph' tr'
      | None => None
      end
  end.

(** ** Relations between states *)

(** Everything of the state that a balance query leaves alone. *)
Definition same_hooks (s s' : App) : Prop :=
  isFunding s' = isFunding s /\ isSwarming s' = isSwarming s /\
  logs s' = logs s /\ wallets s' = wallets s /\ stats s' = stats s /\
  form s' = form s /\ captured s' = captured s /\ tasks s' = tasks s /\
  mark s' = mark s.

(** The operations outside the swarm tasks touch neither the stats nor the
    bookkeeping of the swarm. *)
Definition quiet (s s' : App) : Prop :=
  isFunding s' = isFunding s /\ isSwarming s' = isSwarming s /\
  stats s' = stats s /\ form s' = form s /\ captured s' = captured s /\
  tasks s' = tasks s /\ mark s' = mark s.

(** What no step of a task changes. *)
Definition task_frame (s s' : App) : Prop :=
  isFunding s' = isFunding s /\ isSwarming s' = isSwarming s /\
  form s' = form s /\ captured s' = captured s /\ mark s' = mark s.

Definition moved (w : nat) (pc : Pc) (ts : list Task) : list Task :=
  alter (fun t => mkTask (t_wallet t) pc (t_seed t)) w ts.

Definition seeded (w : nat) (n : nat) (ts : list Task) : list Task :=
  alter (fun t => mkTask (t_wallet t) (t_pc t) (Some n)) w ts.

(** What holds of the fleet and the tasks in every state the component
    reaches: outside a swarm every task has returned, a swarm has a fleet,
    and without a fleet the stats are zero. *)
Definition coherent (s : App) : Prop :=
  (isSwarming s = false -> forallb returned (tasks s) = true) /\
  (isSwarming s = true -> wallets s <> []) /\
  (wallets s = [] -> stats s = zero_stats).

(** ** The rest of the chain service and the model service *)

Section MoreServices.

Context (E : Ethers).

(** [getWalletInfo(privateKey)]: [null] when the constructor throws or the
    balance query rejects; [reply] is how [provider.getBalance] settles. *)
Definition getWalletInfo (privateKey : string) (reply : option Z)
  : option (string * string) :=
  match new_Wallet E privateKey with
  | None => None
  | Some wallet =>
      match reply with
      | Some balanceWei => Some (kp_address wallet, formatEther E balanceWei)
      | None => None
      end
  end.

(** [checkBalance] of the effect on [funderKey], once its timer has fired:
    the new value of [funderBalance]. *)
Definition checkBalance (funderKey : string) (reply : option Z)
  (funderBalance : option string) : option string :=
  if isValidPrivateKey E funderKey
  then match getWalletInfo funderKey reply with
       | Some info => Some (snd info)
       | None => funderBalance
       end
  else None.

End MoreServices.

(** How [ai.models.generateContent] settles: it throws, or answers with a
    text that may be empty. *)
Inductive ModelReply :=
| ModelThrows
| ModelText (text : string).

Definition missing_key_suggestion : GeminiSuggestion :=
  mkSuggestion "API Key missing. Defaulting to empty transaction." "0x".

Definition failed_suggestion : GeminiSuggestion :=
  mkSuggestion "Failed to generate data. Defaulting to empty transaction." "0x".

(** [generateInteractionData]: the suggestion and what it writes to the
    console.  [ai] tells whether the client was built from an API key,
    [parse] is [JSON.parse] cast to the suggestion type ([None]: it
    throws).  The request fixes the response schema to an object with the
    string fields [hexData] and [reasoning], both required.  The cast
    checks nothing: should the text parse to a value without fields, the
    component throws when it reads them, which is the event [ClickAi] with
    no suggestion. *)
Definition generateInteractionData (ai : bool)
  (parse : string -> option GeminiSuggestion) (reply : ModelReply)
  : GeminiSuggestion * list Obs :=
  if negb ai
  then (missing_key_suggestion,
        [ConsoleWarn "Gemini API Key missing, returning default."])
  else
    match reply with
    | ModelText text =>
        if JS.truthy text
        then match parse text with
             | Some suggestion => (suggestion, [])
             | None => (failed_suggestion, [ConsoleError "Gemini Error:"])
             end
        else (failed_suggestion, [ConsoleError "Gemini Error:"])
    | ModelThrows => (failed_suggestion, [ConsoleError "Gemini Error:"])
    end.

(** ** The ledger of a swarm *)

(** The iterations of its loop that a task has been through: those whose
    transaction has settled, all of them once it has returned. *)
Definition attempts (c : Form) (t : Task) : nat :=
  match t_pc t with
  | AwaitNonce => 0
  | AwaitSend i _ => i
  | AwaitPause i _ => i + 1
  | Returned =>
      match t_seed t with
      | Some _ => Z.to_nat (interactionsPerWallet c)
      | None => 0
      end
  end.

(** A fleet wallet [wal] against its task [t], which holds the wallet as
    it was when the swarm started. *)
Definition wallet_follows (c : Form) (t : Task) (wal : WalletAccount) : Prop :=
  address wal = address (t_wallet t) /\
  privateKey wal = privateKey (t_wallet t) /\
  txCount (t_wallet t) <= txCount wal /\
  txCount wal <= txCount (t_wallet t) + attempts c t /\
  match t_pc t, t_seed t with
  | AwaitNonce, None => status wal = status (t_wallet t)
  | Returned, None => status wal = status (t_wallet t)
  | AwaitSend i _, Some _ =>
      status wal = sending /\ (Z.of_nat i < interactionsPerWallet c)%Z
  | AwaitPause i _, Some _ =>
      (status wal = sending \/ status wal = error) /\
      (Z.of_nat i < interactionsPerWallet c)%Z
  | Returned, Some _ => status wal = done
  | _, _ => False
  end.

(** The books of a running swarm. *)
Definition ledger (s : App) : Prop :=
  isSwarming s = true /\
  totalTx (stats s) = sum_list_with (attempts (captured s)) (tasks s) /\
  sum_list_with txCount (wallets s) =
    sum_list_with (fun t => txCount (t_wallet t)) (tasks s)
      + successfulTx (stats s) /\
  Forall2 (wallet_follows (captured s)) (tasks s) (wallets s).

(** The tasks whose nonce request has succeeded. *)
Definition seeded_tasks (ts : list Task) : nat :=
  length (List.filter (fun t => match t_seed t with
                                | Some _ => true
                                | None => false
                                end) ts).

(** The resumptions that take the task of wallet [w] from its nonce to its
    return, when the chain client answers its nonce request with [reply]
    and its i-th transaction with [sent i]. *)
Fixpoint rounds (w : nat) (sent : nat -> SendReply) (i n : nat) : list Event :=
  match n with
  | 0 => []
  | S n' => SendSettled w (sent i) :: PauseOver w :: rounds w sent (S i) n'
  end.

Definition task_schedule (w : nat) (reply : option nat)
  (sent : nat -> SendReply) (k : Z) : list Event :=
  NonceSettled w reply :: rounds w sent 0 (Z.to_nat k).

(** The tasks of a fleet of [n] wallets answered one after the other. *)
Definition fleet_schedule (n : nat) (nonce : nat -> option nat)
  (sent : nat -> nat -> SendReply) (k : Z) : list Event :=
  flat_map (fun w => task_schedule w (nonce w) (sent w) k) (seq 0 n).

(** What a resumption of the task of wallet [w] leaves alone, and where
    the task can be afterwards. *)
Definition task_moved (w : nat) (wallet : WalletAccount) (s s' : App)
  (pc' : Pc) (seed' : option nat) : Prop :=
  captured s' = captured s /\ isSwarming s' = isSwarming s /\
  length (tasks s') = length (tasks s) /\
  (forall j, j <> w -> tasks s' !! j = tasks s !! j) /\
  tasks s' !! w = Some (mkTask wallet pc' seed').

Definition at_round (i : nat) (pc : Pc) : Prop :=
  exists m, pc = AwaitSend i m \/ pc = AwaitPause i m.

(** ** A stand-in for the library, to run the program on examples *)

Module Sample.

Definition is_hex (c : ascii) : bool :=
  let n := nat_of_ascii c in
  ((48 <=? n)%nat && (n <=? 57)%nat) || ((97 <=? n)%nat && (n <=? 102)%nat)
  || ((65 <=? n)%nat && (n <=? 70)%nat).

Fixpoint all_hex (s : string) : bool :=
  match s with
  | EmptyString => true
  | String c s' => is_hex c && all_hex s'
  end.

Definition strip_0x (s : string) : string :=
  match s with
  | String "0" (String "x" rest) => rest
  | _ => s
  end.

(** Accepts 64 hex digits, with or without the 0x prefix; the address is
    cut from the key instead of derived on the curve. *)
Definition new_Wallet (key : string) : option KeyPair :=
  let body := strip_0x key in
  if (String.length body =? 64)%nat && all_hex body
  then Some (mkKeyPair (String.append "0x" (substring 24 40 body))
                       (String.append "0x" body))
  else None.

Definition parseEther (amount : string) : option Z :=
  if (amount =? "0.01")%string then Some 10000000000000000%Z
  else if (amount =? "1")%string then Some 1000000000000000000%Z
  else None.

Definition formatEther (wei : Z) : string :=
  JS.cat [JS.show_Z wei; " wei"].

Definition lib : Ethers :=
  mkEthers new_Wallet parseEther formatEther "invalid argument".

Definition key1 : string :=
  "0x1111111111111111111111111111111111111111111111111111111111111111".
Definition key2 : string :=
  "2222222222222222222222222222222222222222222222222222222222222222".

Definition blank_form : Form :=
  mkForm "" generate 5 "" 10 "0.01" "" "" "" 300000.

Definition random (i : nat) : KeyPair :=
  mkKeyPair (JS.cat ["0xaddr"; JS.show_nat i]) key1.

Definition wallet1 : WalletAccount := mkWallet "0xA1" key1 "0" 0 idle.
Definition wallet2 : WalletAccount := mkWallet "0xA2" key2 "0" 0 idle.

(** A session with a two-wallet fleet, ready to swarm. *)
Definition ready : App :=
  mkApp false false [] [wallet1; wallet2] zero_stats
        (mkForm "0xABC" generate 2 "" 3 "0.01" key1 "" "" 300000)
        blank_form [] 0 [] [].

Definition funder : KeyPair :=
  mkKeyPair "0x1111111111111111111111111111111111111111" key1.

(** A transaction that gets its confirmation, and one that never does. *)
Definition confirmed_tx (txh : string) : TransactionResponse :=
  mkTx txh (fun _ => true).
Definition unconfirmed_tx (txh : string) : TransactionResponse :=
  mkTx txh (fun _ => false).

Definition transfers (i : nat) : SendReply :=
  match i with
  | 0 => Accepted (confirmed_tx "0xf0")
  | 1 => Rejected "" "insufficient funds"
  | _ => Accepted (unconfirmed_tx "0xf2")
  end.

Definition balances (i : nat) : option Z :=
  match i with
  | 0 => Some 10000000000000000%Z
  | _ => None
  end.

Definition script : FundScript := mkFundScript random transfers balances.

Definition funding_form : Form :=
  mkForm "0xABC" generate 2 "" 3 "0.01" key1 "" "" 300000.

Definition nl : string := String "010"%char EmptyString.

(** Two lines with a key, a blank line, and a line that is no key. *)
Definition import_form : Form :=
  mkForm "0xABC" import 0
         (JS.cat ["  "; key1; nl; "   "; nl; "not a key"; nl; key2])
         3 "0.01" key1 "" "" 300000.

(** The operator fills the form and funds a generated fleet. *)
Definition session : list Event := [EditForm funding_form; ClickFund script].

(** A swarm task gets its nonce, one transaction through, one rejected. *)
Definition swarm_events : list Event :=
  [NonceSettled 0 (Some 7); NonceSettled 1 None;
   SendSettled 0 (Accepted (unconfirmed_tx "0xh1")); PauseOver 0;
   SendSettled 0 (Rejected "" "nonce too low"); PauseOver 0].

Definition no_target : App :=
  mkApp false false [] [wallet1; wallet2] zero_stats blank_form
        blank_form [] 0 [] [].

End Sample.

(** * Properties *)

(** ** Import *)

Section ImportKeys.

Context (E : Ethers).

Lemma skip_test (key : string) :
  negb (JS.truthy key) || (JS.trim key =? "")%string = blank key.
Proof.
  unfold blank, JS.truthy. destruct key as [|c key]; [reflexivity|].
  reflexivity.
Qed.

Lemma omap_cons {A B : Type} (f : A -> option B) (x : A) (l : list A) :
  omap f (x :: l) =
  match f x with Some y => y :: omap f l | None => omap f l end.
Proof. reflexivity. Qed.

Lemma createWalletsFromKeys_from_wallets (keys : list string) :
  forall acc s,
    fst (createWalletsFromKeys_from E keys acc s) = acc ++ omap (imported E) keys.
Proof.
  induction keys as [|key rest IH]; intros acc s.
  - cbn. by rewrite app_nil_r.
  - cbn [createWalletsFromKeys_from]. rewrite skip_test, omap_cons.
    change (imported E key) with
      (if blank key then None else fresh_wallet <$> new_Wallet E (JS.trim key)).
    destruct (blank key); [apply IH|].
    destruct (new_Wallet E (JS.trim key)) as [kp|]; cbn [fmap option_fmap option_map].
    + rewrite IH. by rewrite <- app_assoc.
    + apply IH.
Qed.

Lemma createWalletsFromKeys_from_history (keys : list string) :
  forall acc s,
    history (snd (createWalletsFromKeys_from E keys acc s)) =
    history s ++ map warning_for (List.filter (invalid_line E) keys).
Proof.
  induction keys as [|key rest IH]; intros acc s.
  - cbn. by rewrite app_nil_r.
  - cbn [createWalletsFromKeys_from List.filter]. rewrite skip_test.
    change (invalid_line E key) with
      (negb (blank key) && negb (isValidPrivateKey E (JS.trim key))).
    unfold isValidPrivateKey.
    destruct (blank key); cbn [negb andb]; [apply IH|].
    destruct (new_Wallet E (JS.trim key)) as [kp|]; cbn [negb andb].
    + apply IH.
    + rewrite IH. cbn [history observe map]. by rewrite <- app_assoc.
Qed.

(** The loop writes to the console only: the hooks are as before. *)
Lemma createWalletsFromKeys_from_frame (keys : list string) :
  forall acc s,
    let s' := snd (createWalletsFromKeys_from E keys acc s) in
    logs s' = logs s /\ wallets s' = wallets s /\ stats s' = stats s /\
    isFunding s' = isFunding s /\ isSwarming s' = isSwarming s /\
    form s' = form s /\ tasks s' = tasks s /\ mark s' = mark s /\
    captured s' = captured s.
Proof.
  induction keys as [|key rest IH]; intros acc s; simpl.
  - repeat split.
  - destruct (negb (JS.truthy key) || (JS.trim key =? "")%string); [apply IH|].
    destruct (new_Wallet E (JS.trim key)); [apply IH|].
    specialize (IH acc (observe (warning_for key) s)). simpl in IH. apply IH.
Qed.

Lemma omap_imported_length (keys : list string) :
  length (omap (imported E) keys) = length (List.filter (valid_line E) keys).
Proof.
  induction keys as [|key rest IH]; [reflexivity|].
  rewrite omap_cons. cbn [List.filter].
  change (imported E key) with
    (if blank key then None else fresh_wallet <$> new_Wallet E (JS.trim key)).
  change (valid_line E key) with
    (negb (blank key) && isValidPrivateKey E (JS.trim key)).
  unfold isValidPrivateKey.
  destruct (blank key); cbn; [exact IH|].
  destruct (new_Wallet E (JS.trim key)); cbn; by rewrite IH.
Qed.

Lemma imported_no_blank (key : string) :
  isValidPrivateKey E "" = false ->
  imported E key = fresh_wallet <$> new_Wallet E (JS.trim key).
Proof.
  intros Hempty. unfold imported, blank.
  destruct (String.eqb_spec (JS.trim key) "") as [Heq|]; [|reflexivity].
  rewrite Heq. unfold isValidPrivateKey in Hempty.
  destruct (new_Wallet E ""); [discriminate|reflexivity].
Qed.

(** C10. Import and key validation agree up to trimming: a single string
    yields exactly one wallet when it is not blank and its trimmed form is a
    valid private key, and none otherwise; a list of strings yields, in
    input order, the wallet of each element whose trimmed form is a valid
    private key.  The empty string is not a key for the library. *)
Theorem import_agrees_with_validation (keys : list string) (s : App)
  (Hempty : isValidPrivateKey E "" = false) :
  (forall k,
     length (fst (createWalletsFromKeys E [k] s)) =
     if isValidPrivateKey E (JS.trim k) && negb (blank k) then 1 else 0) /\
  fst (createWalletsFromKeys E keys s) =
    omap (fun k => fresh_wallet <$> new_Wallet E (JS.trim k)) keys /\
  length (fst (createWalletsFromKeys E keys s)) =
    length (List.filter (fun k => isValidPrivateKey E (JS.trim k)) keys).
Proof.
  unfold createWalletsFromKeys. split; [|split].
  - intros k. rewrite createWalletsFromKeys_from_wallets.
    rewrite omap_cons. unfold imported, isValidPrivateKey.
    destruct (blank k); [by rewrite andb_false_r|].
    destruct (new_Wallet E (JS.trim k)); reflexivity.
  - rewrite createWalletsFromKeys_from_wallets. cbn [app].
    induction keys as [|k rest IH]; [reflexivity|].
    rewrite !omap_cons, (imported_no_blank k Hempty), IH. reflexivity.
  - rewrite createWalletsFromKeys_from_wallets. cbn [app].
    induction keys as [|k rest IH]; [reflexivity|].
    rewrite omap_cons, (imported_no_blank k Hempty). cbn [List.filter].
    unfold isValidPrivateKey at 1.
    destruct (new_Wallet E (JS.trim k));
      cbn [fmap option_fmap option_map length]; by rewrite IH.
Qed.

Lemma filter_valid_nil_omap (keys : list string) :
  List.filter (valid_line E) keys = [] -> omap (imported E) keys = [].
Proof.
  intros H. apply length_zero_iff_nil.
  by rewrite omap_imported_length, H.
Qed.

(** C7, as the program has it.  Preparing the fleet from an import text
    (with no fleet yet, as at its only call site): the fleet holds one
    wallet per line that is not blank and whose trimmed content is a valid
    private key; each invalid non-blank line yields no wallet and exactly
    one warning, which goes to the console (console.warn) and not to the
    application log: the log receives the two entries of the operation
    itself and nothing else, none of them of warning level; with no valid
    key the operation returns no wallets, logs an error and the fleet
    stays empty. *)
Theorem import_fleet (random : nat -> KeyPair) (s : App)
  (Hmode : walletMode (form s) = import) (Hnone : wallets s = []) :
  let lines := JS.split_nl (importText (form s)) in
  let newWallets := fst (prepareFleet E random s) in
  let s' := snd (prepareFleet E random s) in
  wallets s' = newWallets /\
  newWallets = omap (imported E) lines /\
  length (wallets s') = length (List.filter (valid_line E) lines) /\
  (exists final,
     history s' =
       history s ++ Logged (mkLog "Parsing imported keys..." INFO None)
         :: map warning_for (List.filter (invalid_line E) lines) ++ [Logged final] /\
     logs s' = logs s ++ [mkLog "Parsing imported keys..." INFO None; final] /\
     type final = (if (length (List.filter (valid_line E) lines) =? 0)%nat
                   then ERROR else SUCCESS)) /\
  (List.filter (valid_line E) lines = [] ->
     newWallets = [] /\ wallets s' = [] /\
     logs s' = logs s ++ [mkLog "Parsing imported keys..." INFO None;
                          mkLog "No valid keys found in import." ERROR None]).
Proof.
  intros lines newWallets s'. subst newWallets s'. unfold prepareFleet.
  rewrite Hmode. fold lines.
  set (s1 := addLog "Parsing imported keys..." INFO None s).
  pose proof (createWalletsFromKeys_from_wallets lines [] s1) as Hw.
  pose proof (createWalletsFromKeys_from_history lines [] s1) as Hh.
  pose proof (createWalletsFromKeys_from_frame lines [] s1) as Hf.
  cbn zeta in Hf. destruct Hf as (Hlogs & Hws & _).
  unfold createWalletsFromKeys.
  destruct (createWalletsFromKeys_from E lines [] s1) as [ws s2].
  cbn [fst snd app] in *. subst ws.
  pose proof (omap_imported_length lines) as Hlen.
  destruct (Nat.eqb_spec (length (omap (imported E) lines)) 0) as [Hz|Hnz];
    cbn [fst snd].
  - apply length_zero_iff_nil in Hz as Hnil.
    cbn [wallets addLog observe set_logs logs history]. rewrite Hws.
    cbn [wallets addLog observe set_logs s1]. rewrite Hnone, Hnil.
    repeat split; [by rewrite <- Hlen, Hnil|..].
    + eexists. rewrite Hh, Hlogs. cbn [history logs addLog observe set_logs s1].
      rewrite <- !app_assoc. cbn [app]. repeat split.
      by rewrite <- Hlen, Hnil.
    + rewrite Hlogs. cbn [logs addLog observe set_logs s1].
      by rewrite <- app_assoc.
  - cbn [wallets setWallets addLog observe set_logs logs history].
    repeat split; [by rewrite <- Hlen|..].
    + eexists. rewrite Hh, Hlogs. cbn [history logs addLog observe set_logs s1].
      rewrite <- !app_assoc. cbn [app]. repeat split.
      rewrite <- Hlen. by destruct (Nat.eqb_spec (length (omap (imported E) lines)) 0).
    + exfalso. apply Hnz.
      match goal with
      | H : List.filter (valid_line E) lines = [] |- _ =>
          by rewrite (filter_valid_nil_omap _ H)
      end.
    + exfalso. apply Hnz.
      match goal with
      | H : List.filter (valid_line E) lines = [] |- _ =>
          by rewrite (filter_valid_nil_omap _ H)
      end.
    + exfalso. apply Hnz.
      match goal with
      | H : List.filter (valid_line E) lines = [] |- _ =>
          by rewrite (filter_valid_nil_omap _ H)
      end.
Qed.

End ImportKeys.

(** ** Projections of the setters *)

Ltac fields :=
  cbn [isFunding isSwarming logs wallets stats form captured tasks mark history
       refreshes set_refreshes
       set_isFunding set_isSwarming set_logs setWallets setStats set_form
       set_run set_tasks observe addLog set_pc set_seed fst snd].

Ltac fields_in H :=
  cbn [isFunding isSwarming logs wallets stats form captured tasks mark history
       refreshes set_refreshes
       set_isFunding set_isSwarming set_logs setWallets setStats set_form
       set_run set_tasks observe addLog set_pc set_seed fst snd] in H.

Lemma requests_app (a : Actor) (h1 h2 : list Obs) :
  requests a (h1 ++ h2) = requests a h1 ++ requests a h2.
Proof. unfold requests. apply omap_app. Qed.

Lemma actor_eqb_refl (a : Actor) : actor_eqb a a = true.
Proof. destruct a; simpl; auto using Nat.eqb_refl. Qed.

(** ** Refreshing the balances *)

Section Refresh.

Context (E : Ethers).

Lemma getBalance_spec (addr : string) (reply : option Z) (s : App) :
  let r := getBalance E addr reply s in
  fst r = match reply with Some bal => formatEther E bal | None => "0" end /\
  same_hooks s (snd r) /\
  exists tr, history (snd r) = history s ++ tr /\
             requests Refresher tr = [GetBalance addr].
Proof.
  unfold getBalance, getBalance_settled, same_hooks.
  destruct reply as [bal|]; fields.
  - repeat split. eexists. rewrite <- app_assoc. split; [reflexivity|].
    reflexivity.
  - repeat split. eexists. rewrite <- !app_assoc. split; [reflexivity|].
    reflexivity.
Qed.

Lemma updateFleetBalances_from_spec (ws : list WalletAccount) :
  forall i reply s,
    let r := updateFleetBalances_from E ws i reply s in
    fst r = imap (fun j w => with_balance (queried E reply (i + j)) w) ws /\
    same_hooks s (snd r) /\
    exists tr, history (snd r) = history s ++ tr /\
               requests Refresher tr = map (fun w => GetBalance (address w)) ws.
Proof.
  induction ws as [|w rest IH]; intros i reply s r; subst r.
  - cbn. unfold same_hooks. repeat split. exists []. by rewrite app_nil_r.
  - cbn [updateFleetBalances_from].
    destruct (getBalance_spec (address w) (reply i) s) as (Hb & Hf & tr & Hh & Hr).
    destruct (getBalance E (address w) (reply i) s) as [bal s1].
    cbn [fst snd] in *.
    specialize (IH (S i) reply s1).
    destruct IH as (Hw' & Hf' & tr' & Hh' & Hr').
    destruct (updateFleetBalances_from E rest (S i) reply s1) as [rest' s2].
    cbn [fst snd] in *. split; [|split].
    + subst rest' bal. cbn [imap]. f_equal.
      * unfold queried. by rewrite Nat.add_0_r.
      * apply imap_ext. intros j x _. cbn. do 2 f_equal. lia.
    + unfold same_hooks in *. intuition congruence.
    + exists (tr ++ tr'). rewrite Hh', Hh, <- app_assoc. split; [reflexivity|].
      rewrite requests_app, Hr, Hr'. reflexivity.
Qed.

Lemma with_balance_same (b : string) (w : WalletAccount) :
  same_but_balance w (with_balance b w).
Proof. unfold same_but_balance. by destruct w. Qed.

(** A refresh pass that is awaited, over a wallet list. *)
Lemma updateFleetBalances_pass (currentWallets : list WalletAccount)
  (reply : nat -> option Z) (s : App) :
  let s' := updateFleetBalances E currentWallets reply s in
  length (wallets s') = length currentWallets /\
  Forall2 same_but_balance currentWallets (wallets s') /\
  wallets s' =
    imap (fun i w => with_balance (queried E reply i) w) currentWallets /\
  requests Refresher (history s') =
    requests Refresher (history s)
      ++ map (fun w => GetBalance (address w)) currentWallets /\
  stats s' = stats s.
Proof.
  intros s'. subst s'. unfold updateFleetBalances.
  set (s0 := addLog "Refreshing fleet balances..." INFO None s).
  destruct (updateFleetBalances_from_spec currentWallets 0 reply s0)
    as (Hw & Hf & tr & Hh & Hr).
  destruct (updateFleetBalances_from E currentWallets 0 reply s0) as [ws' s1].
  cbn [fst snd] in *. fields.
  assert (Hws : ws' = imap (fun i w => with_balance (queried E reply i) w)
                        currentWallets).
  { rewrite Hw. apply imap_ext. intros j x _. reflexivity. }
  split; [|split; [|split; [|split]]].
  - rewrite Hws. apply length_imap.
  - rewrite Hws. apply Forall2_same_length_lookup. split.
    + by rewrite length_imap.
    + intros i w w' Hi Hi'. rewrite list_lookup_imap, Hi in Hi'.
      cbn in Hi'. inversion Hi'. apply with_balance_same.
  - exact Hws.
  - rewrite Hh. subst s0. fields. rewrite !requests_app, Hr. cbn.
    by rewrite app_nil_r.
  - destruct Hf as (_ & _ & _ & _ & Hst & _). rewrite Hst. reflexivity.
Qed.

End Refresh.

(** ** What each operation leaves alone *)

Lemma quiet_refl (s : App) : quiet s s.
Proof. unfold quiet. repeat split. Qed.

Lemma quiet_trans (s1 s2 s3 : App) : quiet s1 s2 -> quiet s2 s3 -> quiet s1 s3.
Proof. unfold quiet. intuition congruence. Qed.

Lemma same_hooks_quiet (s s' : App) : same_hooks s s' -> quiet s s'.
Proof. unfold same_hooks, quiet. intuition. Qed.

Lemma addLog_quiet (m : string) (t : LogType) (h : option string) (s : App) :
  quiet s (addLog m t h s).
Proof. unfold quiet. fields. repeat split. Qed.

Lemma setWallets_quiet (f : list WalletAccount -> list WalletAccount) (s : App) :
  quiet s (setWallets f s).
Proof. unfold quiet. fields. repeat split. Qed.

Lemma observe_quiet (o : Obs) (s : App) : quiet s (observe o s).
Proof. unfold quiet. fields. repeat split. Qed.

Lemma txCount_update_status (i : nat) (st : Status) (ws : list WalletAccount) :
  map txCount (update_at i (with_status st) ws) = map txCount ws.
Proof.
  unfold update_at. apply list_eq. intros j.
  rewrite !list_lookup_fmap, list_lookup_alter.
  case_decide; [subst|reflexivity]. by destruct (ws !! j).
Qed.

Lemma txCount_imap_balance (f : nat -> string) (ws : list WalletAccount) :
  map txCount (imap (fun i w => with_balance (f i) w) ws) = map txCount ws.
Proof.
  apply list_eq. intros j. rewrite !list_lookup_fmap, list_lookup_imap.
  by destruct (ws !! j).
Qed.

Section Frames.

Context (E : Ethers).

Lemma updateFleetBalances_quiet (ws : list WalletAccount)
  (reply : nat -> option Z) (s : App) :
  quiet s (updateFleetBalances E ws reply s) /\
  map txCount (wallets (updateFleetBalances E ws reply s)) = map txCount ws.
Proof.
  unfold updateFleetBalances.
  set (s0 := addLog "Refreshing fleet balances..." INFO None s).
  destruct (updateFleetBalances_from_spec E ws 0 reply s0) as (Hw & Hf & _).
  destruct (updateFleetBalances_from E ws 0 reply s0) as [ws' s1].
  cbn [fst snd] in *. split.
  - eapply quiet_trans; [apply addLog_quiet|]. fold s0.
    eapply quiet_trans; [apply same_hooks_quiet, Hf|]. apply setWallets_quiet.
  - fields. rewrite Hw. apply txCount_imap_balance.
Qed.

(** Starting a refresh: one log entry, at most one request, no change to
    the fleet. *)
Lemma start_refresh_spec (reply : nat -> option Z) (s : App) :
  let s' := start_refresh reply s in
  quiet s s' /\ wallets s' = wallets s /\
  logs s' = logs s ++ [mkLog "Refreshing fleet balances..." INFO None] /\
  exists tr, history s' = history s ++ tr /\
             (forall a, a <> Refresher -> requests a tr = []) /\
             requests Refresher tr =
               match wallets s !! 0 with
               | Some w => [GetBalance (address w)]
               | None => []
               end.
Proof.
  cbn zeta. unfold start_refresh. fields.
  destruct (wallets s !! 0) as [w|]; fields.
  - split; [unfold quiet; by repeat split|]. split; [reflexivity|].
    split; [reflexivity|]. eexists. rewrite <- app_assoc.
    split; [reflexivity|]. split; [|reflexivity].
    intros a Ha. destruct a; try reflexivity. contradiction.
  - split; [unfold quiet; by repeat split|]. split; [reflexivity|].
    split; [reflexivity|]. eexists. split; [reflexivity|].
    split; [|reflexivity]. intros a Ha. reflexivity.
Qed.

(** A balance query of a refresh settles: nothing changes but one balance
    of the fleet, the state of the refresh, and the history. *)
Lemma resume_refresh_spec (j : nat) (s : App) :
  let s' := resume_refresh E j s in
  quiet s s' /\ logs s' = logs s /\
  (wallets s' = wallets s \/
   exists i bal, wallets s' = alter (with_balance bal) i (wallets s)) /\
  exists tr, history s' = history s ++ tr /\
             forall a, a <> Refresher -> requests a tr = [].
Proof.
  cbn zeta. unfold resume_refresh.
  destruct (refreshes s !! j) as [[[i| ] reply]|].
  2,3: split; [apply quiet_refl|]; split; [reflexivity|]; split; [by left|];
       exists []; split; [by rewrite app_nil_r|reflexivity].
  unfold getBalance_settled.
  destruct (reply i) as [bal|];
    match goal with
    | |- context [wallets ?x !! (i + 1)] => destruct (wallets x !! (i + 1)) as [w|]
    end; fields;
    (split; [unfold quiet; by repeat split|]); (split; [reflexivity|]);
    (split; [right; eexists _, _; reflexivity|]);
    eexists; rewrite <- ?app_assoc; (split; [reflexivity|]);
    intros a Ha; destruct a; try reflexivity; contradiction.
Qed.

Lemma resume_refresh_txCounts (j : nat) (s : App) :
  map txCount (wallets (resume_refresh E j s)) = map txCount (wallets s).
Proof.
  destruct (resume_refresh_spec j s) as (_ & _ & [H|(i & bal & H)] & _);
    rewrite H; [reflexivity|].
  apply list_eq. intros k. rewrite !list_lookup_fmap.
  destruct (decide (k = i)) as [->|Hne].
  - rewrite list_lookup_alter_eq. by destruct (wallets s !! i).
  - by rewrite list_lookup_alter_ne by congruence.
Qed.

Lemma createWalletsFromKeys_quiet (keys : list string) (s : App) :
  quiet s (snd (createWalletsFromKeys E keys s)).
Proof.
  pose proof (createWalletsFromKeys_from_frame E keys [] s) as H.
  cbn zeta in H. unfold quiet, createWalletsFromKeys. intuition.
Qed.

Lemma prepareFleet_quiet (random : nat -> KeyPair) (s : App) :
  quiet s (snd (prepareFleet E random s)).
Proof.
  unfold prepareFleet. destruct (walletMode (form s)).
  - cbn [snd]. unfold quiet. fields. repeat split.
  - set (s1 := addLog "Parsing imported keys..." INFO None s).
    pose proof (createWalletsFromKeys_quiet (JS.split_nl (importText (form s))) s1)
      as Hq.
    destruct (createWalletsFromKeys E (JS.split_nl (importText (form s))) s1)
      as [ws s2].
    cbn [snd] in Hq.
    assert (Hq1 : quiet s s2) by (eapply quiet_trans; [apply addLog_quiet|exact Hq]).
    destruct (length ws =? 0)%nat; cbn [snd].
    + eapply quiet_trans; [exact Hq1|apply addLog_quiet].
    + eapply quiet_trans; [exact Hq1|].
      eapply quiet_trans; [apply addLog_quiet|apply setWallets_quiet].
Qed.

Lemma onFunded_quiet (i : nat) (h : string) (s : App) :
  quiet s (onFunded i h s) /\
  map txCount (wallets (onFunded i h s)) = map txCount (wallets s).
Proof.
  unfold onFunded. split.
  - unfold quiet. fields. repeat split.
  - fields. apply txCount_update_status.
Qed.

Lemma fundWallets_from_quiet (funder : KeyPair) (amountWei : Z)
  (reply : nat -> SendReply) (targets : list WalletAccount) :
  forall i s,
    let s' := fundWallets_from funder amountWei targets i onFunded reply s in
    quiet s s' /\ map txCount (wallets s') = map txCount (wallets s).
Proof.
  induction targets as [|t rest IH]; intros i s; cbn [fundWallets_from].
  - split; [apply quiet_refl|reflexivity].
  - cbn zeta.
    match goal with
    | |- context [fundWallets_from _ _ rest (S i) _ _ ?x] => set (s2 := x)
    end.
    assert (H2 : quiet s s2 /\ map txCount (wallets s2) = map txCount (wallets s)).
    { subst s2. destruct (reply i) as [tx|r m].
      - destruct (wait tx 1).
        + destruct (onFunded_quiet i (hash tx)
            (observe (Rsp Funder true)
               (observe (Req Funder (Wait (hash tx) 1))
                  (observe (Rsp Funder true)
                     (observe (Req Funder (SendTransaction (kp_privateKey funder)
                        (mkReq (address t) amountWei None None None))) s)))))
            as [Hq Ht].
          split; [|rewrite Ht; reflexivity].
          eapply quiet_trans; [|exact Hq]. unfold quiet. fields. repeat split.
        + split; [unfold quiet; fields; repeat split|reflexivity].
      - split; [unfold quiet; fields; repeat split|reflexivity]. }
    destruct H2 as [Hq2 Ht2]. destruct (IH (S i) s2) as [Hq Ht].
    split; [eapply quiet_trans; eassumption|congruence].
Qed.

Lemma handleFundFleet_quiet (sc : FundScript) (s : App) :
  isBusy s = false ->
  let s' := handleFundFleet E sc s in
  quiet s s' /\
  (wallets s = [] \/ map txCount (wallets s') = map txCount (wallets s)).
Proof.
  intros Hbusy. unfold isBusy in Hbusy. cbn zeta. unfold handleFundFleet.
  rewrite Hbusy.
  destruct (isValidPrivateKey E (funderKey (form s))); cbn [negb];
    [|split; [apply addLog_quiet|right; reflexivity]].
  apply orb_false_elim in Hbusy as [Hf Hs].
  assert (Hflag : forall s2, quiet (set_isFunding true s) s2 ->
                             quiet s (set_isFunding false s2)).
  { intros s2 (H1 & H2 & H3 & H4 & H5 & H6 & H7). unfold quiet. fields.
    fields_in H2. fields_in H3. fields_in H4. fields_in H5. fields_in H6.
    fields_in H7. repeat split; congruence. }
  set (s1 := set_isFunding true s).
  unfold fund_try.
  change (wallets s1) with (wallets s). change (form s1) with (form s).
  destruct (Nat.eqb_spec (length (wallets s)) 0) as [Hz|Hnz].
  - apply length_zero_iff_nil in Hz. split; [|by left].
    pose proof (prepareFleet_quiet (fs_random sc) s1) as Hp.
    destruct (prepareFleet E (fs_random sc) s1) as [cw sp]. cbn [snd] in Hp.
    destruct (length cw =? 0)%nat.
    + apply Hflag. eapply quiet_trans; [exact Hp|apply addLog_quiet].
    + unfold fundWallets.
      destruct (new_Wallet E (funderKey (form s))) as [funder|];
        [|apply Hflag; eapply quiet_trans; [exact Hp|];
          eapply quiet_trans; apply addLog_quiet].
      destruct (parseEther E (fundingAmount (form s))) as [amt|];
        [|apply Hflag; eapply quiet_trans; [exact Hp|];
          eapply quiet_trans; apply addLog_quiet].
      apply Hflag. eapply quiet_trans; [exact Hp|].
      eapply quiet_trans; [apply addLog_quiet|].
      eapply quiet_trans; [apply fundWallets_from_quiet|].
      eapply quiet_trans; [apply addLog_quiet|].
      eapply quiet_trans; [apply updateFleetBalances_quiet|apply addLog_quiet].
  - destruct (Nat.eqb_spec (length (wallets s)) 0) as [|_]; [contradiction|].
    unfold fundWallets.
    destruct (new_Wallet E (funderKey (form s))) as [funder|];
      [|split; [apply Hflag; eapply quiet_trans; apply addLog_quiet
               |right; reflexivity]].
    destruct (parseEther E (fundingAmount (form s))) as [amt|];
      [|split; [apply Hflag; eapply quiet_trans; apply addLog_quiet
               |right; reflexivity]].
    split.
    + apply Hflag.
      eapply quiet_trans; [apply addLog_quiet|].
      eapply quiet_trans; [apply fundWallets_from_quiet|].
      eapply quiet_trans; [apply addLog_quiet|].
      eapply quiet_trans; [apply updateFleetBalances_quiet|apply addLog_quiet].
    + right. fields.
      match goal with
      | |- context [updateFleetBalances E ?ws ?r ?x] =>
          destruct (updateFleetBalances_quiet ws r x) as [_ Hu]; rewrite Hu
      end.
      fields.
      match goal with
      | |- context [fundWallets_from ?f ?a ?t 0 onFunded ?r ?x] =>
          destruct (fundWallets_from_quiet f a r t 0 x) as [_ Hu2]; rewrite Hu2
      end.
      reflexivity.
Qed.

End Frames.

(** ** The steps of a swarm task *)

Lemma txCount_bump (i : nat) (ws : list WalletAccount) :
  map txCount (update_at i bump_txCount ws) =
  alter (fun n => n + 1) i (map txCount ws).
Proof.
  unfold update_at. apply list_eq. intros j.
  rewrite list_lookup_fmap, !list_lookup_alter.
  case_decide; [subst|by rewrite list_lookup_fmap].
  rewrite list_lookup_fmap. by destruct (ws !! j).
Qed.

Section TaskSteps.

Context (E : Ethers).

(** The three ways through [enter_iteration]. *)
Lemma enter_iteration_spec (w : nat) (wallet : WalletAccount) (i n : nat) (s : App) :
  let s' := enter_iteration E w wallet i n s in
  let c := captured s in
  task_frame s s' /\
  map txCount (wallets s') = map txCount (wallets s) /\
  ( ( (Z.of_nat i < interactionsPerWallet c)%Z /\
      (exists kp, new_Wallet E (privateKey wallet) = Some kp /\
         history s' = history s ++ [Req (Fleet w) (swarm_send c (kp_privateKey kp) n)]) /\
      tasks s' = moved w (AwaitSend i (n + 1)) (tasks s) /\
      stats s' = stats s )
    \/
    ( (Z.of_nat i < interactionsPerWallet c)%Z /\
      new_Wallet E (privateKey wallet) = None /\
      (exists e, history s' = history s ++ [Logged e]) /\
      tasks s' = moved w (AwaitPause i (n + 1)) (tasks s) /\
      stats s' = count_failure (stats s) )
    \/
    ( (interactionsPerWallet c <= Z.of_nat i)%Z /\
      history s' = history s /\
      tasks s' = moved w Returned (tasks s) /\
      stats s' = stats s ) ).
Proof.
  cbn zeta. unfold enter_iteration.
  destruct (Z.ltb_spec (Z.of_nat i) (interactionsPerWallet (captured s))) as [Hlt|Hge].
  - unfold JS.call_surplus, executeInteraction.
    destruct (new_Wallet E (privateKey wallet)) as [kp|] eqn:Hk.
    + split; [unfold task_frame; fields; repeat split|].
      split; [fields; apply txCount_update_status|].
      left. split; [exact Hlt|]. fields. repeat split.
      exists kp. split; reflexivity.
    + split; [unfold task_frame, on_send_error; fields; repeat split|].
      split; [unfold on_send_error; fields; by rewrite !txCount_update_status|].
      right; left. split; [exact Hlt|]. unfold on_send_error. fields.
      repeat split. eexists. reflexivity.
  - split; [unfold task_frame; fields; repeat split|].
    split; [fields; apply txCount_update_status|].
    right; right. fields. repeat split. exact Hge.
Qed.

End TaskSteps.

(** ** One step of the component *)

Section Steps.

Context (E : Ethers).

Lemma spawn_from_spec (ws : list WalletAccount) :
  forall i s,
    same_hooks s (spawn_from ws i s) /\
    history (spawn_from ws i s) =
      history s ++ imap (fun j w => Req (Fleet (i + j))
                           (GetTransactionCount (address w))) ws.
Proof.
  induction ws as [|w rest IH]; intros i s; cbn [spawn_from].
  - split; [unfold same_hooks; repeat split|by rewrite app_nil_r].
  - destruct (IH (S i) (observe (Req (Fleet i) (GetTransactionCount (address w))) s))
      as [Hf Hh].
    split.
    + unfold same_hooks in *. fields_in Hf. exact Hf.
    + rewrite Hh. fields. rewrite <- app_assoc. cbn [imap app]. f_equal.
      rewrite Nat.add_0_r. f_equal. apply imap_ext. intros j x _. cbn.
      do 2 f_equal. lia.
Qed.

(** How a step can change the stats. *)
Lemma step_stats (s : App) (e : Event) :
  stats (step E s e) = stats s \/
  (isSwarming s = false /\ stats (step E s e) = zero_stats) \/
  stats (step E s e) = count_success (stats s) \/
  stats (step E s e) = count_failure (stats s).
Proof.
  destruct e as [f|sc| | |reply| |po res|w reply|w reply|w|reply|j];
    cbn [step].
  - by left.
  - destruct (isBusy s) eqn:Hb; [by left|].
    destruct (handleFundFleet_quiet E sc s Hb) as [(_ & _ & Hst & _) _]. by left.
  - destruct (isBusy s || (length (wallets s) =? 0)%nat) eqn:Hg; [by left|].
    apply orb_false_elim in Hg as [Hb Hl]. unfold handleStartSwarm.
    unfold isBusy in Hb. rewrite Hb, Hl.
    destruct (negb (JS.truthy (targetContract (form s)))); [by left|].
    right; left. apply orb_false_elim in Hb as [_ Hs]. split; [exact Hs|].
    match goal with
    | |- stats (spawn_from ?ws 0 ?x) = _ =>
        destruct (spawn_from_spec ws 0 x) as [(_ & _ & _ & _ & Hst & _) _];
        rewrite Hst
    end.
    reflexivity.
  - destruct ((0 <? length (wallets s))%nat && negb (isBusy s)) eqn:Hg; [|by left].
    apply andb_prop in Hg as [_ Hb]. apply negb_true_iff in Hb.
    unfold isBusy in Hb. apply orb_false_elim in Hb as [_ Hs].
    right; left. split; [exact Hs|reflexivity].
  - destruct ((0 <? length (wallets s))%nat && negb (isBusy s)); [|by left].
    destruct (start_refresh_spec reply s) as [(_ & _ & Hst & _) _]. by left.
  - unfold handleDownloadWallets.
    destruct (0 <? length (wallets s))%nat; [|by left].
    destruct (length (wallets s) =? 0)%nat; by left.
  - destruct res as [res|]; unfold handleAiGeneration, handleAiGeneration_caught;
      (destruct (negb (JS.truthy (targetContract (form s)))); [by left|]);
      destruct (negb (JS.truthy (JS.or_else po (aiPrompt (form s))))); by left.
  - unfold resume_nonce.
    destruct (tasks s !! w) as [[wallet [ |i n|i n| ] seed]|]; try by left.
    destruct reply as [nonce|]; [|by left].
    match goal with
    | |- context [enter_iteration E w wallet 0 nonce ?x] =>
        destruct (enter_iteration_spec E w wallet 0 nonce x)
          as (_ & _ & [(_ & _ & _ & H)|[(_ & _ & _ & _ & H)|(_ & _ & _ & H)]]);
        cbn zeta in H; rewrite H; fields; auto
    end.
  - unfold resume_send.
    destruct (tasks s !! w) as [[wallet [ |i n|i n| ] seed]|]; try by left.
    destruct reply as [tx|reason msg].
    + right; right; left. unfold on_send_ok. fields. reflexivity.
    + right; right; right. unfold on_send_error. fields. reflexivity.
  - unfold resume_pause.
    destruct (tasks s !! w) as [[wallet [ |i n|i n| ] seed]|]; try by left.
    destruct (enter_iteration_spec E w wallet (i + 1) n s)
      as (_ & _ & [(_ & _ & _ & H)|[(_ & _ & _ & _ & H)|(_ & _ & _ & H)]]);
      cbn zeta in H; rewrite H; auto.
  - unfold finish_swarm.
    destruct (isSwarming s && forallb returned (tasks s)); [|by left].
    fields.
    match goal with
    | |- context [start_refresh reply ?x] =>
        destruct (start_refresh_spec reply x) as [(_ & _ & Hst & _) _];
        rewrite Hst
    end.
    by left.
  - destruct (resume_refresh_spec E j s) as [(_ & _ & Hst & _) _]. by left.
Qed.

Lemma run_snoc (s : App) (events : list Event) (e : Event) :
  run E s (events ++ [e]) = step E (run E s events) e.
Proof. unfold run. by rewrite fold_left_app. Qed.

Lemma run_cons (s : App) (e : Event) (events : list Event) :
  run E s (e :: events) = run E (step E s e) events.
Proof. reflexivity. Qed.

Lemma run_app (s : App) (l1 l2 : list Event) :
  run E s (l1 ++ l2) = run E (run E s l1) l2.
Proof. unfold run. by rewrite fold_left_app. Qed.

(** C4. In every state the component reaches from its initial state, the
    total equals the successes plus the failures; while a swarm is running
    no step lowers any of the three counters; and a click that starts a
    swarm leaves all three at zero. *)
Theorem stats_consistent (f : Form) (events : list Event) :
  let s := run E (initial f) events in
  totalTx (stats s) = successfulTx (stats s) + failedTx (stats s) /\
  (forall e, isSwarming s = true -> stats_le (stats s) (stats (step E s e))) /\
  (isSwarming s = false -> isSwarming (step E s ClickSwarm) = true ->
   stats (step E s ClickSwarm) = zero_stats).
Proof.
  cbn zeta. split; [|split].
  - induction events as [|e events IH] using rev_ind; [reflexivity|].
    rewrite run_snoc.
    destruct (step_stats (run E (initial f) events) e) as [H|[[_ H]|[H|H]]];
      rewrite H; cbn; lia.
  - intros e Hs.
    destruct (step_stats (run E (initial f) events) e) as [H|[[Hn _]|[H|H]]];
      try congruence; rewrite H; unfold stats_le; cbn; lia.
  - intros Hoff Hon. set (s := run E (initial f) events) in *.
    revert Hon. cbn [step].
    destruct (isBusy s || (length (wallets s) =? 0)%nat) eqn:Hg; [congruence|].
    apply orb_false_elim in Hg as [Hb Hl].
    unfold handleStartSwarm. unfold isBusy in Hb. rewrite Hb, Hl.
    destruct (negb (JS.truthy (targetContract (form s))));
      [fields; congruence|].
    intros _.
    match goal with
    | |- stats (spawn_from ?ws 0 ?x) = _ =>
        destruct (spawn_from_spec ws 0 x) as [(_ & _ & _ & _ & Hst & _) _];
        rewrite Hst
    end.
    reflexivity.
Qed.

End Steps.

(** ** Transaction counts *)

Section TxCount.

Context (E : Ethers).

(** How a step can change the transaction counts of the fleet. *)
Lemma step_txCounts (s : App) (e : Event) :
  wallets s = [] \/ wallets (step E s e) = [] \/
  map txCount (wallets (step E s e)) = map txCount (wallets s) \/
  (exists w tx wallet k n seed,
     e = SendSettled w (Accepted tx) /\
     tasks s !! w = Some (mkTask wallet (AwaitSend k n) seed) /\
     map txCount (wallets (step E s e)) =
       alter (fun c => c + 1) w (map txCount (wallets s))).
Proof.
  destruct e as [f|sc| | |reply| |po res|w reply|w reply|w|reply|j];
    cbn [step].
  - right; right; by left.
  - destruct (isBusy s) eqn:Hb; [right; right; by left|].
    destruct (handleFundFleet_quiet E sc s Hb) as [_ [H|H]]; auto.
  - destruct (isBusy s || (length (wallets s) =? 0)%nat) eqn:Hg;
      [right; right; by left|].
    apply orb_false_elim in Hg as [Hb Hl]. unfold handleStartSwarm.
    unfold isBusy in Hb. rewrite Hb, Hl.
    destruct (negb (JS.truthy (targetContract (form s))));
      [right; right; by left|].
    match goal with
    | |- context [spawn_from ?ws 0 ?x] =>
        destruct (spawn_from_spec ws 0 x) as [(_ & _ & _ & Hw & _) _];
        rewrite Hw
    end.
    right; right; by left.
  - destruct ((0 <? length (wallets s))%nat && negb (isBusy s));
      [right; by left|right; right; by left].
  - destruct ((0 <? length (wallets s))%nat && negb (isBusy s));
      [|right; right; by left].
    destruct (start_refresh_spec reply s) as (_ & H & _). rewrite H.
    right; right; by left.
  - unfold handleDownloadWallets.
    destruct (0 <? length (wallets s))%nat; [|right; right; by left].
    destruct (length (wallets s) =? 0)%nat; right; right; by left.
  - destruct res as [res|]; unfold handleAiGeneration, handleAiGeneration_caught;
      (destruct (negb (JS.truthy (targetContract (form s))));
         [right; right; by left|]);
      destruct (negb (JS.truthy (JS.or_else po (aiPrompt (form s)))));
      right; right; by left.
  - unfold resume_nonce. right; right; left.
    destruct (tasks s !! w) as [[wallet [ |i n|i n| ] seed]|]; try reflexivity.
    destruct reply as [nonce|]; [|reflexivity].
    match goal with
    | |- context [enter_iteration E w wallet 0 nonce ?x] =>
        destruct (enter_iteration_spec E w wallet 0 nonce x) as (_ & H & _);
        rewrite H
    end.
    reflexivity.
  - unfold resume_send.
    destruct (tasks s !! w) as [[wallet [ |i n|i n| ] seed]|] eqn:Ht;
      try (right; right; by left).
    destruct reply as [tx|reason msg].
    + right; right; right. exists w, tx, wallet, i, n, seed.
      split; [reflexivity|]. split; [exact Ht|].
      unfold on_send_ok. fields. apply txCount_bump.
    + right; right; left. unfold on_send_error. fields.
      apply txCount_update_status.
  - unfold resume_pause. right; right; left.
    destruct (tasks s !! w) as [[wallet [ |i n|i n| ] seed]|]; try reflexivity.
    destruct (enter_iteration_spec E w wallet (i + 1) n s) as (_ & H & _).
    exact H.
  - unfold finish_swarm. right; right; left.
    destruct (isSwarming s && forallb returned (tasks s)); [|reflexivity].
    fields.
    match goal with
    | |- context [start_refresh reply ?x] =>
        destruct (start_refresh_spec reply x) as (_ & H & _); rewrite H
    end.
    reflexivity.
  - right; right; left. apply resume_refresh_txCounts.
Qed.

(** C3, as the program has it.  No step lowers the transaction count of a
    wallet.  A step raises it, by one, only when the transaction that the
    task of that wallet is awaiting is accepted by the chain client, that
    is when [executeInteraction] returns its hash; the program does not
    wait for a confirmation of the transaction.  A rejected transaction
    leaves the count as it is. *)
Theorem txCount_only_grows_on_acceptance (s : App) (e : Event) (i : nat)
  (w w' : WalletAccount)
  (Hw : wallets s !! i = Some w) (Hw' : wallets (step E s e) !! i = Some w') :
  txCount w <= txCount w' /\
  (txCount w' <> txCount w ->
   txCount w' = txCount w + 1 /\
   exists tx wallet k n seed,
     e = SendSettled i (Accepted tx) /\
     tasks s !! i = Some (mkTask wallet (AwaitSend k n) seed)) /\
  (forall reason msg,
     e = SendSettled i (Rejected reason msg) -> txCount w' = txCount w).
Proof.
  assert (Hl : map txCount (wallets s) !! i = Some (txCount w))
    by (by rewrite list_lookup_fmap, Hw).
  assert (Hl' : map txCount (wallets (step E s e)) !! i = Some (txCount w'))
    by (by rewrite list_lookup_fmap, Hw').
  destruct (step_txCounts s e) as [H|[H|[H|H]]].
  - by rewrite H in Hw.
  - by rewrite H in Hw'.
  - rewrite H, Hl in Hl'. inversion Hl' as [Heq]. repeat split; try lia.
    all: intros; lia.
  - destruct H as (j & tx & wallet & k & n & seed & He & Ht & Hm).
    rewrite Hm, list_lookup_alter in Hl'.
    destruct (decide (j = i)) as [->|Hne].
    + rewrite Hl in Hl'. cbn in Hl'. inversion Hl' as [Heq].
      split; [lia|]. split.
      * intros _. split; [lia|]. by exists tx, wallet, k, n, seed.
      * intros reason msg Hrej. congruence.
    + rewrite Hl in Hl'. inversion Hl' as [Heq]. repeat split; try lia.
      all: intros; lia.
Qed.

End TxCount.

(** ** Resetting the fleet *)

Lemma same_counts_nil (ws ws' : list WalletAccount) :
  map txCount ws' = map txCount ws -> ws' = [] -> ws = [].
Proof.
  intros H ->. destruct ws; [reflexivity|discriminate].
Qed.

Lemma bumped_counts_nil (ws ws' : list WalletAccount) (w : nat) :
  map txCount ws' = alter (fun c => c + 1) w (map txCount ws) ->
  ws' = [] -> ws = [].
Proof.
  intros H ->. apply (f_equal length) in H.
  rewrite length_alter, length_map in H. destruct ws; [reflexivity|discriminate].
Qed.

Section Reset.

Context (E : Ethers).

Lemma returned_lookup (ts : list Task) (w : nat) (t : Task) :
  forallb returned ts = true -> ts !! w = Some t -> t_pc t = Returned.
Proof.
  intros H Hw. rewrite forallb_forall in H.
  assert (Hin : In t ts).
  { apply list_elem_of_In. eapply list_elem_of_lookup_2. exact Hw. }
  specialize (H t Hin). unfold returned in H. by destruct (t_pc t).
Qed.

Lemma resume_idle (s : App) (w : nat) :
  forallb returned (tasks s) = true ->
  (forall r, resume_nonce E w r s = s) /\
  (forall r, resume_send w r s = s) /\
  resume_pause E w s = s.
Proof.
  intros Hall. unfold resume_nonce, resume_send, resume_pause.
  destruct (tasks s !! w) as [t|] eqn:Ht; [|by repeat split].
  pose proof (returned_lookup _ _ _ Hall Ht) as Hpc.
  destruct t as [wallet pc seed]. cbn in Hpc. subst pc. by repeat split.
Qed.

Lemma task_step_coherent (s s' : App) :
  coherent s -> isSwarming s = true ->
  isSwarming s' = true ->
  (map txCount (wallets s') = map txCount (wallets s) \/
   exists w, map txCount (wallets s') =
             alter (fun c => c + 1) w (map txCount (wallets s))) ->
  coherent s'.
Proof.
  intros (J1 & J2 & J3) Hs Hs' Hw.
  assert (Hne : wallets s' <> []).
  { intros Hnil. apply (J2 Hs).
    destruct Hw as [Hw|[w Hw]];
      [eapply same_counts_nil|eapply bumped_counts_nil]; eassumption. }
  unfold coherent. repeat split; [congruence|done|done].
Qed.

Lemma quiet_step_coherent (s s' : App) :
  coherent s -> quiet s s' ->
  (wallets s = [] \/ map txCount (wallets s') = map txCount (wallets s)) ->
  coherent s'.
Proof.
  intros (J1 & J2 & J3) (_ & Hsw & Hst & _ & _ & Hts & _) Hw.
  unfold coherent. rewrite Hsw, Hst, Hts. repeat split; [exact J1| |].
  - intros Hs Hnil. destruct Hw as [Hw|Hw]; [by apply (J2 Hs)|].
    apply (J2 Hs). eapply same_counts_nil; eassumption.
  - intros Hnil. destruct Hw as [Hw|Hw]; [by apply J3|].
    apply J3. eapply same_counts_nil; eassumption.
Qed.

Lemma step_coherent (s : App) (e : Event) : coherent s -> coherent (step E s e).
Proof.
  intros J. pose proof J as (J1 & J2 & J3).
  destruct e as [f|sc| | |reply| |po res|w reply|w reply|w|reply|j];
    cbn [step].
  - exact J.
  - destruct (isBusy s) eqn:Hb; [exact J|].
    destruct (handleFundFleet_quiet E sc s Hb) as [Hq Hw].
    by apply (quiet_step_coherent s).
  - destruct (isBusy s || (length (wallets s) =? 0)%nat) eqn:Hg; [exact J|].
    apply orb_false_elim in Hg as [Hb Hl]. unfold handleStartSwarm.
    unfold isBusy in Hb. rewrite Hb, Hl.
    destruct (negb (JS.truthy (targetContract (form s)))).
    + apply (quiet_step_coherent s); [exact J|apply addLog_quiet|by right].
    + match goal with
      | |- coherent (spawn_from ?ws 0 ?x) =>
          destruct (spawn_from_spec ws 0 x)
            as [(_ & Hsw & _ & Hw & Hst & _) _]
      end.
      unfold coherent. rewrite Hsw, Hw, Hst. fields.
      split; [discriminate|]. split; [|reflexivity].
      intros _ Hnil. rewrite Hnil in Hl. discriminate.
  - destruct ((0 <? length (wallets s))%nat && negb (isBusy s)) eqn:Hg;
      [|exact J].
    apply andb_prop in Hg as [_ Hb]. apply negb_true_iff in Hb.
    unfold isBusy in Hb. apply orb_false_elim in Hb as [_ Hs].
    unfold coherent, resetFleet. fields.
    repeat split; [exact J1|congruence].
  - destruct ((0 <? length (wallets s))%nat && negb (isBusy s)); [|exact J].
    destruct (start_refresh_spec reply s) as (Hq & Hw & _).
    apply (quiet_step_coherent s); [exact J|exact Hq|right; by rewrite Hw].
  - unfold handleDownloadWallets.
    destruct (0 <? length (wallets s))%nat; [|exact J].
    destruct (length (wallets s) =? 0)%nat;
      (apply (quiet_step_coherent s); [exact J|apply addLog_quiet|by right]).
  - destruct res as [res|]; unfold handleAiGeneration, handleAiGeneration_caught;
      (destruct (negb (JS.truthy (targetContract (form s))));
         [apply (quiet_step_coherent s); [exact J|apply addLog_quiet|by right]|]);
      (destruct (negb (JS.truthy (JS.or_else po (aiPrompt (form s)))));
         [apply (quiet_step_coherent s); [exact J|apply addLog_quiet|by right]|]);
      exact J.
  - destruct (isSwarming s) eqn:Hs;
      [|destruct (resume_idle s w (J1 eq_refl)) as (H & _ & _); by rewrite H].
    unfold resume_nonce.
    destruct (tasks s !! w) as [[wallet [ |i n|i n| ] seed]|]; try exact J.
    destruct reply as [nonce|].
    + match goal with
      | |- coherent (enter_iteration E w wallet 0 nonce ?x) =>
          destruct (enter_iteration_spec E w wallet 0 nonce x)
            as ((_ & Hsw & _) & Hw & _)
      end.
      eapply (task_step_coherent s); [exact J|exact Hs| |left; exact Hw].
      rewrite Hsw. fields. exact Hs.
    + eapply (task_step_coherent s); [exact J|exact Hs|exact Hs|by left].
  - destruct (isSwarming s) eqn:Hs;
      [|destruct (resume_idle s w (J1 eq_refl)) as (_ & H & _); by rewrite H].
    unfold resume_send.
    destruct (tasks s !! w) as [[wallet [ |i n|i n| ] seed]|]; try exact J.
    destruct reply as [tx|reason msg].
    + eapply (task_step_coherent s); [exact J|exact Hs|exact Hs|].
      right. exists w. unfold on_send_ok. fields. apply txCount_bump.
    + eapply (task_step_coherent s); [exact J|exact Hs|exact Hs|].
      left. unfold on_send_error. fields. apply txCount_update_status.
  - destruct (isSwarming s) eqn:Hs;
      [|destruct (resume_idle s w (J1 eq_refl)) as (_ & _ & H); by rewrite H].
    unfold resume_pause.
    destruct (tasks s !! w) as [[wallet [ |i n|i n| ] seed]|]; try exact J.
    destruct (enter_iteration_spec E w wallet (i + 1) n s)
      as ((_ & Hsw & _) & Hw & _).
    eapply (task_step_coherent s); [exact J|exact Hs| |left; exact Hw].
    by rewrite Hsw.
  - unfold finish_swarm.
    destruct (isSwarming s && forallb returned (tasks s)) eqn:Hg; [|exact J].
    apply andb_prop in Hg as [Hs Hall].
    match goal with
    | |- context [start_refresh reply ?x] =>
        destruct (start_refresh_spec reply x)
          as ((_ & _ & Hst & _ & _ & Hts & _) & Hw & _)
    end.
    fields_in Hst. fields_in Hts. fields_in Hw.
    unfold coherent. fields. rewrite Hts, Hst, Hw.
    split; [done|]. split; [discriminate|].
    intros Hnil. exfalso. by apply (J2 Hs).
  - destruct (resume_refresh_spec E j s) as (Hq & _).
    apply (quiet_step_coherent s); [exact J|exact Hq|].
    right. apply resume_refresh_txCounts.
Qed.

Lemma run_coherent (f : Form) (events : list Event) :
  coherent (run E (initial f) events).
Proof.
  induction events as [|e events IH] using rev_ind.
  - unfold coherent. cbn. repeat split; discriminate.
  - rewrite (run_snoc E). by apply step_coherent.
Qed.

(** C8. A click on the reset control while a fund or a swarm is in flight
    changes nothing at all.  With nothing in flight, in any state the
    component has reached, it leaves the fleet empty and the three stats
    at zero. *)
Theorem reset_guarded (f : Form) (events : list Event) (busy : App) :
  (isBusy busy = true -> step E busy ClickReset = busy) /\
  (let s := run E (initial f) events in
   isBusy s = false ->
   wallets (step E s ClickReset) = [] /\
   stats (step E s ClickReset) = zero_stats).
Proof.
  split.
  - intros Hb. cbn [step]. rewrite Hb. by rewrite andb_false_r.
  - cbn zeta. intros Hb. cbn [step]. rewrite Hb. cbn [negb].
    rewrite andb_true_r.
    destruct (Nat.ltb_spec 0 (length (wallets (run E (initial f) events))))
      as [Hpos|Hz].
    + unfold resetFleet. fields. by split.
    + assert (Hnil : wallets (run E (initial f) events) = []).
      { apply length_zero_iff_nil. lia. }
      split; [exact Hnil|].
      destruct (run_coherent f events) as (_ & _ & J3). by apply J3.
Qed.

End Reset.

(** ** Starting a swarm without a target or without a fleet *)

Lemma truthy_empty (x : string) : JS.truthy x = false <-> x = "".
Proof.
  unfold JS.truthy. destruct (String.eqb_spec x ""); cbn; split; congruence.
Qed.

(** C6. With an empty target address or an empty fleet, starting a swarm
    hands no request to the chain client and leaves the fleet (every wallet
    with its status), the stats, the two busy flags and the tasks exactly as
    they were; unless an operation is already in flight, in which case the
    call returns at once, it appends one error entry to the log: the missing
    target, or else the missing fleet. *)
Theorem swarm_refused (s : App)
  (Hpre : targetContract (form s) = "" \/ wallets s = []) :
  let s' := handleStartSwarm s in
  wallets s' = wallets s /\ stats s' = stats s /\
  isFunding s' = isFunding s /\ isSwarming s' = isSwarming s /\
  tasks s' = tasks s /\
  (forall a, requests a (history s') = requests a (history s)) /\
  (isBusy s = true -> s' = s) /\
  (isBusy s = false ->
   exists msg,
     logs s' = logs s ++ [mkLog msg ERROR None] /\
     history s' = history s ++ [Logged (mkLog msg ERROR None)] /\
     (targetContract (form s) = "" -> msg = "Target Contract address required") /\
     (targetContract (form s) <> "" ->
      msg = "No active fleet. Generate or Fund first.")).
Proof.
  cbn zeta. unfold handleStartSwarm, isBusy.
  destruct (isFunding s || isSwarming s) eqn:Hb.
  - repeat split; try reflexivity. discriminate.
  - destruct (JS.truthy (targetContract (form s))) eqn:Ht; cbn [negb].
    + assert (Hne : targetContract (form s) <> "").
      { intros H. apply truthy_empty in H. congruence. }
      destruct Hpre as [H|Hnil]; [contradiction|].
      rewrite Hnil. cbn [length Nat.eqb]. fields. rewrite Hnil.
      do 5 (split; [reflexivity|]). split; [|split; [discriminate|]].
      * intros a. by rewrite requests_app, app_nil_r.
      * intros _. eexists. do 2 (split; [reflexivity|]).
        split; [contradiction|reflexivity].
    + apply truthy_empty in Ht. fields.
      do 5 (split; [reflexivity|]). split; [|split; [discriminate|]].
      * intros a. by rewrite requests_app, app_nil_r.
      * intros _. eexists. do 2 (split; [reflexivity|]).
        split; [reflexivity|contradiction].
Qed.

(** ** The gas limit *)

Section Gas.

Context (E : Ethers).

(** The request that [executeInteraction] builds has no gas limit. *)
Lemma executeInteraction_no_gasLimit (walletData : WalletAccount)
  (targetContract data : string) (nonce : option nat) (signer : string)
  (req : TxRequest) :
  executeInteraction E walletData targetContract data nonce = Some (signer, req) ->
  req_gasLimit req = None.
Proof.
  unfold executeInteraction.
  destruct (new_Wallet E (privateKey walletData)); [|discriminate].
  destruct nonce; intros H; inversion H; reflexivity.
Qed.

End Gas.

(** ** Funding *)

Section Funding.

Context (E : Ethers).

Lemma fund_monitor_app (ph : FundPhase) (a b : list Obs) :
  fund_monitor ph (a ++ b) =
  match fund_monitor ph a with
  | Some ph' => fund_monitor ph' b
  | None => None
  end.
Proof.
  revert ph. induction a as [|o a IH]; intros ph; cbn [app fund_monitor].
  - reflexivity.
  - destruct (fund_monitor_step ph o); [apply IH|reflexivity].
Qed.

Lemma transfer_trace_monitor (key : string) (amt : Z) (i : nat)
  (t : WalletAccount) (r : SendReply) :
  fund_monitor NoTransfer (transfer_trace key amt i t r) = Some NoTransfer.
Proof.
  unfold transfer_trace. destruct r as [tx|reason msg]; [|reflexivity].
  destruct (wait tx 1); cbn; [|reflexivity].
  by rewrite String.eqb_refl.
Qed.

Lemma transfer_trace_recipient (key : string) (amt : Z) (i : nat)
  (t : WalletAccount) (r : SendReply) :
  recipients (requests Funder (transfer_trace key amt i t r)) = [address t].
Proof.
  unfold transfer_trace. destruct r as [tx|reason msg]; [|reflexivity].
  by destruct (wait tx 1).
Qed.

Lemma transfer_trace_logged (key : string) (amt : Z) (i : nat)
  (t : WalletAccount) (r : SendReply) :
  logged (transfer_trace key amt i t r) =
  match r with
  | Accepted tx => if wait tx 1 then [funded_entry i (hash tx)] else []
  | Rejected _ _ => []
  end.
Proof.
  unfold transfer_trace. destruct r as [tx|reason msg]; [|reflexivity].
  by destruct (wait tx 1).
Qed.

(** One transfer: the state after it. *)
Lemma fund_one (funder : KeyPair) (amt : Z) (reply : nat -> SendReply)
  (t : WalletAccount) (rest : list WalletAccount) (i : nat) (s : App) :
  exists s2,
    fundWallets_from funder amt (t :: rest) i onFunded reply s =
      fundWallets_from funder amt rest (S i) onFunded reply s2 /\
    history s2 =
      history s ++ transfer_trace (kp_privateKey funder) amt i t (reply i) /\
    logs s2 =
      logs s ++ logged (transfer_trace (kp_privateKey funder) amt i t (reply i)) /\
    wallets s2 =
      (if confirmed (reply i) then update_at i (with_status funding) (wallets s)
       else wallets s).
Proof.
  cbn [fundWallets_from]. eexists. split; [reflexivity|].
  unfold transfer_trace, confirmed, funding_failed, funded_entry.
  destruct (reply i) as [tx|reason msg].
  - destruct (wait tx 1); unfold onFunded; fields; rewrite <- !app_assoc;
      cbn [app]; repeat split; by rewrite ?app_nil_r.
  - fields. rewrite <- !app_assoc. cbn [app]. repeat split.
    by rewrite app_nil_r.
Qed.

Lemma fundWallets_from_trace (funder : KeyPair) (amt : Z)
  (reply : nat -> SendReply) (targets : list WalletAccount) :
  forall i s,
    let tr := concat (imap (fun j t =>
                 transfer_trace (kp_privateKey funder) amt (i + j) t
                   (reply (i + j))) targets) in
    let s' := fundWallets_from funder amt targets i onFunded reply s in
    history s' = history s ++ tr /\
    logs s' = logs s ++ logged tr /\
    fund_monitor NoTransfer tr = Some NoTransfer /\
    recipients (requests Funder tr) = map address targets /\
    wallets s' =
      imap (fun j w =>
              if (i <=? j)%nat && (j <? i + length targets)%nat
                 && confirmed (reply j)
              then with_status funding w else w) (wallets s).
Proof.
  induction targets as [|t rest IH]; intros i s.
  - cbn zeta. cbn [fundWallets_from].
    split; [symmetry; apply app_nil_r|].
    split; [symmetry; apply app_nil_r|].
    split; [reflexivity|]. split; [reflexivity|].
    apply list_eq. intros j. rewrite list_lookup_imap.
    destruct (wallets s !! j); cbn [fmap option_fmap option_map length];
      [|reflexivity].
    destruct (Nat.leb_spec i j), (Nat.ltb_spec j (i + 0)); cbn [andb];
      try reflexivity; lia.
  - cbn zeta.
    destruct (fund_one funder amt reply t rest i s) as (s2 & -> & Hh & Hl & Hw).
    destruct (IH (S i) s2) as (Hh' & Hl' & Hm' & Hr' & Hw').
    cbn [imap concat]. rewrite Nat.add_0_r.
    set (tr0 := transfer_trace (kp_privateKey funder) amt i t (reply i)) in *.
    assert (Hext : imap ((fun j t0 => transfer_trace (kp_privateKey funder) amt
                             (i + j) t0 (reply (i + j))) ∘ S) rest =
                   imap (fun j t0 => transfer_trace (kp_privateKey funder) amt
                             (S i + j) t0 (reply (S i + j))) rest).
    { apply imap_ext. intros j x _. cbn. by replace (i + S j) with (S (i + j)) by lia. }
    rewrite Hext.
    set (tr1 := concat (imap (fun j t0 => transfer_trace (kp_privateKey funder)
                          amt (S i + j) t0 (reply (S i + j))) rest)) in *.
    split; [by rewrite Hh', Hh, app_assoc|].
    split; [unfold logged in *; by rewrite Hl', Hl, omap_app, app_assoc|].
    split; [rewrite fund_monitor_app; unfold tr0;
            by rewrite transfer_trace_monitor|].
    split.
    { rewrite requests_app. unfold recipients in *. rewrite omap_app.
      fold (recipients (requests Funder tr0)). unfold tr0.
      rewrite transfer_trace_recipient. cbn [map app]. f_equal. exact Hr'. }
    rewrite Hw', Hw. apply list_eq. intros j.
    rewrite !list_lookup_imap. cbn [length].
    destruct (decide (j = i)) as [->|Hne].
    + replace (S i <=? i)%nat with false by (symmetry; apply Nat.leb_gt; lia).
      replace (i <=? i)%nat with true by (symmetry; apply Nat.leb_le; lia).
      replace (i <? i + S (length rest))%nat with true
        by (symmetry; apply Nat.ltb_lt; lia).
      cbn [andb]. destruct (confirmed (reply i)); [|reflexivity].
      unfold update_at. rewrite list_lookup_alter_eq.
      by destruct (wallets s !! i).
    + assert (Hsame : (if confirmed (reply i)
                       then update_at i (with_status funding) (wallets s)
                       else wallets s) !! j = wallets s !! j).
      { destruct (confirmed (reply i)); [|reflexivity].
        unfold update_at. by rewrite list_lookup_alter_ne. }
      rewrite Hsame.
      destruct (wallets s !! j); cbn [fmap option_fmap option_map];
        [|reflexivity].
      assert (Hb : ((S i <=? j)%nat && (j <? S i + length rest)%nat) =
                   ((i <=? j)%nat && (j <? i + S (length rest))%nat)).
      { destruct (Nat.leb_spec (S i) j), (Nat.leb_spec i j),
          (Nat.ltb_spec j (S i + length rest)),
          (Nat.ltb_spec j (i + S (length rest))); cbn; try reflexivity; lia. }
      by rewrite Hb.
Qed.

(** C5. Funding a fleet works through the wallets one after another in
    fleet order: the history of the pass is the sequence of the traces of
    the single transfers, by ascending index, each from its request to its
    settlement, so that a transfer is requested only when none is in
    flight; the callback (success entry with the transaction hash, status
    funding) runs only after the first confirmation of that transfer has
    arrived; a transfer that fails is reported on the console and the
    transfers to the wallets after it are requested all the same. *)
Theorem funding_sequential (funderPrivateKey amountPerWallet : string)
  (funder : KeyPair) (amountWei : Z) (targets : list WalletAccount)
  (reply : nat -> SendReply) (s : App)
  (Hkey : new_Wallet E funderPrivateKey = Some funder)
  (Hamt : parseEther E amountPerWallet = Some amountWei) :
  let tr := concat (imap (fun i t =>
               transfer_trace (kp_privateKey funder) amountWei i t (reply i))
               targets) in
  exists s',
    fundWallets E funderPrivateKey targets amountPerWallet onFunded reply s
      = Some s' /\
    history s' = history s ++ tr /\
    recipients (requests Funder tr) = map address targets /\
    fund_monitor NoTransfer tr = Some NoTransfer /\
    logs s' = logs s ++ logged tr /\
    wallets s' =
      imap (fun i w =>
              if (i <? length targets)%nat && confirmed (reply i)
              then with_status funding w else w) (wallets s).
Proof.
  cbn zeta. unfold fundWallets. rewrite Hkey, Hamt. eexists.
  split; [reflexivity|].
  destruct (fundWallets_from_trace funder amountWei reply targets 0 s)
    as (Hh & Hl & Hm & Hr & Hw).
  cbn [Nat.add] in *.
  split; [exact Hh|]. split; [exact Hr|]. split; [exact Hm|].
  split; [exact Hl|]. rewrite Hw. apply imap_ext. intros j w _.
  cbn [Nat.leb andb]. reflexivity.
Qed.

End Funding.

(** ** The nonces of a swarm *)

Lemma requests_req (a b : Actor) (c : ChainCall) :
  requests a [Req b c] = if actor_eqb a b then [c] else [].
Proof. unfold requests. cbn. by destruct (actor_eqb a b). Qed.

Lemma requests_spawned (ws : list WalletAccount) :
  forall i w,
    requests (Fleet w)
      (imap (fun j x => Req (Fleet (i + j)) (GetTransactionCount (address x))) ws) =
    if (i <=? w)%nat
    then match ws !! (w - i) with
         | Some x => [GetTransactionCount (address x)]
         | None => []
         end
    else [].
Proof.
  induction ws as [|x rest IH]; intros i w.
  - cbn [imap]. destruct (i <=? w)%nat; reflexivity.
  - cbn [imap].
    change (Req (Fleet (i + 0)) (GetTransactionCount (address x)) ::
            imap ((fun j x0 => Req (Fleet (i + j)) (GetTransactionCount (address x0))) ∘ S) rest)
      with ([Req (Fleet (i + 0)) (GetTransactionCount (address x))] ++
            imap ((fun j x0 => Req (Fleet (i + j)) (GetTransactionCount (address x0))) ∘ S) rest).
    rewrite requests_app, requests_req.
    rewrite (imap_ext _ (fun j x0 => Req (Fleet (S i + j))
                           (GetTransactionCount (address x0))))
      by (intros j y _; cbn; by replace (i + S j) with (S (i + j)) by lia).
    rewrite IH. cbn [actor_eqb]. rewrite Nat.add_0_r.
    destruct (Nat.eqb_spec w i) as [->|Hne].
    + replace (S i <=? i)%nat with false by (symmetry; apply Nat.leb_gt; lia).
      replace (i <=? i)%nat with true by (symmetry; apply Nat.leb_le; lia).
      by rewrite Nat.sub_diag.
    + destruct (Nat.leb_spec (S i) w), (Nat.leb_spec i w); try lia;
        [|reflexivity].
      replace (w - i) with (S (w - S i)) by lia. reflexivity.
Qed.

Lemma since_start_extend (s s' : App) (tr : list Obs) :
  mark s <= length (history s) ->
  mark s' = mark s -> history s' = history s ++ tr ->
  since_start s' = since_start s ++ tr /\ mark s' <= length (history s').
Proof.
  intros Hm Hmark Hh. unfold since_start. rewrite Hmark, Hh. split.
  - apply drop_app_le. exact Hm.
  - rewrite length_app. lia.
Qed.

Section Swarm.

Context (E : Ethers).

(** A step that appends [tr] to the history and takes every task to a
    task that meets the discipline with the requests [tr] adds. *)
Lemma swarm_inv_extend (s s' : App) (tr : list Obs) :
  swarm_inv E s ->
  isSwarming s' = true -> captured s' = captured s -> mark s' = mark s ->
  history s' = history s ++ tr ->
  (forall w t', tasks s' !! w = Some t' ->
     exists t, tasks s !! w = Some t /\
       forall reqs, nonce_discipline E (captured s) t reqs ->
                    nonce_discipline E (captured s) t'
                      (reqs ++ requests (Fleet w) tr)) ->
  swarm_inv E s'.
Proof.
  intros (Hs & Hm & Ht) Hs' Hc Hmark Hh Hstep.
  destruct (since_start_extend s s' tr Hm Hmark Hh) as [Hss Hm'].
  split; [exact Hs'|]. split; [exact Hm'|].
  intros w t' Hw. destruct (Hstep w t' Hw) as (t & Hwt & Hd).
  rewrite Hc, Hss, requests_app. apply Hd. by apply Ht.
Qed.

(** A step that only writes log entries and settlements. *)
Lemma swarm_inv_silent (s s' : App) (tr : list Obs) :
  swarm_inv E s ->
  isSwarming s' = true -> captured s' = captured s -> mark s' = mark s ->
  tasks s' = tasks s ->
  history s' = history s ++ tr ->
  (forall w, requests (Fleet w) tr = []) ->
  swarm_inv E s'.
Proof.
  intros J Hs' Hc Hmark Hts Hh Hq.
  apply (swarm_inv_extend s s' tr); try assumption.
  intros w t' Hw. exists t'. rewrite <- Hts. split; [exact Hw|].
  intros reqs Hd. by rewrite Hq, app_nil_r.
Qed.

Lemma fleet_eqb_ne (w w' : nat) : w' <> w -> actor_eqb (Fleet w') (Fleet w) = false.
Proof. intros H. cbn. by apply Nat.eqb_neq. Qed.

(** A task arrives at the loop test for iteration [i], having sent the
    nonces [n0 .. n0 + i - 1]. *)
Lemma enter_iteration_inv (s x : App) (w : nat) (wallet : WalletAccount)
  (pcx : Pc) (i n n0 : nat) (pre : list Obs) :
  swarm_inv E s ->
  isSwarming x = true -> captured x = captured s -> mark x = mark s ->
  history x = history s ++ pre ->
  (forall w', requests (Fleet w') pre = []) ->
  tasks x !! w = Some (mkTask wallet pcx (Some n0)) ->
  (forall w', w' <> w -> tasks x !! w' = tasks s !! w') ->
  (exists kp, new_Wallet E (privateKey wallet) = Some kp /\
     requests (Fleet w) (since_start s) =
       GetTransactionCount (address wallet)
         :: map (swarm_send (captured s) (kp_privateKey kp)) (seq n0 i)) ->
  n = n0 + i ->
  (i = 0 \/ (Z.of_nat i - 1 < interactionsPerWallet (captured s))%Z) ->
  swarm_inv E (enter_iteration E w wallet i n x).
Proof.
  intros (Hs & Hm & Ht) Hsx Hcx Hmx Hhx Hpre Hxw Hxo (kp & Hkp & Hreqs) Hn Hprev.
  destruct (enter_iteration_spec E w wallet i n x)
    as ((_ & Hsw & _ & Hc & Hmk) & _ & Hcases).
  cbn zeta in Hcases. rewrite Hcx in Hcases.
  set (s' := enter_iteration E w wallet i n x) in *.
  assert (Hpost : exists post pc',
            history s' = history s ++ pre ++ post /\
            tasks s' = moved w pc' (tasks x) /\
            (forall w', w' <> w -> requests (Fleet w') post = []) /\
            nonce_discipline E (captured s) (mkTask wallet pc' (Some n0))
              (requests (Fleet w) (since_start s) ++ requests (Fleet w) post)).
  { destruct Hcases as [(Hlt & (kp' & Hkp' & Hh) & Hts & _)
                       |[(_ & Hnone & _)|(Hge & Hh & Hts & _)]].
    - rewrite Hkp in Hkp'. inversion Hkp'. subst kp'.
      exists [Req (Fleet w) (swarm_send (captured s) (kp_privateKey kp) n)],
             (AwaitSend i (n + 1)).
      split; [by rewrite Hh, Hhx, <- app_assoc|]. split; [exact Hts|].
      split; [intros w' Hne; by rewrite requests_req, fleet_eqb_ne|].
      exists kp. split; [exact Hkp|]. cbn [t_seed t_pc t_wallet].
      exists (i + 1). rewrite Hreqs, requests_req, actor_eqb_refl.
      split; [|lia].
      cbn [app]. f_equal. rewrite Nat.add_1_r, seq_S, map_app. cbn [map].
      by rewrite Hn.
    - congruence.
    - exists [], Returned.
      split; [by rewrite Hh, Hhx, app_nil_r|]. split; [exact Hts|].
      split; [reflexivity|].
      exists kp. split; [exact Hkp|]. cbn [t_seed t_pc t_wallet].
      exists i. split; [by rewrite Hreqs, app_nil_r|]. lia. }
  destruct Hpost as (post & pc' & Hh & Hts & Hpo & Hd).
  assert (Hmark' : mark s' = mark s) by congruence.
  destruct (since_start_extend s s' (pre ++ post) Hm Hmark' Hh) as [Hss Hm'].
  split; [congruence|]. split; [exact Hm'|].
  intros w' t' Hw'. rewrite Hc, Hcx, Hss, !requests_app, Hpre. cbn [app].
  rewrite Hts in Hw'. unfold moved in Hw'. rewrite list_lookup_alter in Hw'.
  destruct (decide (w = w')) as [<-|Hne].
  - rewrite Hxw in Hw'. cbn in Hw'. inversion Hw'. subst t'. exact Hd.
  - rewrite (Hxo w') in Hw' by congruence.
    rewrite (Hpo w'), app_nil_r by congruence. by apply Ht.
Qed.

Lemma busy_while_swarming (s : App) : isSwarming s = true -> isBusy s = true.
Proof. intros H. unfold isBusy. rewrite H. apply orb_true_r. Qed.

Lemma step_swarm_inv (s : App) (e : Event) :
  during_run e = true -> swarm_inv E s -> swarm_inv E (step E s e).
Proof.
  intros He J. pose proof J as (Hs & Hm & Ht).
  pose proof (busy_while_swarming s Hs) as Hb.
  destruct e as [f|sc| | |reply| |po res|w reply|w reply|w|reply|j];
    cbn [step]; try rewrite Hb; cbn [orb negb]; rewrite ?andb_false_r;
    try exact J; try discriminate.
  - unfold handleDownloadWallets.
    destruct (0 <? length (wallets s))%nat; [|exact J].
    destruct (length (wallets s) =? 0)%nat;
      (eapply (swarm_inv_silent s); [exact J|exact Hs|reflexivity..|];
       reflexivity).
  - destruct res as [res|]; unfold handleAiGeneration, handleAiGeneration_caught;
      (destruct (negb (JS.truthy (targetContract (form s))));
         [eapply (swarm_inv_silent s); [exact J|exact Hs|reflexivity..|];
          reflexivity|]);
      (destruct (negb (JS.truthy (JS.or_else po (aiPrompt (form s)))));
         [eapply (swarm_inv_silent s); [exact J|exact Hs|reflexivity..|];
          reflexivity|]);
      (eapply (swarm_inv_silent s _ [_; _]);
         [exact J|exact Hs|reflexivity..| |];
         [fields; by rewrite <- app_assoc|reflexivity]).
  - unfold resume_nonce.
    destruct (tasks s !! w) as [[wallet [ |i n|i n| ] seed]|] eqn:Hw;
      try exact J.
    destruct (Ht w _ Hw) as (kp & Hkp & Hd). cbn [t_seed t_pc t_wallet] in *.
    destruct seed as [n0|]; [by destruct Hd as (m & _ & [])|].
    destruct Hd as [Hreqs _].
    destruct reply as [nonce|].
    + eapply (enter_iteration_inv s _ w wallet AwaitNonce 0 nonce nonce
                [Rsp (Fleet w) true]); try reflexivity; try assumption.
      * fields. rewrite list_lookup_alter_eq, Hw. reflexivity.
      * intros w' Hne. fields. by rewrite list_lookup_alter_ne.
      * exists kp. split; [exact Hkp|]. exact Hreqs.
      * lia.
      * by left.
    + eapply (swarm_inv_extend s _ [_; _]);
        [exact J|exact Hs|reflexivity|reflexivity| |].
      * fields. by rewrite <- app_assoc.
      * intros w' t' Hw'. fields_in Hw'. rewrite list_lookup_alter in Hw'.
        destruct (decide (w = w')) as [<-|Hne].
        -- rewrite Hw in Hw'. cbn in Hw'. inversion Hw'. subst t'.
           eexists. split; [exact Hw|]. intros reqs (kp' & Hkp' & Hd').
           cbn [t_seed t_pc t_wallet] in *. rewrite app_nil_r.
           exists kp'. split; [exact Hkp'|]. cbn [t_seed t_pc t_wallet].
           destruct Hd' as [Hr _]. split; [exact Hr|by right].
        -- exists t'. split; [exact Hw'|]. intros reqs Hd'.
           by rewrite app_nil_r.
  - unfold resume_send.
    destruct (tasks s !! w) as [[wallet [ |i n|i n| ] seed]|] eqn:Hw;
      try exact J.
    assert (Hgoal : forall x tr,
              isSwarming x = true -> captured x = captured s ->
              mark x = mark s -> tasks x = tasks s ->
              history x = history s ++ tr ->
              (forall w', requests (Fleet w') tr = []) ->
              swarm_inv E (set_pc w (AwaitPause i n) x)).
    { intros x tr Hsx Hcx Hmx Htx Hhx Hq.
      eapply (swarm_inv_extend s _ tr); try assumption.
      intros w' t' Hw'. fields_in Hw'. rewrite Htx, list_lookup_alter in Hw'.
      destruct (decide (w = w')) as [<-|Hne].
      - rewrite Hw in Hw'. cbn in Hw'. inversion Hw'. subst t'.
        eexists. split; [exact Hw|]. intros reqs (kp' & Hkp' & Hd').
        rewrite Hq, app_nil_r. cbn [t_seed t_pc t_wallet] in *.
        exists kp'. split; [exact Hkp'|]. cbn [t_seed t_pc t_wallet].
        destruct seed; [exact Hd'|]. by destruct Hd' as [_ [|]].
      - exists t'. split; [exact Hw'|]. intros reqs Hd'.
        by rewrite Hq, app_nil_r. }
    destruct reply as [tx|reason msg].
    + eapply (Hgoal _ [_; _]); unfold on_send_ok; fields;
        try reflexivity; try assumption;
        [by rewrite <- app_assoc|intros; reflexivity].
    + eapply (Hgoal _ [_; _]); unfold on_send_error; fields;
        try reflexivity; try assumption;
        [by rewrite <- app_assoc|intros; reflexivity].
  - unfold resume_pause.
    destruct (tasks s !! w) as [[wallet [ |i n|i n| ] seed]|] eqn:Hw;
      try exact J.
    destruct (Ht w _ Hw) as (kp & Hkp & Hd). cbn [t_seed t_pc t_wallet] in *.
    destruct seed as [n0|]; [|by destruct Hd as [_ [|]]].
    destruct Hd as (m & Hreqs & -> & -> & Hlt).
    eapply (enter_iteration_inv s s w wallet (AwaitPause i (n0 + (i + 1)))
              (i + 1) (n0 + (i + 1)) n0 []);
      try reflexivity; try assumption.
    + by rewrite app_nil_r.
    + exists kp. split; [exact Hkp|]. exact Hreqs.
    + right. lia.
  - destruct (resume_refresh_spec E j s)
      as ((_ & Hsw & _ & _ & Hc & Hts & Hmk) & _ & _ & tr & Hh & Hq).
    eapply (swarm_inv_silent s _ tr); try eassumption; [congruence|].
    intros w. by apply Hq.
Qed.

Lemma run_swarm_inv (s : App) (events : list Event) :
  forallb during_run events = true -> swarm_inv E s ->
  swarm_inv E (run E s events).
Proof.
  revert s. induction events as [|e events IH]; intros s Hall J; [exact J|].
  cbn [forallb] in Hall. apply andb_prop in Hall as [He Hall].
  cbn [run fold_left]. apply (IH _ Hall). by apply step_swarm_inv.
Qed.

(** The tasks of a run keep the wallets and the closure they were started
    with. *)
Lemma step_task_wallets (s : App) (e : Event) :
  during_run e = true -> isSwarming s = true ->
  map t_wallet (tasks (step E s e)) = map t_wallet (tasks s) /\
  isSwarming (step E s e) = true /\
  captured (step E s e) = captured s.
Proof.
  intros He Hs. pose proof (busy_while_swarming s Hs) as Hb.
  assert (Hmoved : forall w pc ts, map t_wallet (moved w pc ts) = map t_wallet ts).
  { intros w pc ts. unfold moved. apply list_eq. intros j.
    rewrite !list_lookup_fmap, list_lookup_alter.
    case_decide; [subst|reflexivity]. by destruct (ts !! j). }
  assert (Hseeded : forall w n ts, map t_wallet (seeded w n ts) = map t_wallet ts).
  { intros w n ts. unfold seeded. apply list_eq. intros j.
    rewrite !list_lookup_fmap, list_lookup_alter.
    case_decide; [subst|reflexivity]. by destruct (ts !! j). }
  assert (Henter : forall w wallet i n x,
            map t_wallet (tasks (enter_iteration E w wallet i n x)) =
              map t_wallet (tasks x) /\
            isSwarming (enter_iteration E w wallet i n x) = isSwarming x /\
            captured (enter_iteration E w wallet i n x) = captured x).
  { intros w wallet i n x.
    destruct (enter_iteration_spec E w wallet i n x)
      as ((_ & Hsw & _ & Hc & _) & _
          & [(_ & _ & H & _)|[(_ & _ & _ & H & _)|(_ & _ & H & _)]]);
      rewrite H, Hmoved; by repeat split. }
  destruct e as [f|sc| | |reply| |po res|w reply|w reply|w|reply|j];
    cbn [step]; try rewrite Hb; cbn [orb negb]; rewrite ?andb_false_r;
    try (by repeat split); try discriminate.
  - unfold handleDownloadWallets.
    destruct (0 <? length (wallets s))%nat; [|by repeat split].
    destruct (length (wallets s) =? 0)%nat; by repeat split.
  - destruct res as [res|]; unfold handleAiGeneration, handleAiGeneration_caught;
      (destruct (negb (JS.truthy (targetContract (form s))));
         [by repeat split|]);
      destruct (negb (JS.truthy (JS.or_else po (aiPrompt (form s)))));
      by repeat split.
  - unfold resume_nonce.
    destruct (tasks s !! w) as [[wallet [ |i n|i n| ] seed]|];
      try by repeat split.
    destruct reply as [nonce|].
    + match goal with
      | |- context [enter_iteration E w wallet 0 nonce ?x] =>
          destruct (Henter w wallet 0 nonce x) as (H1 & H2 & H3);
          rewrite H1, H2, H3
      end.
      fields. split; [apply Hseeded|by split].
    + fields. split; [apply Hmoved|by split].
  - unfold resume_send.
    destruct (tasks s !! w) as [[wallet [ |i n|i n| ] seed]|];
      try by repeat split.
    destruct reply as [tx|reason msg]; unfold on_send_ok, on_send_error;
      fields; (split; [apply Hmoved|by split]).
  - unfold resume_pause.
    destruct (tasks s !! w) as [[wallet [ |i n|i n| ] seed]|];
      try by repeat split.
    destruct (Henter w wallet (i + 1) n s) as (H1 & H2 & H3).
    rewrite H1, H2, H3. by repeat split.
  - destruct (resume_refresh_spec E j s)
      as ((_ & Hsw & _ & _ & Hc & Hts & _) & _).
    rewrite Hts, Hsw, Hc. by repeat split.
Qed.

Lemma run_task_wallets (s : App) (events : list Event) :
  forallb during_run events = true -> isSwarming s = true ->
  map t_wallet (tasks (run E s events)) = map t_wallet (tasks s) /\
  captured (run E s events) = captured s.
Proof.
  revert s. induction events as [|e events IH]; intros s Hall Hs;
    [by split|].
  cbn [forallb] in Hall. apply andb_prop in Hall as [He Hall].
  destruct (step_task_wallets s e He Hs) as (Hw & Hs' & Hc).
  cbn [run fold_left]. destruct (IH _ Hall Hs') as [Hw' Hc'].
  unfold run in *. split; congruence.
Qed.

Lemma spawned_state (c : Form) (ws : list WalletAccount) (s6 : App) :
  let s' := spawn_from ws 0
              (set_run c (map (fun w => mkTask w AwaitNonce None) ws)
                 (length (history s6)) s6) in
  isSwarming s' = isSwarming s6 /\ captured s' = c /\
  tasks s' = map (fun w => mkTask w AwaitNonce None) ws /\
  mark s' = length (history s6) /\
  history s' =
    history s6 ++ imap (fun j w => Req (Fleet (0 + j))
                          (GetTransactionCount (address w))) ws.
Proof.
  cbn zeta.
  match goal with
  | |- context [spawn_from ws 0 ?x] =>
      destruct (spawn_from_spec ws 0 x)
        as [(_ & Hsw & _ & _ & _ & _ & Hc & Hts & Hmk) Hh]
  end.
  rewrite Hsw, Hc, Hts, Hmk, Hh. by repeat split.
Qed.

Lemma start_swarm_inv (s0 : App) :
  isBusy s0 = false -> targetContract (form s0) <> "" -> wallets s0 <> [] ->
  Forall (fun w => isValidPrivateKey E (privateKey w) = true) (wallets s0) ->
  swarm_inv E (handleStartSwarm s0) /\
  map t_wallet (tasks (handleStartSwarm s0)) = wallets s0 /\
  captured (handleStartSwarm s0) = form s0.
Proof.
  intros Hb Htarget Hfleet Hkeys. unfold handleStartSwarm.
  unfold isBusy in Hb. rewrite Hb.
  assert (Htr : JS.truthy (targetContract (form s0)) = true).
  { destruct (JS.truthy (targetContract (form s0))) eqn:H; [reflexivity|].
    apply truthy_empty in H. contradiction. }
  rewrite Htr. cbn [negb].
  destruct (Nat.eqb_spec (length (wallets s0)) 0) as [Hz|_];
    [by apply length_zero_iff_nil in Hz|].
  match goal with
  | |- context [spawn_from (wallets s0) 0 (set_run ?c _ _ ?x)] =>
      destruct (spawned_state c (wallets s0) x) as (Hsw & Hc & Hts & Hmk & Hh)
  end.
  split; [|split].
  - split; [by rewrite Hsw|]. split.
    + rewrite Hmk, Hh, length_app. lia.
    + intros w t Hw. rewrite Hts in Hw.
      rewrite list_lookup_fmap in Hw.
      destruct (wallets s0 !! w) as [x|] eqn:Hx; [|discriminate].
      cbn in Hw. inversion Hw. subst t.
      assert (Hvalid : isValidPrivateKey E (privateKey x) = true).
      { rewrite Forall_forall in Hkeys. apply Hkeys.
        eapply list_elem_of_lookup_2. exact Hx. }
      unfold isValidPrivateKey in Hvalid.
      destruct (new_Wallet E (privateKey x)) as [kp|] eqn:Hkp; [|discriminate].
      exists kp. split; [exact Hkp|]. cbn [t_seed t_pc t_wallet].
      split; [|by left].
      unfold since_start. rewrite Hmk, Hh, drop_app_length.
      rewrite (requests_spawned (wallets s0) 0 w). cbn [Nat.leb].
      by rewrite Nat.sub_0_r, Hx.
  - rewrite Hts, map_map. cbn [t_wallet]. apply map_id.
  - exact Hc.
Qed.

(** The discipline of every task, in every state of a swarm over a fleet
    whose keys the library accepts. *)
Lemma swarm_discipline (s0 : App) (events : list Event)
  (Hidle : isBusy s0 = false)
  (Htarget : targetContract (form s0) <> "")
  (Hfleet : wallets s0 <> [])
  (Hkeys : Forall (fun w => isValidPrivateKey E (privateKey w) = true)
                  (wallets s0))
  (Hrun : forallb during_run events = true) :
  let s := run E (handleStartSwarm s0) events in
  map t_wallet (tasks s) = wallets s0 /\
  forall w t,
    tasks s !! w = Some t ->
    nonce_discipline E (form s0) t (requests (Fleet w) (since_start s)).
Proof.
  cbn zeta.
  destruct (start_swarm_inv s0 Hidle Htarget Hfleet Hkeys) as (J & Hw & Hc).
  pose proof J as (Hs & _).
  destruct (run_task_wallets _ events Hrun Hs) as [Hw' Hc'].
  split; [congruence|].
  destruct (run_swarm_inv _ events Hrun J) as (_ & _ & Ht).
  intros w t Hwt. rewrite <- Hc, <- Hc'. by apply Ht.
Qed.

End Swarm.

(** * The program on examples *)

(** C2. A swarm started with the gas limit 300000 in the form: the request
    that the task of the first wallet hands to the chain client has no gas
    limit, the fifth argument of the call having no parameter to land in. *)
Theorem swarm_request_without_gasLimit :
  let s := run Sample.lib Sample.ready [ClickSwarm; NonceSettled 0 (Some 7)] in
  gasLimit (captured s) = 300000%Z /\
  requests (Fleet 0) (history s) =
    [GetTransactionCount "0xA1";
     SendTransaction Sample.key1 (mkReq "0xABC" 0 (Some "0x") (Some 7) None)].
Proof. cbn zeta. split; vm_compute; reflexivity. Qed.

(** C3, as the claim has it, fails: the count of a wallet rises when its
    transaction is accepted, also for a transaction that is never
    confirmed. *)
Lemma txCount_rises_unconfirmed : ~ counted_only_when_confirmed Sample.lib.
Proof.
  intros H.
  set (s := run Sample.lib Sample.ready [ClickSwarm; NonceSettled 0 (Some 7)]).
  set (e := SendSettled 0 (Accepted (Sample.unconfirmed_tx "0xdead"))).
  destruct (H s e 0
              (mkWallet "0xA1" Sample.key1 "0" 0 sending)
              (mkWallet "0xA1" Sample.key1 "0" 1 sending))
    as (tx & He & Hwait).
  - vm_compute. reflexivity.
  - vm_compute. reflexivity.
  - cbn. lia.
  - subst e. inversion He. subst tx. cbn in Hwait. discriminate.
Qed.

Lemma txCount_only_grows_on_acceptance_witness :
  let s := run Sample.lib Sample.ready [ClickSwarm; NonceSettled 0 (Some 7)] in
  let e := SendSettled 0 (Accepted (Sample.unconfirmed_tx "0xdead")) in
  let w := mkWallet "0xA1" Sample.key1 "0" 0 sending in
  let w' := mkWallet "0xA1" Sample.key1 "0" 1 sending in
  wallets s !! 0 = Some w /\ wallets (step Sample.lib s e) !! 0 = Some w' /\
  txCount w <= txCount w'.
Proof.
  cbn zeta.
  assert (H1 : wallets (run Sample.lib Sample.ready
                          [ClickSwarm; NonceSettled 0 (Some 7)]) !! 0 =
               Some (mkWallet "0xA1" Sample.key1 "0" 0 sending))
    by (vm_compute; reflexivity).
  assert (H2 : wallets (step Sample.lib
                          (run Sample.lib Sample.ready
                             [ClickSwarm; NonceSettled 0 (Some 7)])
                          (SendSettled 0 (Accepted (Sample.unconfirmed_tx "0xdead"))))
                 !! 0 =
               Some (mkWallet "0xA1" Sample.key1 "0" 1 sending))
    by (vm_compute; reflexivity).
  split; [exact H1|]. split; [exact H2|].
  exact (proj1 (txCount_only_grows_on_acceptance Sample.lib _ _ 0 _ _ H1 H2)).
Defined.

Lemma funding_sequential_witness :
  new_Wallet Sample.lib Sample.key1 = Some Sample.funder /\
  parseEther Sample.lib "0.01" = Some 10000000000000000%Z /\
  exists s',
    fundWallets Sample.lib Sample.key1 [Sample.wallet1; Sample.wallet2] "0.01"
      onFunded Sample.transfers Sample.ready = Some s' /\
    map status (wallets s') = [funding; idle] /\
    recipients (requests Funder (history s')) = ["0xA1"; "0xA2"].
Proof.
  split; [reflexivity|]. split; [reflexivity|].
  destruct (funding_sequential Sample.lib Sample.key1 "0.01" Sample.funder
              10000000000000000%Z [Sample.wallet1; Sample.wallet2]
              Sample.transfers Sample.ready eq_refl eq_refl)
    as (s' & Hrun & Hh & Hr & _ & _ & Hw).
  exists s'. split; [exact Hrun|]. split.
  - rewrite Hw. reflexivity.
  - rewrite Hh. exact Hr.
Defined.

Lemma swarm_refused_witness :
  (targetContract (form Sample.no_target) = "" \/ wallets Sample.no_target = []) /\
  wallets (handleStartSwarm Sample.no_target) = wallets Sample.no_target /\
  stats (handleStartSwarm Sample.no_target) = stats Sample.no_target.
Proof.
  split; [left; reflexivity|].
  destruct (swarm_refused Sample.no_target (or_introl eq_refl))
    as (Hw & Hst & _).
  split; [exact Hw|exact Hst].
Defined.

Lemma import_fleet_witness :
  walletMode (form (initial Sample.import_form)) = import /\
  wallets (initial Sample.import_form) = [] /\
  length (wallets (snd (prepareFleet Sample.lib Sample.random
                          (initial Sample.import_form)))) = 2.
Proof.
  split; [reflexivity|]. split; [reflexivity|].
  destruct (import_fleet Sample.lib Sample.random (initial Sample.import_form)
              eq_refl eq_refl) as (_ & _ & Hlen & _).
  rewrite Hlen. reflexivity.
Defined.

Lemma reset_guarded_witness :
  let busy := handleStartSwarm Sample.ready in
  let s := run Sample.lib (initial Sample.blank_form) Sample.session in
  isBusy busy = true /\ step Sample.lib busy ClickReset = busy /\
  isBusy s = false /\ length (wallets s) = 2 /\
  wallets (step Sample.lib s ClickReset) = [] /\
  stats (step Sample.lib s ClickReset) = zero_stats.
Proof.
  cbn zeta.
  destruct (reset_guarded Sample.lib Sample.blank_form Sample.session
              (handleStartSwarm Sample.ready)) as [Hbusy Hidle].
  split; [reflexivity|]. split; [apply Hbusy; reflexivity|].
  split; [reflexivity|]. split; [reflexivity|].
  apply Hidle. reflexivity.
Defined.

Lemma import_agrees_with_validation_witness :
  isValidPrivateKey Sample.lib "" = false /\
  length (fst (createWalletsFromKeys Sample.lib
                 (JS.split_nl (importText Sample.import_form))
                 (initial Sample.import_form))) = 2.
Proof.
  split; [reflexivity|].
  destruct (import_agrees_with_validation Sample.lib
              (JS.split_nl (importText Sample.import_form))
              (initial Sample.import_form) eq_refl) as (_ & _ & Hlen).
  rewrite Hlen. reflexivity.
Defined.

Lemma stats_consistent_witness :
  let s := run Sample.lib Sample.ready (ClickSwarm :: Sample.swarm_events) in
  stats s = mkStats 2 1 1 /\
  let s1 := run Sample.lib (initial Sample.blank_form) Sample.session in
  isSwarming s1 = false /\
  isSwarming (step Sample.lib s1 ClickSwarm) = true /\
  stats (step Sample.lib s1 ClickSwarm) = zero_stats.
Proof.
  cbn zeta. split; [reflexivity|].
  destruct (stats_consistent Sample.lib Sample.blank_form Sample.session)
    as (_ & _ & Hreset).
  split; [reflexivity|]. split; [reflexivity|].
  apply Hreset; reflexivity.
Defined.

(** The earlier revision of the funding loop reports a transfer before its
    confirmation: the callback marks the third wallet although its
    transaction is never confirmed, and the monitor refuses the trace. *)
Example legacy_reports_before_confirmation :
  let s := mkApp false false [] [Sample.wallet1; Sample.wallet2; Sample.wallet1]
             zero_stats Sample.funding_form Sample.blank_form [] 0 [] [] in
  let s' := fundWallets_legacy_from Sample.funder 10000000000000000%Z
              (wallets s) 0 onFunded Sample.transfers s in
  confirmed (Sample.transfers 2) = false /\
  map status (wallets s') = [funding; idle; funding] /\
  fund_monitor NoTransfer (history s') = None.
Proof. cbn zeta. repeat split; vm_compute; reflexivity. Qed.

(** * Further properties of the program *)

(** ** Preparing a fleet *)

Section Prepare.

Context (E : Ethers).

Lemma requests_warnings (a : Actor) (keys : list string) :
  requests a (map warning_for keys) = [].
Proof. induction keys as [|k rest IH]; [reflexivity|exact IH]. Qed.

(** X1. In generate mode the fleet is replaced, whatever it was, by one
    fresh wallet per call of [Wallet.createRandom()], as many as the wallet
    count says (none for a count that is not positive), each with balance
    "0", no transactions and status idle; nothing is asked of the chain and
    the log gains the two entries of the operation. *)
Theorem generate_fleet (random : nat -> KeyPair) (s : App)
  (Hmode : walletMode (form s) = generate) :
  let n := Z.to_nat (walletCount (form s)) in
  let s' := snd (prepareFleet E random s) in
  fst (prepareFleet E random s) = wallets s' /\
  wallets s' = map (fun i => fresh_wallet (random i)) (seq 0 n) /\
  length (wallets s') = n /\
  Forall (fun w => balance w = "0" /\ txCount w = 0 /\ status w = idle)
         (wallets s') /\
  (forall a, requests a (history s') = requests a (history s)) /\
  map type (skipn (length (logs s)) (logs s')) = [INFO; SUCCESS].
Proof.
  cbn zeta. unfold prepareFleet. rewrite Hmode. cbn [fst snd]. fields.
  unfold createWallets.
  split; [reflexivity|]. split; [reflexivity|].
  split; [by rewrite length_map, length_seq|]. split.
  - apply Forall_forall. intros w Hin.
    apply list_elem_of_fmap in Hin as (i & -> & _). by repeat split.
  - split.
    + intros a. by rewrite <- app_assoc, requests_app, app_nil_r.
    + rewrite <- app_assoc, drop_app_length. reflexivity.
Qed.

(** X2. Importing is a homomorphism on the list of keys: the wallets of a
    concatenation are the wallets of the first part followed by those of
    the second, whatever the states the two parts are run in.  In
    particular a key that occurs twice yields two wallets. *)
Theorem import_appends (keys1 keys2 : list string) (s s1 s2 : App) :
  fst (createWalletsFromKeys E (keys1 ++ keys2) s) =
  fst (createWalletsFromKeys E keys1 s1) ++ fst (createWalletsFromKeys E keys2 s2).
Proof.
  unfold createWalletsFromKeys.
  rewrite !createWalletsFromKeys_from_wallets. cbn [app]. apply omap_app.
Qed.

Lemma length_zero_string (x : string) : String.length x = 0 <-> x = "".
Proof. destruct x; cbn; split; congruence. Qed.

Lemma nonblank_count (lines : list string) :
  length (filter (fun line => (0 <? String.length (JS.trim line))%nat = true) lines) =
  length (List.filter (valid_line E) lines)
    + length (List.filter (invalid_line E) lines).
Proof.
  induction lines as [|k rest IH]; [reflexivity|].
  rewrite filter_cons. cbn [List.filter].
  unfold valid_line at 1, invalid_line at 1, blank.
  destruct (String.eqb_spec (JS.trim k) "") as [Hb|Hnb]; cbn [negb andb].
  - rewrite Hb. cbn [String.length Nat.ltb Nat.leb].
    case_decide; [discriminate|]. exact IH.
  - assert (Hpos : (0 <? String.length (JS.trim k))%nat = true).
    { apply Nat.ltb_lt. destruct (JS.trim k); [contradiction|cbn; lia]. }
    case_decide; [|contradiction].
    destruct (isValidPrivateKey E (JS.trim k)); cbn [negb length];
      rewrite IH; lia.
Qed.

(** X3. While importing, the wallet count that the form shows is the
    number of non-blank lines of the text: the number of wallets the
    import yields plus the number of lines it skips with a warning.  So
    the fleet is never larger than shown, and smaller exactly when some
    line is not a key. *)
Theorem shown_count_bounds_import (f : Form) (s : App)
  (Hmode : walletMode f = import) :
  let lines := JS.split_nl (importText f) in
  walletCount (sync_walletCount f) =
    Z.of_nat (length (fst (createWalletsFromKeys E lines s))
              + length (List.filter (invalid_line E) lines)) /\
  (Z.of_nat (length (fst (createWalletsFromKeys E lines s)))
     <= walletCount (sync_walletCount f))%Z /\
  importText (sync_walletCount f) = importText f.
Proof.
  cbn zeta. unfold sync_walletCount. rewrite Hmode. cbn [walletCount importText].
  unfold createWalletsFromKeys.
  rewrite createWalletsFromKeys_from_wallets. cbn [app].
  rewrite omap_imported_length, nonblank_count.
  split; [reflexivity|]. split; [lia|reflexivity].
Qed.

End Prepare.

(** ** Funding a fleet from the form *)

Section FundFleet.

Context (E : Ethers).

Lemma prepareFleet_no_requests (random : nat -> KeyPair) (s : App) (a : Actor) :
  requests a (history (snd (prepareFleet E random s))) = requests a (history s).
Proof.
  unfold prepareFleet. destruct (walletMode (form s)).
  - cbn [snd]. fields. by rewrite <- app_assoc, requests_app, app_nil_r.
  - set (s1 := addLog "Parsing imported keys..." INFO None s).
    pose proof (createWalletsFromKeys_from_history E
                  (JS.split_nl (importText (form s))) [] s1) as Hh.
    unfold createWalletsFromKeys.
    destruct (createWalletsFromKeys_from E (JS.split_nl (importText (form s))) [] s1)
      as [ws s2].
    cbn [snd] in Hh.
    assert (H2 : requests a (history s2) = requests a (history s)).
    { rewrite Hh, requests_app, requests_warnings, app_nil_r. subst s1. fields.
      by rewrite requests_app, app_nil_r. }
    destruct (length ws =? 0)%nat; cbn [snd]; fields;
      by rewrite requests_app, app_nil_r.
Qed.

Lemma prepareFleet_empty (random : nat -> KeyPair) (s : App) :
  match walletMode (form s) with
  | generate => (walletCount (form s) <= 0)%Z
  | import =>
      List.filter (valid_line E) (JS.split_nl (importText (form s))) = []
  end ->
  fst (prepareFleet E random s) = [].
Proof.
  unfold prepareFleet. destruct (walletMode (form s)); intros H.
  - cbn [fst]. unfold createWallets.
    replace (Z.to_nat (walletCount (form s))) with 0 by lia. reflexivity.
  - set (s1 := addLog "Parsing imported keys..." INFO None s).
    pose proof (createWalletsFromKeys_from_wallets E
                  (JS.split_nl (importText (form s))) [] s1) as Hw.
    unfold createWalletsFromKeys.
    destruct (createWalletsFromKeys_from E (JS.split_nl (importText (form s))) [] s1)
      as [ws s2].
    cbn [fst app] in Hw. rewrite (filter_valid_nil_omap E _ H) in Hw. subst ws.
    reflexivity.
Qed.

(** X4. Funding is refused before anything is asked of the chain when the
    funder key is not a key, when the amount does not parse, or when there
    is no fleet and none can be prepared (a wallet count that is not
    positive, or an import without a valid line): no request reaches the
    chain client, the stats are as before, the busy flag is down again and
    the last log entry is an error.  With a bad key nothing else happens;
    in particular no fleet is prepared. *)
Theorem funding_refused (sc : FundScript) (s : App)
  (Hidle : isBusy s = false)
  (Hfail :
     isValidPrivateKey E (funderKey (form s)) = false \/
     parseEther E (fundingAmount (form s)) = None \/
     (wallets s = [] /\
      match walletMode (form s) with
      | generate => (walletCount (form s) <= 0)%Z
      | import =>
          List.filter (valid_line E) (JS.split_nl (importText (form s))) = []
      end)) :
  let s' := handleFundFleet E sc s in
  (forall a, requests a (history s') = requests a (history s)) /\
  isBusy s' = false /\ stats s' = stats s /\
  (exists msg, last (logs s') = Some (mkLog msg ERROR None)) /\
  (isValidPrivateKey E (funderKey (form s)) = false ->
   s' = addLog "Invalid Funder Private Key" ERROR None s).
Proof.
  cbn zeta. unfold handleFundFleet. pose proof Hidle as Hb.
  unfold isBusy in Hb. rewrite Hb. apply orb_false_elim in Hb as [Hf Hs].
  destruct (isValidPrivateKey E (funderKey (form s))) eqn:Hvalid; cbn [negb].
  2:{ unfold isBusy. fields. rewrite Hf, Hs.
      split; [intros a; by rewrite requests_app, app_nil_r|].
      split; [reflexivity|]. split; [reflexivity|].
      split; [eexists; apply last_snoc|reflexivity]. }
  destruct Hfail as [Hfail|Hfail]; [discriminate|].
  assert (Hclose : forall x msg,
            (forall a, requests a (history x) = requests a (history s)) ->
            isSwarming x = false -> stats x = stats s ->
            let s' := set_isFunding false
                        (addLog (JS.cat ["Funding Error: "; msg]) ERROR None x) in
            (forall a, requests a (history s') = requests a (history s)) /\
            isBusy s' = false /\ stats s' = stats s /\
            (exists m, last (logs s') = Some (mkLog m ERROR None)) /\
            (true = false -> s' = addLog "Invalid Funder Private Key" ERROR None s)).
  { intros x msg Hr Hsx Hstx. cbn zeta. unfold isBusy. fields.
    rewrite Hsx, Hstx.
    split; [intros a; by rewrite requests_app, app_nil_r, Hr|].
    split; [reflexivity|]. split; [reflexivity|].
    split; [eexists; apply last_snoc|discriminate]. }
  set (s1 := set_isFunding true s).
  unfold fund_try. change (wallets s1) with (wallets s).
  change (form s1) with (form s).
  destruct (Nat.eqb_spec (length (wallets s)) 0) as [Hz|Hnz].
  - pose proof (prepareFleet_no_requests (fs_random sc) s1) as Hreq.
    pose proof (prepareFleet_quiet E (fs_random sc) s1)
      as (_ & Hsw & Hst & _).
    pose proof (prepareFleet_empty (fs_random sc) s1) as Hempty.
    change (form s1) with (form s) in Hempty.
    destruct (prepareFleet E (fs_random sc) s1) as [cw sp].
    cbn [fst snd] in *.
    destruct (Nat.eqb_spec (length cw) 0) as [Hcz|Hcnz].
    + apply Hclose; [intros a; by rewrite Hreq|by rewrite Hsw|by rewrite Hst].
    + destruct Hfail as [Hparse|[_ Hnone]].
      * unfold fundWallets.
        destruct (new_Wallet E (funderKey (form s))) as [funder|];
          [rewrite Hparse|];
          (apply Hclose; fields;
           [intros a; by rewrite requests_app, app_nil_r, Hreq
           |by rewrite Hsw|by rewrite Hst]).
      * rewrite (Hempty Hnone) in Hcnz. contradiction.
  - destruct Hfail as [Hparse|[Hnil _]];
      [|rewrite Hnil in Hnz; contradiction].
    destruct (Nat.eqb_spec (length (wallets s)) 0) as [|_]; [contradiction|].
    unfold fundWallets.
    destruct (new_Wallet E (funderKey (form s))) as [funder|];
      [rewrite Hparse|];
      (apply Hclose; fields;
       [intros a; by rewrite requests_app, app_nil_r|exact Hs|reflexivity]).
Qed.

Lemma imap_imap_wallets (f g : nat -> WalletAccount -> WalletAccount)
  (ws : list WalletAccount) :
  imap f (imap g ws) = imap (fun i w => f i (g i w)) ws.
Proof.
  apply list_eq. intros j. rewrite !list_lookup_imap.
  by destruct (ws !! j).
Qed.

(** The fleet after a funding pass over an existing fleet. *)
Lemma funded_fleet_wallets (sc : FundScript) (s : App) (funder : KeyPair)
  (amountWei : Z)
  (Hidle : isBusy s = false)
  (Hkey : new_Wallet E (funderKey (form s)) = Some funder)
  (Hamt : parseEther E (fundingAmount (form s)) = Some amountWei)
  (Hfleet : wallets s <> []) :
  let s' := handleFundFleet E sc s in
  wallets s' =
    imap (fun i w =>
            with_balance (queried E (fs_balance sc) i)
              (if confirmed (fs_transfer sc i) then with_status funding w else w))
         (wallets s) /\
  isBusy s' = false /\ stats s' = stats s /\
  last (logs s') =
    Some (mkLog "Funding sequence complete. Fleet Ready." SUCCESS None).
Proof.
  cbn zeta. unfold handleFundFleet. pose proof Hidle as Hb.
  unfold isBusy in Hb. rewrite Hb. apply orb_false_elim in Hb as [Hf Hs].
  unfold isValidPrivateKey. rewrite Hkey. cbn [negb].
  unfold fund_try. fields.
  destruct (Nat.eqb_spec (length (wallets s)) 0) as [Hz|_];
    [by apply length_zero_iff_nil in Hz|].
  destruct (Nat.eqb_spec (length (wallets s)) 0) as [Hz|_];
    [by apply length_zero_iff_nil in Hz|].
  unfold fundWallets. rewrite Hkey, Hamt.
  match goal with
  | |- context [fundWallets_from funder amountWei (wallets s) 0 onFunded ?r ?x] =>
      set (s2 := x);
      destruct (fundWallets_from_trace funder amountWei r (wallets s) 0 s2)
        as (_ & _ & _ & _ & Hw);
      destruct (fundWallets_from_quiet funder amountWei r (wallets s) 0 s2)
        as [(_ & Hsw3 & Hst3 & _) _];
      set (s3 := fundWallets_from funder amountWei (wallets s) 0 onFunded r s2) in *
  end.
  set (s4 := addLog "Funds confirmed. Waiting 3s for network propagation..."
               WARNING None s3).
  change (wallets s4) with (wallets s3).
  unfold updateFleetBalances.
  set (s0 := addLog "Refreshing fleet balances..." INFO None s4).
  destruct (updateFleetBalances_from_spec E (wallets s3) 0 (fs_balance sc) s0)
    as (Hu & (_ & Hsw5 & _ & _ & Hst5 & _) & _).
  destruct (updateFleetBalances_from E (wallets s3) 0 (fs_balance sc) s0)
    as [ws' s5].
  cbn [fst snd] in *. unfold isBusy. fields.
  split; [|split; [|split]].
  - rewrite Hu, Hw. subst s2. fields. rewrite imap_imap_wallets.
    apply list_eq. intros j. rewrite !list_lookup_imap.
    destruct (wallets s !! j) as [w|] eqn:Hj; cbn [fmap option_fmap option_map];
      [|reflexivity].
    apply lookup_lt_Some in Hj. cbn [Nat.leb Nat.add andb].
    replace (j <? length (wallets s))%nat with true
      by (symmetry; by apply Nat.ltb_lt).
    reflexivity.
  - cbn [orb]. rewrite Hsw5. subst s0 s4. fields. rewrite Hsw3. subst s2.
    fields. exact Hs.
  - rewrite Hst5. subst s0 s4. fields. rewrite Hst3. subst s2. reflexivity.
  - apply last_snoc.
Qed.

(** X5. A funding pass over an existing fleet, with a funder key and an
    amount that parse: afterwards every wallet has the balance that its
    query returned, "0" when the query failed; a wallet whose transfer was
    accepted and confirmed has the status funding, every other wallet the
    status it had before, so that a wallet marked funding by an earlier
    pass keeps the mark when its transfer fails this time; addresses,
    keys, transaction counts and the stats are as before and the busy flag
    is down.  The pass ends with the success entry "Funding sequence
    complete" whatever became of the single transfers. *)
Theorem funded_fleet (sc : FundScript) (s : App) (funder : KeyPair)
  (amountWei : Z)
  (Hidle : isBusy s = false)
  (Hkey : new_Wallet E (funderKey (form s)) = Some funder)
  (Hamt : parseEther E (fundingAmount (form s)) = Some amountWei)
  (Hfleet : wallets s <> []) :
  let s' := handleFundFleet E sc s in
  length (wallets s') = length (wallets s) /\
  (forall i w, wallets s !! i = Some w ->
     exists w', wallets s' !! i = Some w' /\
       address w' = address w /\ privateKey w' = privateKey w /\
       txCount w' = txCount w /\
       balance w' = match fs_balance sc i with
                    | Some bal => formatEther E bal
                    | None => "0"
                    end /\
       status w' = match fs_transfer sc i with
                   | Accepted tx => if wait tx 1 then funding else status w
                   | Rejected _ _ => status w
                   end) /\
  isBusy s' = false /\ stats s' = stats s /\
  last (logs s') =
    Some (mkLog "Funding sequence complete. Fleet Ready." SUCCESS None).
Proof.
  cbn zeta.
  destruct (funded_fleet_wallets sc s funder amountWei Hidle Hkey Hamt Hfleet)
    as (Hw & Hb & Hst & Hl).
  split; [by rewrite Hw, length_imap|]. split; [|by repeat split].
  intros i w Hi. rewrite Hw, list_lookup_imap, Hi.
  cbn [fmap option_fmap option_map]. eexists. split; [reflexivity|].
  unfold queried, confirmed.
  destruct (fs_transfer sc i) as [tx|reason msg]; [destruct (wait tx 1)|];
    destruct w; by repeat split.
Qed.

End FundFleet.

(** ** The funder preview and the model service *)

Section Preview.

Context (E : Ethers).

(** X6. The preview of the funder account: a key that is no key clears
    the shown balance; a valid key whose balance query succeeds shows the
    formatted balance, and [getWalletInfo] reports for it the address that
    an import of the same key (not empty, no white space around it) gives
    its wallet; a valid key whose query
    fails leaves the balance shown before in place, whichever key it
    belonged to.  [getWalletInfo] is null exactly when the key is no key
    or the query failed. *)
Theorem funder_preview (funderKey : string) (reply : option Z)
  (shown : option string) (s : App) :
  (isValidPrivateKey E funderKey = false ->
   checkBalance E funderKey reply shown = None) /\
  (forall bal, isValidPrivateKey E funderKey = true -> reply = Some bal ->
     checkBalance E funderKey reply shown = Some (formatEther E bal) /\
     (JS.trim funderKey = funderKey -> funderKey <> "" ->
      map address (fst (createWalletsFromKeys E [funderKey] s)) =
      option_list (fst <$> getWalletInfo E funderKey reply))) /\
  (isValidPrivateKey E funderKey = true -> reply = None ->
   checkBalance E funderKey reply shown = shown) /\
  (getWalletInfo E funderKey reply = None <->
   isValidPrivateKey E funderKey = false \/ reply = None).
Proof.
  unfold checkBalance, getWalletInfo, isValidPrivateKey.
  destruct (new_Wallet E funderKey) as [kp|] eqn:Hk.
  - split; [discriminate|]. split; [|split].
    + intros bal _ ->. split; [reflexivity|]. intros Htrim Hne.
      unfold createWalletsFromKeys.
      rewrite createWalletsFromKeys_from_wallets, omap_cons. cbn [app].
      unfold imported, blank. rewrite Htrim, Hk.
      destruct (String.eqb_spec funderKey "") as [Hempty|_];
        [contradiction|reflexivity].
    + intros _ ->. reflexivity.
    + destruct reply; split.
      * discriminate.
      * intros [H|H]; discriminate.
      * by right.
      * reflexivity.
  - split; [reflexivity|]. split; [discriminate|]. split; [discriminate|].
    split; auto.
Qed.

End Preview.

(** X7. The model service never fails: without a client, when the model
    throws, answers with an empty text or with a text that does not parse,
    the suggestion carries the payload "0x".  The panel then stores "0x"
    as custom data and closes with a success entry, no error entry being
    written; and a swarm with this payload hands the chain client the very
    requests of a swarm with an empty payload. *)
Theorem model_failure_defaults (E : Ethers) (ai : bool)
  (parse : string -> option GeminiSuggestion) (reply : ModelReply)
  (promptOverride : string) (s : App)
  (Hfail : ai = false \/ reply = ModelThrows \/ reply = ModelText "" \/
           exists text, reply = ModelText text /\ parse text = None)
  (Htarget : targetContract (form s) <> "")
  (Hprompt : JS.or_else promptOverride (aiPrompt (form s)) <> "") :
  let result := fst (generateInteractionData ai parse reply) in
  let s' := handleAiGeneration promptOverride result s in
  hexData result = "0x" /\
  customData (form s') = "0x" /\
  map type (skipn (length (logs s)) (logs s')) = [INFO; SUCCESS] /\
  (forall wallet target nonce,
     executeInteraction E wallet target (customData (form s')) nonce =
     executeInteraction E wallet target "" nonce).
Proof.
  cbn zeta.
  assert (Hhex : hexData (fst (generateInteractionData ai parse reply)) = "0x").
  { unfold generateInteractionData. destruct ai; [|reflexivity].
    destruct Hfail as [H|[->|[->|(text & -> & Hp)]]];
      [discriminate|reflexivity|reflexivity|].
    cbn [negb]. destruct (JS.truthy text); [by rewrite Hp|reflexivity]. }
  split; [exact Hhex|].
  unfold handleAiGeneration.
  assert (Ht : JS.truthy (targetContract (form s)) = true).
  { destruct (JS.truthy (targetContract (form s))) eqn:H; [reflexivity|].
    apply truthy_empty in H. contradiction. }
  assert (Hp : JS.truthy (JS.or_else promptOverride (aiPrompt (form s))) = true).
  { destruct (JS.truthy (JS.or_else promptOverride (aiPrompt (form s)))) eqn:H;
      [reflexivity|].
    apply truthy_empty in H. contradiction. }
  rewrite Ht, Hp. cbn [negb]. fields. cbn [customData]. rewrite Hhex.
  split; [reflexivity|]. split.
  - rewrite <- app_assoc, drop_app_length. reflexivity.
  - reflexivity.
Qed.

(** ** The ledger of a swarm *)

Lemma sum_alter {A : Type} (h : A -> nat) (g : A -> A) (l : list A) :
  forall w x, l !! w = Some x ->
    sum_list_with h (alter g w l) + h x = sum_list_with h l + h (g x).
Proof.
  induction l as [|y l IH]; intros [|w] x Hx; try discriminate.
  - cbn in Hx. inversion Hx. subst y. cbn. lia.
  - cbn in Hx. cbn [alter list_alter sum_list_with]. specialize (IH w x Hx).
    change (list_alter g w l) with (alter g w l). lia.
Qed.

Ltac follow :=
  unfold wallet_follows, attempts in *;
  cbn [t_pc t_seed t_wallet with_status bump_txCount address privateKey
       balance txCount status] in *.

Section Ledger.

Context (E : Ethers).

(** The three ways through [enter_iteration], with the fleet. *)
Lemma enter_iteration_full (w : nat) (wallet : WalletAccount) (i n : nat) (x : App) :
  let s' := enter_iteration E w wallet i n x in
  let k := interactionsPerWallet (captured x) in
  captured s' = captured x /\ isSwarming s' = isSwarming x /\
  ( ( (Z.of_nat i < k)%Z /\
      tasks s' = moved w (AwaitSend i (n + 1)) (tasks x) /\
      stats s' = stats x /\
      wallets s' = alter (with_status sending) w (wallets x) )
    \/
    ( (Z.of_nat i < k)%Z /\
      tasks s' = moved w (AwaitPause i (n + 1)) (tasks x) /\
      stats s' = count_failure (stats x) /\
      wallets s' = alter (with_status error ∘ with_status sending) w (wallets x) )
    \/
    ( (k <= Z.of_nat i)%Z /\
      tasks s' = moved w Returned (tasks x) /\
      stats s' = stats x /\
      wallets s' = alter (with_status done) w (wallets x) ) ).
Proof.
  cbn zeta. unfold enter_iteration.
  destruct (Z.ltb_spec (Z.of_nat i) (interactionsPerWallet (captured x))) as [Hlt|Hge].
  - unfold JS.call_surplus, executeInteraction.
    destruct (new_Wallet E (privateKey wallet)) as [kp|].
    + fields. split; [reflexivity|]. split; [reflexivity|]. left. by repeat split.
    + unfold on_send_error. fields. split; [reflexivity|]. split; [reflexivity|].
      right; left. unfold update_at. rewrite list_alter_alter_eq.
      by repeat split.
  - fields. split; [reflexivity|]. split; [reflexivity|]. right; right.
    by repeat split.
Qed.

(** A step of the task of wallet [w] that takes the task from [t] to
    [g t] and the wallet from [wal] to [f wal], with [dt] settled
    transactions and [ds] successes more. *)
Lemma ledger_move (s s' : App) (w : nat) (t : Task) (g : Task -> Task)
  (f : WalletAccount -> WalletAccount) (dt ds : nat) :
  ledger s -> tasks s !! w = Some t ->
  isSwarming s' = true -> captured s' = captured s ->
  tasks s' = alter g w (tasks s) -> wallets s' = alter f w (wallets s) ->
  t_wallet (g t) = t_wallet t ->
  totalTx (stats s') = totalTx (stats s) + dt ->
  attempts (captured s) (g t) = attempts (captured s) t + dt ->
  successfulTx (stats s') = successfulTx (stats s) + ds ->
  (forall wal, wallet_follows (captured s) t wal ->
     txCount (f wal) = txCount wal + ds /\
     wallet_follows (captured s) (g t) (f wal)) ->
  ledger s'.
Proof.
  intros (Hs & Htot & Hsum & HF) Ht Hs' Hc Hts Hws Hgw Hdt Hat Hds Hfol.
  destruct (Forall2_lookup_l _ _ _ _ _ HF Ht) as (wal & Hwal & Hf).
  destruct (Hfol wal Hf) as [Htx Hf'].
  pose proof (sum_alter (attempts (captured s)) g (tasks s) w t Ht) as H1.
  pose proof (sum_alter (fun t => txCount (t_wallet t)) g (tasks s) w t Ht) as H2.
  pose proof (sum_alter txCount f (wallets s) w wal Hwal) as H3.
  cbn beta in H2. rewrite Hgw in H2.
  split; [exact Hs'|]. rewrite Hc, Hts, Hws. split; [lia|]. split; [lia|].
  apply Forall2_alter; [exact HF|].
  intros x y Hx Hy _. rewrite Ht in Hx. rewrite Hwal in Hy.
  inversion Hx. inversion Hy. subst x y. exact Hf'.
Qed.

(** A step that touches neither the tasks nor the fleet nor the stats. *)
Lemma ledger_still (s s' : App) :
  ledger s -> isSwarming s' = true -> captured s' = captured s ->
  tasks s' = tasks s -> wallets s' = wallets s -> stats s' = stats s ->
  ledger s'.
Proof.
  intros (Hs & Htot & Hsum & HF) Hs' Hc Hts Hws Hst. unfold ledger.
  rewrite Hc, Hts, Hws, Hst. by repeat split.
Qed.

Lemma sum_same_counts (ws ws' : list WalletAccount) :
  map txCount ws' = map txCount ws ->
  sum_list_with txCount ws' = sum_list_with txCount ws.
Proof.
  revert ws'. induction ws as [|w ws IH]; intros [|w' ws'] H;
    try discriminate; [reflexivity|].
  cbn in *. injection H as Hw Hrest. rewrite Hw, (IH _ Hrest). reflexivity.
Qed.

(** A step of a refresh: a balance of the fleet changes, the books do
    not. *)
Lemma ledger_refresh (s s' : App) :
  ledger s -> isSwarming s' = true -> captured s' = captured s ->
  tasks s' = tasks s -> stats s' = stats s ->
  (wallets s' = wallets s \/
   exists i bal, wallets s' = alter (with_balance bal) i (wallets s)) ->
  ledger s'.
Proof.
  intros L Hs' Hc Hts Hst [Hws|(i & bal & Hws)];
    [by apply (ledger_still s)|].
  destruct L as (Hs & Htot & Hsum & HF). unfold ledger.
  rewrite Hc, Hts, Hst, Hws. split; [exact Hs'|]. split; [exact Htot|]. split.
  - rewrite <- Hsum. apply sum_same_counts. apply list_eq. intros k.
    rewrite !list_lookup_fmap. destruct (decide (k = i)) as [->|Hne].
    + rewrite list_lookup_alter_eq. by destruct (wallets s !! i).
    + by rewrite list_lookup_alter_ne by congruence.
  - apply Forall2_alter_r; [exact HF|].
    intros t wal _ _ Hf. unfold wallet_follows in *.
    cbn [with_balance address privateKey txCount status]. exact Hf.
Qed.



Lemma step_ledger (s : App) (e : Event) :
  during_run e = true -> ledger s -> ledger (step E s e).
Proof.
  intros He L. pose proof L as (Hs & _ & _ & HF).
  pose proof (busy_while_swarming s Hs) as Hb.
  destruct e as [f|sc| | |reply| |po res|w reply|w reply|w|reply|j];
    cbn [step]; try rewrite Hb; cbn [orb negb]; rewrite ?andb_false_r;
    try exact L; try discriminate.
  - unfold handleDownloadWallets.
    destruct (0 <? length (wallets s))%nat; [|exact L].
    destruct (length (wallets s) =? 0)%nat; by apply (ledger_still s).
  - destruct res as [res|]; unfold handleAiGeneration, handleAiGeneration_caught;
      (destruct (negb (JS.truthy (targetContract (form s))));
         [by apply (ledger_still s)|]);
      destruct (negb (JS.truthy (JS.or_else po (aiPrompt (form s)))));
      by apply (ledger_still s).
  - unfold resume_nonce.
    destruct (tasks s !! w) as [[wallet [ |i n|i n| ] seed]|] eqn:Hw;
      try exact L.
    destruct (Forall2_lookup_l _ _ _ _ _ HF Hw) as (wal0 & _ & Hf0).
    assert (Hseed : seed = None) by (follow; destruct seed; tauto).
    subst seed. clear wal0 Hf0.
    destruct reply as [nonce|].
    + match goal with
      | |- ledger (enter_iteration E w wallet 0 nonce ?x) =>
          destruct (enter_iteration_full w wallet 0 nonce x)
            as (Hc & Hsw & [(Hlt & Hts & Hst & Hws)
                           |[(Hlt & Hts & Hst & Hws)|(Hge & Hts & Hst & Hws)]])
      end;
        cbn [isFunding isSwarming logs wallets stats form captured tasks mark
             history set_seed set_tasks observe] in *;
        unfold moved in Hts; rewrite list_alter_alter_eq in Hts.
      * eapply (ledger_move s _ w _ _ _ 0 0 L Hw); try eassumption;
          try (rewrite Hst; lia).
        -- congruence.
        -- reflexivity.
        -- reflexivity.
        -- intros wal Hf. follow. cbn. intuition lia.
      * eapply (ledger_move s _ w _ _ _ 1 0 L Hw); try eassumption;
          try (rewrite Hst; cbn; lia).
        -- congruence.
        -- reflexivity.
        -- reflexivity.
        -- intros wal Hf. follow. cbn. intuition lia.
      * eapply (ledger_move s _ w _ _ _ 0 0 L Hw); try eassumption;
          try (rewrite Hst; lia).
        -- congruence.
        -- reflexivity.
        -- cbn. unfold attempts. cbn. lia.
        -- intros wal Hf. follow. cbn. intuition lia.
    + eapply (ledger_move s _ w _ _ (fun x => x) 0 0 L Hw);
        try reflexivity; try (fields; lia).
      * exact Hs.
      * fields. symmetry. by apply list_alter_id.
      * intros wal Hf. follow. intuition lia.
  - unfold resume_send.
    destruct (tasks s !! w) as [[wallet [ |i n|i n| ] seed]|] eqn:Hw;
      try exact L.
    destruct (Forall2_lookup_l _ _ _ _ _ HF Hw) as (wal0 & _ & Hf0).
    assert (Hseed : exists n0, seed = Some n0 /\
              (Z.of_nat i < interactionsPerWallet (captured s))%Z).
    { follow. destruct seed as [n0|]; [|tauto]. exists n0. intuition. }
    destruct Hseed as (n0 & -> & Hlt). clear wal0 Hf0.
    destruct reply as [tx|reason msg].
    + eapply (ledger_move s _ w _ _ bump_txCount 1 1 L Hw);
        unfold on_send_ok; try reflexivity; try exact Hs;
        try (fields; cbn; lia).
      intros wal Hf. follow. cbn. intuition lia.
    + eapply (ledger_move s _ w _ _ (with_status error) 1 0 L Hw);
        unfold on_send_error; try reflexivity; try exact Hs;
        try (fields; cbn; lia).
      intros wal Hf. follow. cbn. intuition lia.
  - unfold resume_pause.
    destruct (tasks s !! w) as [[wallet [ |i n|i n| ] seed]|] eqn:Hw;
      try exact L.
    destruct (Forall2_lookup_l _ _ _ _ _ HF Hw) as (wal0 & _ & Hf0).
    assert (Hseed : exists n0, seed = Some n0 /\
              (Z.of_nat i < interactionsPerWallet (captured s))%Z).
    { follow. destruct seed as [n0|]; [|tauto]. exists n0. intuition. }
    destruct Hseed as (n0 & -> & Hlt). clear wal0 Hf0.
    destruct (enter_iteration_full w wallet (i + 1) n s)
      as (Hc & Hsw & [(Hlt' & Hts & Hst & Hws)
                     |[(Hlt' & Hts & Hst & Hws)|(Hge & Hts & Hst & Hws)]]);
      unfold moved in Hts.
    + eapply (ledger_move s _ w _ _ _ 0 0 L Hw); try eassumption;
        try (rewrite Hst; lia); try congruence; try reflexivity;
        try (unfold attempts; cbn; lia).
      intros wal Hf. follow. cbn. intuition lia.
    + eapply (ledger_move s _ w _ _ _ 1 0 L Hw); try eassumption;
        try (rewrite Hst; cbn; lia); try congruence; try reflexivity;
        try (unfold attempts; cbn; lia).
      intros wal Hf. follow. cbn. intuition lia.
    + eapply (ledger_move s _ w _ _ _ 0 0 L Hw); try eassumption;
        try (rewrite Hst; lia); try congruence; try reflexivity;
        try (unfold attempts; cbn; lia).
      intros wal Hf. follow. cbn. intuition lia.
  - destruct (resume_refresh_spec E j s)
      as ((_ & Hsw & Hst & _ & Hc & Hts & _) & _ & Hws & _).
    apply (ledger_refresh s); try assumption. congruence.
Qed.

End Ledger.

Lemma sum_spawned (c : Form) (ws : list WalletAccount) :
  sum_list_with (attempts c) (map (fun w => mkTask w AwaitNonce None) ws) = 0.
Proof. induction ws as [|w ws IH]; [reflexivity|exact IH]. Qed.

Lemma sum_wallets_of_tasks (ts : list Task) :
  sum_list_with (fun t => txCount (t_wallet t)) ts =
  sum_list_with txCount (map t_wallet ts).
Proof. induction ts as [|t ts IH]; [reflexivity|cbn; by rewrite IH]. Qed.

Lemma follows_spawned (c : Form) (ws : list WalletAccount) :
  Forall2 (wallet_follows c) (map (fun w => mkTask w AwaitNonce None) ws) ws.
Proof.
  induction ws as [|w ws IH]; constructor; [|exact IH].
  follow. repeat split; lia.
Qed.

Lemma attempts_bound (c : Form) (t : Task) (wal : WalletAccount) :
  wallet_follows c t wal ->
  attempts c t <= Z.to_nat (interactionsPerWallet c).
Proof.
  intros H. follow. destruct (t_pc t) as [ |i n|i n| ], (t_seed t);
    intuition lia.
Qed.

Lemma sum_bound (c : Form) (ts : list Task) (ws : list WalletAccount) :
  Forall2 (wallet_follows c) ts ws ->
  sum_list_with (attempts c) ts <=
  length ws * Z.to_nat (interactionsPerWallet c).
Proof.
  induction 1 as [|t wal ts ws Hf _ IH]; [reflexivity|].
  pose proof (attempts_bound c t wal Hf). cbn. lia.
Qed.

Lemma sum_returned (c : Form) (ts : list Task) :
  forallb returned ts = true ->
  sum_list_with (attempts c) ts =
  seeded_tasks ts * Z.to_nat (interactionsPerWallet c).
Proof.
  unfold seeded_tasks. induction ts as [|t ts IH]; [reflexivity|].
  cbn [forallb]. intros H. apply andb_prop in H as [Ht Hts].
  cbn [sum_list_with List.filter]. rewrite (IH Hts).
  unfold returned in Ht. unfold attempts.
  destruct (t_pc t); try discriminate. destruct (t_seed t); cbn [length]; lia.
Qed.

Section LedgerRun.

Context (E : Ethers).

Lemma start_ledger (s0 : App) :
  isBusy s0 = false -> targetContract (form s0) <> "" -> wallets s0 <> [] ->
  ledger (handleStartSwarm s0) /\
  map t_wallet (tasks (handleStartSwarm s0)) = wallets s0 /\
  captured (handleStartSwarm s0) = form s0.
Proof.
  intros Hb Htarget Hfleet. unfold handleStartSwarm.
  unfold isBusy in Hb. rewrite Hb.
  assert (Htr : JS.truthy (targetContract (form s0)) = true).
  { destruct (JS.truthy (targetContract (form s0))) eqn:H; [reflexivity|].
    apply truthy_empty in H. contradiction. }
  rewrite Htr. cbn [negb].
  destruct (Nat.eqb_spec (length (wallets s0)) 0) as [Hz|_];
    [by apply length_zero_iff_nil in Hz|].
  match goal with
  | |- context [spawn_from (wallets s0) 0 ?x] =>
      destruct (spawn_from_spec (wallets s0) 0 x)
        as [(_ & Hsw & _ & Hws & Hst & _ & Hc & Hts & _) _];
      set (sp := spawn_from (wallets s0) 0 x) in *
  end.
  fields_in Hsw. fields_in Hws. fields_in Hst. fields_in Hc. fields_in Hts.
  split; [|split].
  - unfold ledger. rewrite Hsw, Hws, Hst, Hc, Hts.
    split; [reflexivity|]. split; [by rewrite sum_spawned|]. split.
    + rewrite sum_wallets_of_tasks, map_map. cbn [t_wallet successfulTx zero_stats].
      rewrite map_id. lia.
    + apply follows_spawned.
  - rewrite Hts, map_map. cbn [t_wallet]. apply map_id.
  - exact Hc.
Qed.

Lemma run_ledger (s : App) (events : list Event) :
  forallb during_run events = true -> ledger s -> ledger (run E s events).
Proof.
  revert s. induction events as [|e events IH]; intros s Hall L; [exact L|].
  cbn [forallb] in Hall. apply andb_prop in Hall as [He Hall].
  cbn [run fold_left]. apply (IH _ Hall). by apply step_ledger.
Qed.

(** The books of a run from its start. *)
Lemma swarm_books (s0 : App) (events : list Event) :
  isBusy s0 = false -> targetContract (form s0) <> "" -> wallets s0 <> [] ->
  forallb during_run events = true ->
  let s := run E (handleStartSwarm s0) events in
  ledger s /\ map t_wallet (tasks s) = wallets s0 /\ captured s = form s0.
Proof.
  intros Hb Ht Hf Hrun. cbn zeta.
  destruct (start_ledger s0 Hb Ht Hf) as (L & Hw & Hc).
  pose proof L as (Hs & _).
  destruct (run_task_wallets E _ events Hrun Hs) as [Hw' Hc'].
  split; [by apply run_ledger|]. split; congruence.
Qed.

(** X8. At every moment of a swarm, however its tasks interleave, the
    total of the stats is the number of loop iterations the tasks have been
    through, at most the fleet size times the configured interactions; and
    once every task has returned it is exactly the interactions times the
    number of wallets whose nonce request succeeded. *)
Theorem swarm_total (s0 : App) (events : list Event)
  (Hidle : isBusy s0 = false)
  (Htarget : targetContract (form s0) <> "")
  (Hfleet : wallets s0 <> [])
  (Hrun : forallb during_run events = true) :
  let s := run E (handleStartSwarm s0) events in
  let k := Z.to_nat (interactionsPerWallet (form s0)) in
  totalTx (stats s) = sum_list_with (attempts (form s0)) (tasks s) /\
  totalTx (stats s) <= length (wallets s0) * k /\
  (forallb returned (tasks s) = true ->
   totalTx (stats s) = seeded_tasks (tasks s) * k).
Proof.
  cbn zeta.
  destruct (swarm_books s0 events Hidle Htarget Hfleet Hrun)
    as ((_ & Htot & _ & HF) & Hw & Hc).
  rewrite Hc in *. split; [exact Htot|]. split.
  - rewrite Htot. pose proof (sum_bound _ _ _ HF) as Hb.
    apply Forall2_length in HF. rewrite <- Hw, length_map, HF. exact Hb.
  - intros Hall. rewrite Htot. by apply sum_returned.
Qed.



End LedgerRun.

(** ** The end of a swarm and the tasks outside one *)

Section Completion.

Context (E : Ethers).

(** One settlement of a refresh that awaits the balance of wallet [i]. *)
Lemma resume_refresh_step (j i : nat) (reply : nat -> option Z) (s : App) :
  refreshes s !! j = Some (mkRefresh (AwaitBalance i) reply) ->
  let s' := resume_refresh E j s in
  quiet s s' /\ logs s' = logs s /\
  wallets s' = alter (with_balance (queried E reply i)) i (wallets s) /\
  refreshes s' !! j =
    Some (mkRefresh (match wallets s !! (i + 1) with
                     | Some _ => AwaitBalance (i + 1)
                     | None => Finished
                     end) reply) /\
  exists tr, history s' = history s ++ tr /\
             (forall a, a <> Refresher -> requests a tr = []) /\
             requests Refresher tr =
               match wallets s !! (i + 1) with
               | Some w => [GetBalance (address w)]
               | None => []
               end.
Proof.
  intros Hj. cbn zeta. unfold resume_refresh. rewrite Hj.
  unfold getBalance_settled, queried, update_at.
  assert (Hnext : forall b, alter (with_balance b) i (wallets s) !! (i + 1) =
                            wallets s !! (i + 1))
    by (intros b; apply list_lookup_alter_ne; lia).
  destruct (reply i) as [bal|]; fields; rewrite Hnext;
    destruct (wallets s !! (i + 1)) as [w|]; fields;
    rewrite list_lookup_alter_eq, Hj;
    (split; [unfold quiet; by repeat split|]); (split; [reflexivity|]);
    (split; [reflexivity|]); (split; [reflexivity|]);
    eexists; rewrite <- ?app_assoc; (split; [reflexivity|]);
    (split; [|reflexivity]);
    intros a Ha; destruct a; try reflexivity; contradiction.
Qed.

(** [m] settlements in a row of a refresh that awaits the balance of
    wallet [i]. *)
Lemma refresh_progress (j : nat) (reply : nat -> option Z) (m : nat) :
  forall i s,
    refreshes s !! j = Some (mkRefresh (AwaitBalance i) reply) ->
    i < length (wallets s) -> i + m <= length (wallets s) ->
    let s' := run E s (replicate m (BalanceSettled j)) in
    quiet s s' /\ logs s' = logs s /\
    (forall k, wallets s' !! k =
               if (i <=? k)%nat && (k <? i + m)%nat
               then with_balance (queried E reply k) <$> wallets s !! k
               else wallets s !! k) /\
    length (wallets s') = length (wallets s) /\
    refreshes s' !! j =
      Some (mkRefresh (if (i + m <? length (wallets s))%nat
                       then AwaitBalance (i + m) else Finished) reply) /\
    exists tr, history s' = history s ++ tr /\
               (forall a, a <> Refresher -> requests a tr = []) /\
               requests Refresher tr =
                 map (fun w => GetBalance (address w))
                     (take m (drop (S i) (wallets s))).
Proof.
  induction m as [|m IH]; intros i s Hj Hi Hm; cbn zeta.
  - cbn [replicate run fold_left]. split; [apply quiet_refl|].
    split; [reflexivity|]. split; [|split; [reflexivity|split]].
    + intros k. destruct (Nat.leb_spec i k), (Nat.ltb_spec k (i + 0));
        cbn [andb]; try reflexivity; lia.
    + rewrite Nat.add_0_r. by destruct (Nat.ltb_spec i (length (wallets s))); [|lia].
    + exists []. rewrite app_nil_r. by repeat split.
  - cbn [replicate]. rewrite run_cons. cbn [step].
    destruct (resume_refresh_step j i reply s Hj)
      as (Hq & Hl & Hw & Hj' & tr & Hh & Ho & Hr).
    set (s1 := resume_refresh E j s) in *.
    assert (Hlen : length (wallets s1) = length (wallets s))
      by (by rewrite Hw, length_alter).
    destruct (wallets s !! (i + 1)) as [wn|] eqn:Hn.
    + pose proof (lookup_lt_Some _ _ _ Hn) as Hlt.
      destruct (IH (i + 1) s1 Hj')
        as (Hq2 & Hl2 & Hw2 & Hlen2 & Hj2 & tr2 & Hh2 & Ho2 & Hr2);
        [lia|lia|].
      split; [by eapply quiet_trans|]. split; [congruence|].
      split; [|split; [congruence|split]].
      * intros k. rewrite Hw2, Hw, list_lookup_alter.
        destruct (decide (i = k)) as [Heq|Hne];
          destruct (Nat.leb_spec (i + 1) k), (Nat.leb_spec i k),
            (Nat.ltb_spec k (i + 1 + m)), (Nat.ltb_spec k (i + S m));
          cbn [andb]; try (subst k; reflexivity); try reflexivity; lia.
      * rewrite Hj2, Hlen. by replace (i + 1 + m) with (i + S m) by lia.
      * exists (tr ++ tr2). rewrite Hh2, Hh, app_assoc. split; [reflexivity|].
        split; [intros a Ha; by rewrite requests_app, Ho, Ho2|].
        rewrite requests_app, Hr, Hr2.
        assert (Hd : drop (S i) (wallets s) = wn :: drop (S (i + 1)) (wallets s)).
        { replace (S i) with (i + 1) by lia. by apply drop_S. }
        assert (Hd1 : drop (S (i + 1)) (wallets s1) = drop (S (i + 1)) (wallets s)).
        { rewrite Hw. apply list_eq. intros k. rewrite !lookup_drop.
          apply list_lookup_alter_ne. lia. }
        rewrite Hd, Hd1. reflexivity.
    + apply lookup_ge_None in Hn. assert (m = 0) by lia. subst m.
      cbn [replicate run fold_left].
      split; [exact Hq|]. split; [exact Hl|].
      split; [|split; [exact Hlen|split]].
      * intros k. rewrite Hw, list_lookup_alter.
        destruct (decide (i = k)) as [Heq|Hne];
          destruct (Nat.leb_spec i k), (Nat.ltb_spec k (i + 1));
          cbn [andb]; try (subst k; reflexivity); try reflexivity; lia.
      * rewrite Hj'. by destruct (Nat.ltb_spec (i + 1) (length (wallets s))); [lia|].
      * exists tr. split; [exact Hh|]. split; [exact Ho|]. rewrite Hr.
        rewrite drop_ge by lia. reflexivity.
Qed.

(** X11. The swarm operation resumes after [Promise.all] only when every
    task has returned: before that, and outside a swarm, the settlement
    changes nothing.  When it resumes it lowers the swarm flag at once,
    with the fleet and the stats as the tasks left them and two more log
    entries; the final refresh is only started.  Its balance queries
    settle afterwards, with the flag already down: when [m] of them have
    settled, each of the first [m] wallets has the balance its query
    returned, "0" if the query failed, the others the balance they had,
    and no wallet has changed in anything else. *)
Theorem swarm_completion (s : App) (reply : nat -> option Z) :
  (isSwarming s = false \/ forallb returned (tasks s) = false ->
   step E s (AllSettled reply) = s) /\
  (isSwarming s = true -> forallb returned (tasks s) = true ->
   let s1 := step E s (AllSettled reply) in
   isSwarming s1 = false /\ isFunding s1 = isFunding s /\
   stats s1 = stats s /\ wallets s1 = wallets s /\
   logs s1 = logs s ++ [mkLog "SWARM COMPLETE." SUCCESS None;
                        mkLog "Refreshing fleet balances..." INFO None] /\
   forall m, m <= length (wallets s) ->
     let s2 := run E s1 (replicate m (BalanceSettled (length (refreshes s)))) in
     isSwarming s2 = false /\ stats s2 = stats s /\ logs s2 = logs s1 /\
     forall i w, wallets s !! i = Some w ->
       exists w', wallets s2 !! i = Some w' /\
         address w' = address w /\ privateKey w' = privateKey w /\
         txCount w' = txCount w /\ status w' = status w /\
         balance w' = if (i <? m)%nat
                      then match reply i with
                           | Some bal => formatEther E bal
                           | None => "0"
                           end
                      else balance w).
Proof.
  cbn [step]. unfold finish_swarm. split.
  - intros [H|H]; rewrite H; [reflexivity|by rewrite andb_false_r].
  - intros Hs Hall. rewrite Hs, Hall. cbn [andb]. cbn zeta.
    set (s0 := addLog "SWARM COMPLETE." SUCCESS None s).
    destruct (start_refresh_spec reply s0)
      as ((Hf & _ & Hst & _) & Hw & Hl & _).
    set (s1 := set_isSwarming false (start_refresh reply s0)).
    assert (H1 : isSwarming s1 = false /\ stats s1 = stats s /\
                 wallets s1 = wallets s /\
                 logs s1 = logs s ++ [mkLog "SWARM COMPLETE." SUCCESS None;
                                      mkLog "Refreshing fleet balances..." INFO None]).
    { subst s1. fields. rewrite Hst, Hw, Hl. subst s0. fields.
      by rewrite <- app_assoc. }
    destruct H1 as (Hs1 & Hst1 & Hw1 & Hl1).
    split; [exact Hs1|]. split; [subst s1; fields; by rewrite Hf|].
    split; [exact Hst1|]. split; [exact Hw1|]. split; [exact Hl1|].
    intros m Hm.
    destruct m as [|m].
    { cbn [replicate run fold_left]. split; [exact Hs1|]. split; [exact Hst1|].
      split; [reflexivity|]. intros i w Hi. exists w. rewrite Hw1.
      split; [exact Hi|]. by repeat split. }
    assert (Hjob : refreshes s1 !! length (refreshes s) =
                   Some (mkRefresh (AwaitBalance 0) reply)).
    { subst s1 s0. unfold start_refresh. fields.
      destruct (wallets s !! 0) as [w0|] eqn:H0.
      - fields. by rewrite lookup_app_r, Nat.sub_diag by lia.
      - apply lookup_ge_None in H0. lia. }
    destruct (refresh_progress (length (refreshes s)) reply (S m) 0 s1 Hjob)
      as ((_ & Hs2 & Hst2 & _) & Hl2 & Hw2 & _); [rewrite Hw1; lia..|].
    split; [congruence|]. split; [congruence|]. split; [exact Hl2|].
    intros i w Hi. rewrite Hw2, Hw1, Hi. cbn [Nat.leb andb Nat.add].
    unfold queried.
    destruct (i <? S m)%nat; eexists; (split; [reflexivity|]); by repeat split.
Qed.

(** X12. Each task writes to its own wallet only: when a request of the
    task of wallet [w] settles, or its pause ends, every other wallet of
    the fleet and every other task are as before, and the fleet keeps its
    length. *)
Theorem single_writer (s : App) (e : Event) (w j : nat)
  (He : (exists r, e = NonceSettled w r) \/ (exists r, e = SendSettled w r) \/
        e = PauseOver w)
  (Hj : j <> w) :
  wallets (step E s e) !! j = wallets s !! j /\
  tasks (step E s e) !! j = tasks s !! j /\
  length (wallets (step E s e)) = length (wallets s).
Proof.
  assert (Henter : forall wallet i n x,
            wallets (enter_iteration E w wallet i n x) !! j = wallets x !! j /\
            tasks (enter_iteration E w wallet i n x) !! j = tasks x !! j /\
            length (wallets (enter_iteration E w wallet i n x)) =
              length (wallets x)).
  { intros wallet i n x.
    destruct (enter_iteration_full E w wallet i n x)
      as (_ & _ & [(_ & Hts & _ & Hws)|[(_ & Hts & _ & Hws)|(_ & Hts & _ & Hws)]]);
      rewrite Hts, Hws; unfold moved;
      rewrite !list_lookup_alter_ne, length_alter by congruence; by repeat split. }
  destruct He as [[r ->]|[[r ->]| ->]]; cbn [step].
  - unfold resume_nonce.
    destruct (tasks s !! w) as [[wallet [ |i n|i n| ] seed]|]; try by repeat split.
    destruct r as [nonce|].
    + match goal with
      | |- context [enter_iteration E w wallet 0 nonce ?x] =>
          destruct (Henter wallet 0 nonce x) as (H1 & H2 & H3);
          rewrite H1, H2, H3
      end.
      fields. rewrite list_lookup_alter_ne by congruence. by repeat split.
    + fields. rewrite list_lookup_alter_ne by congruence. by repeat split.
  - unfold resume_send.
    destruct (tasks s !! w) as [[wallet [ |i n|i n| ] seed]|]; try by repeat split.
    destruct r as [tx|reason msg]; unfold on_send_ok, on_send_error, update_at;
      fields; rewrite !list_lookup_alter_ne, length_alter by congruence;
      by repeat split.
  - unfold resume_pause.
    destruct (tasks s !! w) as [[wallet [ |i n|i n| ] seed]|]; try by repeat split.
    apply Henter.
Qed.

(** X13. In every state the component reaches, a swarm that is running
    has a fleet, and when none is running every task of the last one has
    returned, so that a late settlement or timer changes nothing: no
    counter moves and no transaction is sent outside a swarm. *)
Theorem no_task_outlives_swarm (f : Form) (events : list Event) :
  let s := run E (initial f) events in
  (isSwarming s = true -> wallets s <> []) /\
  (isSwarming s = false ->
   forallb returned (tasks s) = true /\
   forall w, (forall r, step E s (NonceSettled w r) = s) /\
             (forall r, step E s (SendSettled w r) = s) /\
             step E s (PauseOver w) = s).
Proof.
  cbn zeta. destruct (run_coherent E f events) as (J1 & J2 & _).
  split; [exact J2|]. intros Hs. split; [by apply J1|].
  intros w. cbn [step]. apply resume_idle. by apply J1.
Qed.

End Completion.

Section RefreshFrame.

Context (E : Ethers).

Lemma start_refresh_job (reply : nat -> option Z) (s : App) :
  wallets s <> [] ->
  refreshes (start_refresh reply s) !! length (refreshes s) =
    Some (mkRefresh (AwaitBalance 0) reply).
Proof.
  intros Hne. unfold start_refresh. fields.
  destruct (wallets s !! 0) as [w0|] eqn:H0.
  - fields. by rewrite lookup_app_r, Nat.sub_diag by lia.
  - apply lookup_ge_None in H0. destruct (wallets s); [done|cbn in H0; lia].
Qed.

(** C9. A refresh over a wallet list keeps the length of the list and, for
    every wallet in it, the address, the private key, the transaction
    count and the status; the balance becomes the formatted balance that
    the query for the wallet returned, or "0" when that query failed;
    every wallet is queried once, in list order, whatever the outcome of
    the queries before it; the stats are not touched.  This holds of the
    refresh that the funding pass awaits, and of the refresh of the fleet
    that a click or the end of a swarm starts, once its queries have
    settled. *)
Theorem updateFleetBalances_frame (currentWallets : list WalletAccount)
  (reply : nat -> option Z) (s : App) :
  (let s' := updateFleetBalances E currentWallets reply s in
   refreshed E reply currentWallets (wallets s') /\
   requests Refresher (history s') =
     requests Refresher (history s)
       ++ map (fun w => GetBalance (address w)) currentWallets /\
   stats s' = stats s) /\
  (wallets s = currentWallets ->
   let s' := run E (start_refresh reply s)
               (replicate (length currentWallets)
                  (BalanceSettled (length (refreshes s)))) in
   refreshed E reply currentWallets (wallets s') /\
   requests Refresher (history s') =
     requests Refresher (history s)
       ++ map (fun w => GetBalance (address w)) currentWallets /\
   stats s' = stats s).
Proof.
  split.
  - cbn zeta.
    destruct (updateFleetBalances_pass E currentWallets reply s)
      as (Hlen & _ & Hw & Hr & Hst).
    split; [|by split]. split; [exact Hlen|].
    intros i w Hi. rewrite Hw, list_lookup_imap, Hi. cbn [fmap option_fmap option_map].
    eexists. split; [reflexivity|]. unfold queried. by destruct w.
  - intros <-. cbn zeta.
    destruct (start_refresh_spec reply s)
      as ((_ & _ & Hst & _) & Hw & _ & tr & Hh & _ & Hr).
    destruct (wallets s) as [|w0 rest] eqn:Hws.
    { cbn [length replicate run fold_left]. rewrite Hw. split; [|split].
      - split; [reflexivity|]. intros i w Hi. discriminate.
      - rewrite Hh, requests_app. cbn [lookup] in Hr. rewrite Hr. reflexivity.
      - exact Hst. }
    assert (Hjob := start_refresh_job reply s). rewrite Hws in Hjob.
    specialize (Hjob ltac:(discriminate)).
    set (s1 := start_refresh reply s) in *.
    destruct (refresh_progress E (length (refreshes s)) reply
                (length (w0 :: rest)) 0 s1 Hjob)
      as ((_ & _ & Hst2 & _) & _ & Hw2 & Hlen2 & _ & tr2 & Hh2 & _ & Hr2);
      [rewrite Hw; cbn; lia..|].
    split; [|split].
    + split; [by rewrite Hlen2, Hw|].
      intros i w Hi. rewrite Hw2, Hw, Hi.
      pose proof (lookup_lt_Some _ _ _ Hi) as Hlt.
      destruct (Nat.ltb_spec i (0 + length (w0 :: rest))) as [_|Hge]; [|lia].
      cbn [Nat.leb andb fmap option_fmap option_map].
      eexists. split; [reflexivity|]. unfold queried. by destruct w.
    + rewrite Hh2, Hh, !requests_app, Hr, Hr2, Hw.
      rewrite <- app_assoc. f_equal.
      change (drop 1 (w0 :: rest)) with rest.
      rewrite take_ge by (cbn [length]; lia). reflexivity.
    + congruence.
Qed.

End RefreshFrame.

(** ** Every swarm can run to its end *)

Section Termination.

Context (E : Ethers).

Lemma enter_iteration_moved (w : nat) (wallet : WalletAccount) (i n : nat)
  (x : App) (pc : Pc) (seed : option nat) :
  tasks x !! w = Some (mkTask wallet pc seed) ->
  exists pc',
    task_moved w wallet x (enter_iteration E w wallet i n x) pc' seed /\
    (((Z.of_nat i < interactionsPerWallet (captured x))%Z /\ at_round i pc') \/
     ((interactionsPerWallet (captured x) <= Z.of_nat i)%Z /\ pc' = Returned)).
Proof.
  intros Ht.
  destruct (enter_iteration_full E w wallet i n x)
    as (Hc & Hs & [(Hk & Hts & _)|[(Hk & Hts & _)|(Hk & Hts & _)]]);
    [exists (AwaitSend i (n + 1))|exists (AwaitPause i (n + 1))|exists Returned];
    (split; [unfold task_moved; rewrite Hc, Hs, Hts; unfold moved;
             rewrite length_alter, list_lookup_alter_eq, Ht;
             do 3 (split; [reflexivity|]); split; [|reflexivity];
             intros j Hj; by rewrite list_lookup_alter_ne by congruence|]).
  - left. split; [exact Hk|]. exists (n + 1). by left.
  - left. split; [exact Hk|]. exists (n + 1). by right.
  - right. by split.
Qed.


(** One round of the schedule: the transaction settles, the pause ends. *)
Lemma round_moved (w : nat) (r : SendReply) (i : nat) (s : App)
  (wallet : WalletAccount) (pc : Pc) (seed : option nat) :
  tasks s !! w = Some (mkTask wallet pc seed) -> at_round i pc ->
  exists pc',
    task_moved w wallet s (step E (step E s (SendSettled w r)) (PauseOver w))
      pc' seed /\
    (((Z.of_nat (S i) < interactionsPerWallet (captured s))%Z /\
      at_round (S i) pc') \/
     ((interactionsPerWallet (captured s) <= Z.of_nat (S i))%Z /\
      pc' = Returned)).
Proof.
  intros Ht [m Hpc].
  assert (H1 : task_moved w wallet s (step E s (SendSettled w r))
                 (AwaitPause i m) seed).
  { cbn [step]. unfold resume_send. rewrite Ht.
    destruct Hpc as [-> | ->].
    - destruct r as [tx|reason msg]; unfold on_send_ok, on_send_error, set_pc,
        task_moved; fields; rewrite length_alter, list_lookup_alter_eq, Ht;
        (do 3 (split; [reflexivity|])); (split; [|reflexivity]);
        intros j Hj; by rewrite list_lookup_alter_ne by congruence.
    - unfold task_moved. by repeat split. }
  destruct H1 as (Hc1 & Hs1 & Hl1 & Ho1 & Ht1).
  set (s1 := step E s (SendSettled w r)) in *.
  cbn [step]. unfold resume_pause. rewrite Ht1.
  destruct (enter_iteration_moved w wallet (i + 1) m s1 _ _ Ht1)
    as (pc' & (Hc2 & Hs2 & Hl2 & Ho2 & Ht2) & Hcase).
  exists pc'. rewrite Nat.add_1_r in *. rewrite Hc1 in Hcase. split; [|exact Hcase].
  unfold task_moved. rewrite Hc2, Hs2, Hl2, Hc1, Hs1, Hl1.
  do 3 (split; [reflexivity|]). split; [|exact Ht2].
  intros j Hj. by rewrite Ho2, Ho1.
Qed.

(** Resumptions of a task that has returned change nothing. *)
Lemma rounds_returned (w : nat) (sent : nat -> SendReply) (n : nat) :
  forall i s wallet seed,
    tasks s !! w = Some (mkTask wallet Returned seed) ->
    run E s (rounds w sent i n) = s.
Proof.
  induction n as [|n IH]; intros i s wallet seed Ht; [reflexivity|].
  cbn [rounds]. rewrite !run_cons. cbn [step].
  unfold resume_send. rewrite Ht. unfold resume_pause. rewrite Ht.
  by eapply IH.
Qed.

(** The rounds left take the task to its return. *)
Lemma rounds_finish (w : nat) (sent : nat -> SendReply) (n : nat) :
  forall i s wallet pc seed,
    tasks s !! w = Some (mkTask wallet pc seed) -> at_round i pc ->
    (Z.of_nat i < interactionsPerWallet (captured s))%Z ->
    i + n = Z.to_nat (interactionsPerWallet (captured s)) ->
    task_moved w wallet s (run E s (rounds w sent i n)) Returned seed.
Proof.
  induction n as [|n IH]; intros i s wallet pc seed Ht Hpc Hlt Hn; [lia|].
  cbn [rounds]. rewrite !run_cons.
  destruct (round_moved w (sent i) i s wallet pc seed Ht Hpc)
    as (pc' & (Hc & Hs & Hl & Ho & Ht') & Hcase).
  set (s2 := step E (step E s (SendSettled w (sent i))) (PauseOver w)) in *.
  destruct Hcase as [[Hk Hpc']|[Hk ->]].
  - rewrite <- Hc in Hk.
    destruct (IH (S i) s2 wallet pc' seed Ht' Hpc' Hk) as (Hc3 & Hs3 & Hl3 & Ho3 & Ht3);
      [rewrite Hc; lia|].
    unfold task_moved. rewrite Hc3, Hs3, Hl3, Hc, Hs, Hl.
    do 3 (split; [reflexivity|]). split; [|exact Ht3].
    intros j Hj. by rewrite Ho3, Ho.
  - rewrite (rounds_returned w sent n (S i) s2 wallet seed Ht').
    unfold task_moved. by repeat split.
Qed.


(** The schedule of one task, from its nonce request to its return. *)
Lemma task_schedule_finish (w : nat) (reply : option nat)
  (sent : nat -> SendReply) (s : App) (wallet : WalletAccount)
  (seed : option nat) :
  tasks s !! w = Some (mkTask wallet AwaitNonce seed) ->
  exists seed',
    task_moved w wallet s
      (run E s (task_schedule w reply sent (interactionsPerWallet (captured s))))
      Returned seed'.
Proof.
  intros Ht. unfold task_schedule. rewrite run_cons.
  assert (H1 : exists pc' seed',
             task_moved w wallet s (step E s (NonceSettled w reply)) pc' seed' /\
             (((0 < interactionsPerWallet (captured s))%Z /\ at_round 0 pc') \/
              pc' = Returned)).
  { cbn [step]. unfold resume_nonce. rewrite Ht. destruct reply as [nonce|].
    - set (x := set_seed w nonce (observe (Rsp (Fleet w) true) s)).
      assert (Hx : task_moved w wallet s x AwaitNonce (Some nonce)).
      { unfold task_moved, x, set_seed. fields.
        rewrite length_alter, list_lookup_alter_eq, Ht.
        do 3 (split; [reflexivity|]). split; [|reflexivity].
        intros j Hj. by rewrite list_lookup_alter_ne by congruence. }
      destruct Hx as (Hc & Hs & Hl & Ho & Hx).
      destruct (enter_iteration_moved w wallet 0 nonce x _ _ Hx)
        as (pc' & (Hc2 & Hs2 & Hl2 & Ho2 & Ht2) & Hcase).
      exists pc', (Some nonce). split.
      + unfold task_moved. rewrite Hc2, Hs2, Hl2, Hc, Hs, Hl.
        do 3 (split; [reflexivity|]). split; [|exact Ht2].
        intros j Hj. by rewrite Ho2, Ho.
      + rewrite Hc in Hcase. destruct Hcase as [[Hk Hpc]|[_ ->]]; [left|by right].
        split; [exact Hk|exact Hpc].
    - exists Returned, seed. split; [|by right].
      unfold task_moved, set_pc. fields.
      rewrite length_alter, list_lookup_alter_eq, Ht.
      do 3 (split; [reflexivity|]). split; [|reflexivity].
      intros j Hj. by rewrite list_lookup_alter_ne by congruence. }
  destruct H1 as (pc' & seed' & (Hc & Hs & Hl & Ho & Ht') & Hcase).
  set (s1 := step E s (NonceSettled w reply)) in *.
  exists seed'. rewrite <- Hc. destruct Hcase as [[Hk Hpc]| ->].
  - rewrite <- Hc in Hk.
    destruct (rounds_finish w sent _ 0 s1 wallet pc' seed' Ht' Hpc Hk eq_refl)
      as (Hc3 & Hs3 & Hl3 & Ho3 & Ht3).
    set (s3 := run E s1 _) in *.
    unfold task_moved. rewrite Hc3, Hs3, Hl3, Hc, Hs, Hl.
    do 3 (split; [reflexivity|]). split; [|exact Ht3].
    intros j Hj. by rewrite Ho3, Ho.
  - rewrite (rounds_returned w sent _ 0 s1 wallet seed' Ht').
    unfold task_moved. by repeat split.
Qed.

(** The schedule of the first [n] tasks of a swarm that has just started. *)
Lemma fleet_schedule_prefix (s : App) (nonce : nat -> option nat)
  (sent : nat -> nat -> SendReply) (n : nat) :
  (forall w t, tasks s !! w = Some t -> t_pc t = AwaitNonce) ->
  n <= length (tasks s) ->
  let s' := run E s (fleet_schedule n nonce sent
                       (interactionsPerWallet (captured s))) in
  captured s' = captured s /\ isSwarming s' = isSwarming s /\
  length (tasks s') = length (tasks s) /\
  (forall w t, w < n -> tasks s' !! w = Some t -> t_pc t = Returned) /\
  (forall w, n <= w -> tasks s' !! w = tasks s !! w).
Proof.
  intros Hstart. cbn zeta. induction n as [|n IH]; intros Hn.
  - unfold fleet_schedule. cbn [seq flat_map run fold_left].
    do 3 (split; [reflexivity|]). split; [intros; lia|reflexivity].
  - destruct IH as (Hc & Hs & Hl & Hdone & Hrest); [lia|].
    unfold fleet_schedule in *. rewrite seq_S, flat_map_app, run_app.
    cbn [flat_map plus]. rewrite app_nil_r.
    set (s1 := run E s (flat_map _ (seq 0 n))) in *.
    destruct (lookup_lt_is_Some_2 (tasks s) n) as [[wallet pc seed] Ht]; [lia|].
    pose proof (Hstart _ _ Ht) as Hpc. cbn in Hpc. subst pc.
    rewrite <- (Hrest n) in Ht by lia. rewrite <- Hc.
    destruct (task_schedule_finish n (nonce n) (sent n) s1 wallet seed Ht)
      as (seed' & Hc2 & Hs2 & Hl2 & Ho2 & Ht2).
    set (s2 := run E s1 _) in *.
    rewrite Hc2, Hs2, Hl2, Hc, Hs, Hl. do 3 (split; [reflexivity|]). split.
    + intros w t Hw Hlook. destruct (Nat.eq_dec w n) as [->|Hne].
      * rewrite Ht2 in Hlook. by injection Hlook as <-.
      * rewrite Ho2 in Hlook by exact Hne. apply (Hdone w t); [lia|exact Hlook].
    + intros w Hw. rewrite Ho2 by lia. apply Hrest. lia.
Qed.

(** X14. Every swarm can run to its end, whatever the chain client
    answers: when the requests of each task are answered in turn, the nonce
    and then, for each configured interaction, the transaction and the
    pause, every task returns, and the settlement of [Promise.all] then
    releases the swarm flag. *)
Theorem swarm_terminates (s0 : App) (nonce : nat -> option nat)
  (sent : nat -> nat -> SendReply) (reply : nat -> option Z)
  (Hidle : isBusy s0 = false)
  (Htarget : targetContract (form s0) <> "")
  (Hfleet : wallets s0 <> []) :
  let events := fleet_schedule (length (wallets s0)) nonce sent
                  (interactionsPerWallet (form s0)) in
  let s := run E (handleStartSwarm s0) events in
  forallb during_run events = true /\
  isSwarming s = true /\
  forallb returned (tasks s) = true /\
  isSwarming (step E s (AllSettled reply)) = false.
Proof.
  cbn zeta.
  assert (Hstart : isSwarming (handleStartSwarm s0) = true /\
                   captured (handleStartSwarm s0) = form s0 /\
                   tasks (handleStartSwarm s0) =
                     map (fun w => mkTask w AwaitNonce None) (wallets s0)).
  { unfold handleStartSwarm. unfold isBusy in Hidle. rewrite Hidle.
    assert (Htr : JS.truthy (targetContract (form s0)) = true).
    { destruct (JS.truthy (targetContract (form s0))) eqn:H; [reflexivity|].
      apply truthy_empty in H. contradiction. }
    rewrite Htr. cbn [negb].
    destruct (Nat.eqb_spec (length (wallets s0)) 0) as [Hz|_];
      [by apply length_zero_iff_nil in Hz|].
    match goal with
    | |- context [spawn_from (wallets s0) 0 (set_run ?c _ _ ?x)] =>
        destruct (spawned_state c (wallets s0) x) as (Hsw & Hc & Hts & _)
    end.
    rewrite Hsw, Hc, Hts. by repeat split. }
  destruct Hstart as (Hs & Hc & Hts).
  destruct (fleet_schedule_prefix (handleStartSwarm s0) nonce sent
              (length (wallets s0)))
    as (Hc' & Hs' & Hl' & Hdone & _).
  { intros w t Hw. rewrite Hts, list_lookup_fmap in Hw.
    destruct (wallets s0 !! w); [|discriminate]. by injection Hw as <-. }
  { by rewrite Hts, length_map. }
  rewrite Hc in *.
  set (s := run E (handleStartSwarm s0) _) in *.
  assert (Hall : forallb returned (tasks s) = true).
  { apply forallb_forall. intros t Hin. apply list_elem_of_In in Hin.
    apply list_elem_of_lookup_1 in Hin as [w Hw].
    pose proof (lookup_lt_Some _ _ _ Hw) as Hlt.
    rewrite Hl', Hts, length_map in Hlt.
    unfold returned. by rewrite (Hdone w t Hlt Hw). }
  split; [|split; [|split]].
  - apply forallb_forall. intros e Hin. unfold fleet_schedule in Hin.
    apply in_flat_map in Hin as (w & _ & Hin). unfold task_schedule in Hin.
    destruct Hin as [<-|Hin]; [reflexivity|].
    revert Hin. generalize 0 as i.
    induction (Z.to_nat (interactionsPerWallet (form s0))) as [|n IH];
      intros i Hin; [destruct Hin|].
    cbn [rounds] in Hin. destruct Hin as [<-|[<-|Hin]]; [reflexivity..|].
    by apply (IH (S i)).
  - congruence.
  - exact Hall.
  - cbn [step]. unfold finish_swarm. rewrite Hs', Hs, Hall. reflexivity.
Qed.

End Termination.

(** ** The nonces of a swarm, against the answers of the chain client *)

Section Nonces.

Context (E : Ethers).

Lemma fetched_snoc (w : nat) (events : list Event) (e : Event) :
  fetched w (events ++ [e]) =
    match fetched w events with
    | Some r => Some r
    | None => fetched w [e]
    end.
Proof.
  induction events as [|e' events IH]; [reflexivity|].
  cbn [app fetched]. destruct e'; try exact IH.
  destruct (w0 =? w)%nat; [reflexivity|exact IH].
Qed.

Lemma run_swarming (s : App) (events : list Event) :
  forallb during_run events = true -> isSwarming s = true ->
  isSwarming (run E s events) = true.
Proof.
  revert s. induction events as [|e events IH]; intros s Hall Hs; [exact Hs|].
  cbn [forallb] in Hall. apply andb_prop in Hall as [He Hall].
  rewrite run_cons. apply (IH _ Hall).
  by destruct (step_task_wallets E s e He Hs) as (_ & H & _).
Qed.

(** The settlement of the nonce request, for the task that awaits it. *)
Lemma resume_nonce_moved (w : nat) (reply : option nat) (s : App)
  (wallet : WalletAccount) (seed : option nat) :
  tasks s !! w = Some (mkTask wallet AwaitNonce seed) ->
  exists pc' seed',
    task_moved w wallet s (resume_nonce E w reply s) pc' seed' /\
    match reply with
    | Some n => seed' = Some n /\ pc' <> AwaitNonce
    | None => seed' = seed /\ pc' = Returned
    end.
Proof.
  intros Ht. unfold resume_nonce. rewrite Ht. destruct reply as [nonce|].
  - set (x := set_seed w nonce (observe (Rsp (Fleet w) true) s)).
    assert (Hx : task_moved w wallet s x AwaitNonce (Some nonce)).
    { unfold task_moved, x, set_seed. fields.
      rewrite length_alter, list_lookup_alter_eq, Ht.
      do 3 (split; [reflexivity|]). split; [|reflexivity].
      intros j Hj. by rewrite list_lookup_alter_ne by congruence. }
    destruct Hx as (Hc & Hs & Hl & Ho & Hx).
    destruct (enter_iteration_moved E w wallet 0 nonce x _ _ Hx)
      as (pc' & (Hc2 & Hs2 & Hl2 & Ho2 & Ht2) & Hcase).
    exists pc', (Some nonce). split.
    + unfold task_moved. rewrite Hc2, Hs2, Hl2, Hc, Hs, Hl.
      do 3 (split; [reflexivity|]). split; [|exact Ht2].
      intros j Hj. by rewrite Ho2, Ho.
    + split; [reflexivity|].
      destruct Hcase as [[_ (m & [-> | ->])]|[_ ->]]; discriminate.
  - exists Returned, seed. split; [|by split].
    unfold task_moved, set_pc. fields.
    rewrite length_alter, list_lookup_alter_eq, Ht.
    do 3 (split; [reflexivity|]). split; [|reflexivity].
    intros j Hj. by rewrite list_lookup_alter_ne by congruence.
Qed.

Lemma resume_send_moved (w : nat) (r : SendReply) (s : App)
  (wallet : WalletAccount) (i n : nat) (seed : option nat) :
  tasks s !! w = Some (mkTask wallet (AwaitSend i n) seed) ->
  task_moved w wallet s (resume_send w r s) (AwaitPause i n) seed.
Proof.
  intros Ht. unfold resume_send. rewrite Ht.
  destruct r as [tx|reason msg]; unfold on_send_ok, on_send_error, set_pc,
    task_moved; fields; rewrite length_alter, list_lookup_alter_eq, Ht;
    (do 3 (split; [reflexivity|])); (split; [|reflexivity]);
    intros j Hj; by rewrite list_lookup_alter_ne by congruence.
Qed.

Lemma resume_pause_moved (w : nat) (s : App) (wallet : WalletAccount)
  (i n : nat) (seed : option nat) :
  tasks s !! w = Some (mkTask wallet (AwaitPause i n) seed) ->
  exists pc', task_moved w wallet s (resume_pause E w s) pc' seed /\
              pc' <> AwaitNonce.
Proof.
  intros Ht. unfold resume_pause. rewrite Ht.
  destruct (enter_iteration_moved E w wallet (i + 1) n s _ _ Ht)
    as (pc' & Hm & Hcase).
  exists pc'. split; [exact Hm|].
  destruct Hcase as [[_ (m & [-> | ->])]|[_ ->]]; discriminate.
Qed.

(** A step of a running swarm keeps every task in agreement with the
    settlement of its nonce request. *)
Lemma step_seed_agrees (s : App) (e : Event) (w : nat)
  (r : option (option nat)) (t' : Task) :
  isSwarming s = true -> during_run e = true ->
  (forall t, tasks s !! w = Some t -> seed_agrees r t) ->
  tasks (step E s e) !! w = Some t' ->
  seed_agrees (match r with Some x => Some x | None => fetched w [e] end) t'.
Proof.
  intros Hs He HP Hw'. pose proof (busy_while_swarming s Hs) as Hb.
  assert (Hsame : tasks (step E s e) !! w = tasks s !! w ->
                  fetched w [e] = None ->
                  seed_agrees (match r with
                               | Some x => Some x
                               | None => fetched w [e]
                               end) t').
  { intros Heq Hf. rewrite Heq in Hw'. rewrite Hf. specialize (HP _ Hw').
    by destruct r. }
  assert (Hmoved : forall v wallet s' pc pc' seed seed',
            tasks s !! v = Some (mkTask wallet pc seed) ->
            task_moved v wallet s s' pc' seed' ->
            tasks s' !! w = Some t' ->
            (v <> w -> tasks s' !! w = tasks s !! w) /\
            (v = w -> t' = mkTask wallet pc' seed' /\
                      seed_agrees r (mkTask wallet pc seed))).
  { intros v wallet s' pc pc' seed seed' Hv (_ & _ & _ & Ho & Hv') Hl. split.
    - intros Hne. apply Ho. congruence.
    - intros ->. rewrite Hv' in Hl. injection Hl as <-. split; [reflexivity|].
      by apply HP. }
  destruct e as [f|sc| | |reply| |po res|v reply|v reply|v|reply|j];
    try discriminate He; cbn [step] in *.
  - by apply Hsame.
  - rewrite Hb in *. by apply Hsame.
  - rewrite Hb in *. by apply Hsame.
  - rewrite Hb, andb_false_r in *. by apply Hsame.
  - rewrite Hb, andb_false_r in *. by apply Hsame.
  - apply Hsame; [|reflexivity]. unfold handleDownloadWallets.
    destruct (0 <? length (wallets s))%nat; [|reflexivity].
    by destruct (length (wallets s) =? 0)%nat.
  - apply Hsame; [|reflexivity]. destruct res as [res|];
      unfold handleAiGeneration, handleAiGeneration_caught;
      (destruct (negb (JS.truthy (targetContract (form s)))); [reflexivity|]);
      by destruct (negb (JS.truthy (JS.or_else po (aiPrompt (form s))))).
  - cbn [fetched].
    destruct (tasks s !! v) as [[wallet pc seed]|] eqn:Hv.
    2: { assert (Hid : resume_nonce E v reply s = s)
           by (unfold resume_nonce; by rewrite Hv).
         rewrite Hid in Hw'. destruct (Nat.eqb_spec v w) as [->|Hne];
           [congruence|]. specialize (HP _ Hw'). by destruct r. }
    destruct pc as [ |i n|i n| ].
    2,3,4: (assert (Hid : resume_nonce E v reply s = s)
              by (unfold resume_nonce; by rewrite Hv);
            rewrite Hid in Hw'; specialize (HP _ Hw');
            destruct (Nat.eqb_spec v w) as [->|Hne]; [|by destruct r];
            rewrite Hv in Hw'; injection Hw' as <-;
            destruct r as [[n0|]|]; try exact HP;
            by destruct HP as [HP _]).
    destruct (resume_nonce_moved v reply s wallet seed Hv)
      as (pc' & seed' & Hm & Hcase).
    destruct (Hmoved _ _ _ _ _ _ _ Hv Hm Hw') as [Hother Hself].
    destruct (Nat.eqb_spec v w) as [->|Hne].
    + destruct (Hself eq_refl) as [-> Hold]. unfold seed_agrees in *.
      cbn [t_pc t_seed] in *.
      destruct r as [[n0|]|].
      * by destruct Hold as [_ Hold].
      * by destruct Hold as [Hold _].
      * destruct Hold as [_ ->]. destruct reply as [n|]; destruct Hcase; by split.
    + rewrite (Hother Hne) in Hw'. specialize (HP _ Hw'). by destruct r.
  - destruct (tasks s !! v) as [[wallet pc seed]|] eqn:Hv.
    2: { apply Hsame; [|reflexivity]. unfold resume_send. by rewrite Hv. }
    destruct pc as [ |i n|i n| ].
    1,3,4: (apply Hsame; [|reflexivity]; unfold resume_send; by rewrite Hv).
    pose proof (resume_send_moved v reply s wallet i n seed Hv) as Hm.
    destruct (Hmoved _ _ _ _ _ _ _ Hv Hm Hw') as [Hother Hself].
    destruct (Nat.eq_dec v w) as [->|Hne].
    + destruct (Hself eq_refl) as [-> Hold]. unfold seed_agrees in *.
      cbn [t_pc t_seed fetched] in *.
      destruct r as [[n0|]|].
      * destruct Hold as [Hold _]. by split.
      * by destruct Hold as [Hold _].
      * by destruct Hold as [Hold _].
    + apply Hsame; [by apply Hother|reflexivity].
  - destruct (tasks s !! v) as [[wallet pc seed]|] eqn:Hv.
    2: { apply Hsame; [|reflexivity]. unfold resume_pause. by rewrite Hv. }
    destruct pc as [ |i n|i n| ].
    1,2,4: (apply Hsame; [|reflexivity]; unfold resume_pause; by rewrite Hv).
    destruct (resume_pause_moved v s wallet i n seed Hv) as (pc' & Hm & Hpc').
    destruct (Hmoved _ _ _ _ _ _ _ Hv Hm Hw') as [Hother Hself].
    destruct (Nat.eq_dec v w) as [->|Hne].
    + destruct (Hself eq_refl) as [-> Hold]. unfold seed_agrees in *.
      cbn [t_pc t_seed fetched] in *.
      destruct r as [[n0|]|].
      * destruct Hold as [Hold _]. by split.
      * by destruct Hold as [Hold _].
      * by destruct Hold as [Hold _].
    + apply Hsame; [by apply Hother|reflexivity].
  - apply Hsame; [|reflexivity].
    by destruct (resume_refresh_spec E j s) as ((_ & _ & _ & _ & _ & Hts & _) & _);
      rewrite Hts.
Qed.

(** At every moment of a swarm every task agrees with the settlement of
    its nonce request. *)
Lemma run_seed_agrees (s : App) (events : list Event) :
  isSwarming s = true -> forallb during_run events = true ->
  (forall w t, tasks s !! w = Some t -> seed_agrees None t) ->
  forall w t, tasks (run E s events) !! w = Some t ->
              seed_agrees (fetched w events) t.
Proof.
  intros Hs Hrun Hstart.
  induction events as [|e events IH] using rev_ind; [exact Hstart|].
  rewrite forallb_app in Hrun. apply andb_prop in Hrun as [Hrun He].
  cbn [forallb] in He. rewrite andb_true_r in He.
  intros w t. rewrite run_snoc, fetched_snoc. intros Hw.
  apply (step_seed_agrees (run E s events) e w (fetched w events) t);
    [by apply run_swarming|exact He| |exact Hw].
  intros t0. by apply IH.
Qed.

Lemma swarm_started (s0 : App) :
  isBusy s0 = false -> targetContract (form s0) <> "" -> wallets s0 <> [] ->
  isSwarming (handleStartSwarm s0) = true /\
  tasks (handleStartSwarm s0) =
    map (fun w => mkTask w AwaitNonce None) (wallets s0).
Proof.
  intros Hidle Htarget Hfleet.
  unfold handleStartSwarm. unfold isBusy in Hidle. rewrite Hidle.
  assert (Htr : JS.truthy (targetContract (form s0)) = true).
  { destruct (JS.truthy (targetContract (form s0))) eqn:H; [reflexivity|].
    apply truthy_empty in H. contradiction. }
  rewrite Htr. cbn [negb].
  destruct (Nat.eqb_spec (length (wallets s0)) 0) as [Hz|_];
    [by apply length_zero_iff_nil in Hz|].
  match goal with
  | |- context [spawn_from (wallets s0) 0 (set_run ?c _ _ ?x)] =>
      destruct (spawned_state c (wallets s0) x) as (Hsw & _ & Hts & _)
  end.
  rewrite Hsw, Hts. by split.
Qed.

(** C1. In a swarm over a fleet whose keys the library accepts, whatever
    the interleaving of the tasks and the answers of the chain client, the
    requests that the task of a wallet has handed to the chain client are
    determined by how its nonce request has settled.  While it is pending,
    and when it has failed, the nonce request is the only request of the
    task.  When the chain client has answered it with [n0], it is followed
    by transactions with the nonces [n0], [n0 + 1], ... in this order and
    by nothing else: the first of them goes out as soon as the answer
    arrives, a task in iteration [i] has submitted [i + 1] of them and
    holds the local nonce [n0 + i + 1], whether the submissions before were
    accepted or not, and a task that has returned has submitted one per
    configured interaction.  The nonce is never requested again. *)
Theorem swarm_nonces (s0 : App) (events : list Event)
  (Hidle : isBusy s0 = false)
  (Htarget : targetContract (form s0) <> "")
  (Hfleet : wallets s0 <> [])
  (Hkeys : Forall (fun w => isValidPrivateKey E (privateKey w) = true)
                  (wallets s0))
  (Hrun : forallb during_run events = true) :
  let s := run E (handleStartSwarm s0) events in
  let k := Z.to_nat (interactionsPerWallet (form s0)) in
  map t_wallet (tasks s) = wallets s0 /\
  forall w t,
    tasks s !! w = Some t ->
    let reqs := requests (Fleet w) (since_start s) in
    nonce_discipline E (form s0) t reqs /\
    exists kp,
      new_Wallet E (privateKey (t_wallet t)) = Some kp /\
      match fetched w events with
      | None =>
          t_pc t = AwaitNonce /\
          reqs = [GetTransactionCount (address (t_wallet t))]
      | Some None =>
          t_pc t = Returned /\
          reqs = [GetTransactionCount (address (t_wallet t))]
      | Some (Some n0) =>
          exists m,
            reqs = GetTransactionCount (address (t_wallet t))
                     :: map (swarm_send (form s0) (kp_privateKey kp)) (seq n0 m) /\
            match t_pc t with
            | AwaitNonce => False
            | AwaitSend i n | AwaitPause i n =>
                m = i + 1 /\ n = n0 + m /\ m <= k
            | Returned => m = k
            end
      end.
Proof.
  cbn zeta.
  destruct (swarm_discipline E s0 events Hidle Htarget Hfleet Hkeys Hrun)
    as [Hw Hd].
  split; [exact Hw|]. intros w t Ht. split; [by apply Hd|].
  destruct (Hd w t Ht) as (kp & Hkp & Hcase). exists kp. split; [exact Hkp|].
  destruct (swarm_started s0 Hidle Htarget Hfleet) as [Hs Hts].
  assert (Hf : seed_agrees (fetched w events) t).
  { apply (run_seed_agrees (handleStartSwarm s0) events Hs Hrun); [|exact Ht].
    intros w0 t0 H0. rewrite Hts, list_lookup_fmap in H0.
    destruct (wallets s0 !! w0); [|discriminate]. injection H0 as <-.
    by split. }
  unfold seed_agrees in Hf.
  destruct (fetched w events) as [[n0|]|].
  - destruct Hf as [Hseed Hpc]. rewrite Hseed in Hcase.
    destruct Hcase as (m & Hreqs & Hm). exists m. split; [exact Hreqs|].
    destruct (t_pc t) as [ |i n|i n| ]; try exact Hm;
      destruct Hm as (Hm1 & Hm2 & Hm3); (split; [exact Hm1|]);
      (split; [exact Hm2|]); lia.
  - destruct Hf as [Hpc Hseed]. rewrite Hseed in Hcase. by destruct Hcase.
  - destruct Hf as [Hpc Hseed]. rewrite Hseed in Hcase. by destruct Hcase.
Qed.

End Nonces.

(** ** The log *)

Ltac logged := fields; repeat apply prefix_app_r; reflexivity.

Section Log.

Context (E : Ethers).

Lemma fundWallets_from_logs (funder : KeyPair) (amountWei : Z)
  (reply : nat -> SendReply) (targets : list WalletAccount) :
  forall i s,
    logs s `prefix_of`
      logs (fundWallets_from funder amountWei targets i onFunded reply s).
Proof.
  induction targets as [|target rest IH]; intros i s; cbn [fundWallets_from];
    [reflexivity|].
  etransitivity; [|apply IH].
  destruct (reply i) as [tx|reason msg]; [|logged].
  destruct (wait tx 1); [unfold onFunded|]; logged.
Qed.

Lemma updateFleetBalances_logs (ws : list WalletAccount)
  (reply : nat -> option Z) (s : App) :
  logs s `prefix_of` logs (updateFleetBalances E ws reply s).
Proof.
  unfold updateFleetBalances.
  destruct (updateFleetBalances_from_spec E ws 0 reply
              (addLog "Refreshing fleet balances..." INFO None s))
    as (_ & (_ & _ & Hl & _) & _).
  destruct (updateFleetBalances_from E ws 0 reply _) as [ws' s2].
  cbn [snd] in Hl. fields. rewrite Hl. logged.
Qed.

Lemma prepareFleet_logs (random : nat -> KeyPair) (s : App) :
  logs s `prefix_of` logs (snd (prepareFleet E random s)).
Proof.
  unfold prepareFleet. destruct (walletMode (form s)); [logged|].
  unfold createWalletsFromKeys.
  destruct (createWalletsFromKeys_from_frame E (JS.split_nl (importText (form s)))
              [] (addLog "Parsing imported keys..." INFO None s)) as (Hl & _).
  destruct (createWalletsFromKeys_from E _ [] _) as [ws s2].
  cbn [snd] in Hl. destruct (length ws =? 0)%nat; fields; rewrite Hl; logged.
Qed.

Lemma handleFundFleet_logs (sc : FundScript) (s : App) :
  logs s `prefix_of` logs (handleFundFleet E sc s).
Proof.
  unfold handleFundFleet. destruct (isFunding s || isSwarming s); [reflexivity|].
  destruct (negb (isValidPrivateKey E (funderKey (form s)))); [logged|].
  unfold fund_try. set (s1 := set_isFunding true s).
  assert (H1 : logs s `prefix_of`
               logs (snd (if (length (wallets s1) =? 0)%nat
                          then prepareFleet E (fs_random sc) s1
                          else (wallets s1, s1)))).
  { destruct (length (wallets s1) =? 0)%nat; [|reflexivity].
    apply (prepareFleet_logs _ s1). }
  destruct (if (length (wallets s1) =? 0)%nat
            then prepareFleet E (fs_random sc) s1
            else (wallets s1, s1)) as [cur s2].
  cbn [snd] in H1. etransitivity; [exact H1|].
  destruct (length cur =? 0)%nat; [logged|].
  unfold fundWallets. destruct (new_Wallet E _) as [funder|]; [|logged].
  destruct (parseEther E _) as [amountWei|]; [|logged].
  match goal with
  | |- context [fundWallets_from funder amountWei cur 0 onFunded ?r ?x] =>
      pose proof (fundWallets_from_logs funder amountWei r cur 0 x) as H3;
      set (s3 := fundWallets_from funder amountWei cur 0 onFunded r x) in *
  end.
  etransitivity; [|etransitivity; [exact H3|]]; [logged|].
  fields. apply prefix_app_r.
  etransitivity; [|apply updateFleetBalances_logs]. logged.
Qed.

Lemma enter_iteration_logs (w : nat) (wallet : WalletAccount) (i n : nat)
  (s : App) :
  logs s `prefix_of` logs (enter_iteration E w wallet i n s).
Proof.
  unfold enter_iteration.
  destruct (Z.of_nat i <? interactionsPerWallet (captured s))%Z; [|logged].
  destruct (JS.call_surplus _ _) as [[key req]|]; [logged|].
  unfold on_send_error. logged.
Qed.

Lemma step_logs (s : App) (e : Event) :
  logs s `prefix_of` logs (step E s e).
Proof.
  destruct e as [f|sc| | |reply| |po res|w reply|w reply|w|reply|j]; cbn [step].
  - reflexivity.
  - destruct (isBusy s); [reflexivity|apply handleFundFleet_logs].
  - destruct (isBusy s || _); [reflexivity|]. unfold handleStartSwarm.
    destruct (isFunding s || isSwarming s); [reflexivity|].
    destruct (negb _); [logged|]. destruct (_ =? 0)%nat; [logged|].
    match goal with
    | |- context [spawn_from (wallets s) 0 ?x] =>
        destruct (spawn_from_spec (wallets s) 0 x) as [(_ & _ & Hl & _) _];
        rewrite Hl
    end.
    logged.
  - destruct (_ && _); [unfold resetFleet; logged|reflexivity].
  - destruct (_ && _); [|reflexivity].
    destruct (start_refresh_spec reply s) as (_ & _ & Hl & _). rewrite Hl.
    by apply prefix_app_r.
  - destruct (0 <? _)%nat; [|reflexivity]. unfold handleDownloadWallets.
    destruct (_ =? 0)%nat; logged.
  - destruct res as [res|]; unfold handleAiGeneration, handleAiGeneration_caught;
      (destruct (negb _); [logged|]); destruct (negb _); logged.
  - unfold resume_nonce.
    destruct (tasks s !! w) as [[wallet [ |i n|i n| ] seed]|]; try reflexivity.
    destruct reply as [nonce|]; [|logged].
    etransitivity; [|apply enter_iteration_logs]. logged.
  - unfold resume_send.
    destruct (tasks s !! w) as [[wallet [ |i n|i n| ] seed]|]; try reflexivity.
    destruct reply as [tx|reason msg]; unfold on_send_ok, on_send_error; logged.
  - unfold resume_pause.
    destruct (tasks s !! w) as [[wallet [ |i n|i n| ] seed]|]; try reflexivity.
    apply enter_iteration_logs.
  - unfold finish_swarm. destruct (_ && _); [|reflexivity].
    fields.
    match goal with
    | |- context [start_refresh reply ?x] =>
        destruct (start_refresh_spec reply x) as (_ & _ & Hl & _); rewrite Hl
    end.
    logged.
  - destruct (resume_refresh_spec E j s) as (_ & Hl & _). by rewrite Hl.
Qed.

(** X15. The log is append-only: whatever happens to the component, the
    entries it showed before are still there, in the same order and
    unchanged, followed by the new ones.  A reset of the fleet keeps the
    log. *)
Theorem log_append_only (s : App) (events : list Event) :
  logs s `prefix_of` logs (run E s events).
Proof.
  revert s. induction events as [|e events IH]; intros s; [reflexivity|].
  rewrite run_cons. etransitivity; [apply step_logs|apply IH].
Qed.

End Log.

(** * The further properties on examples *)

Lemma generate_fleet_witness :
  walletMode (form (initial Sample.funding_form)) = generate /\
  map address (wallets (snd (prepareFleet Sample.lib Sample.random
                               (initial Sample.funding_form)))) =
    ["0xaddr0"; "0xaddr1"].
Proof.
  split; [reflexivity|].
  destruct (generate_fleet Sample.lib Sample.random (initial Sample.funding_form)
              eq_refl) as (_ & Hw & _).
  rewrite Hw. reflexivity.
Defined.

Lemma shown_count_bounds_import_witness :
  walletMode Sample.import_form = import /\
  walletCount (sync_walletCount Sample.import_form) = 3%Z.
Proof.
  split; [reflexivity|].
  destruct (shown_count_bounds_import Sample.lib Sample.import_form
              (initial Sample.import_form) eq_refl) as (Hc & _).
  rewrite Hc. reflexivity.
Defined.

Lemma funding_refused_witness :
  let s := initial Sample.blank_form in
  isBusy s = false /\
  isValidPrivateKey Sample.lib (funderKey (form s)) = false /\
  handleFundFleet Sample.lib Sample.script s =
    addLog "Invalid Funder Private Key" ERROR None s.
Proof.
  cbn zeta. split; [reflexivity|]. split; [reflexivity|].
  destruct (funding_refused Sample.lib Sample.script (initial Sample.blank_form)
              eq_refl (or_introl eq_refl)) as (_ & _ & _ & _ & H).
  apply H. reflexivity.
Defined.

Lemma funded_fleet_witness :
  let s' := handleFundFleet Sample.lib Sample.script Sample.ready in
  isBusy Sample.ready = false /\
  new_Wallet Sample.lib (funderKey (form Sample.ready)) = Some Sample.funder /\
  parseEther Sample.lib (fundingAmount (form Sample.ready)) =
    Some 10000000000000000%Z /\
  (exists w', wallets s' !! 0 = Some w' /\
              status w' = funding /\ balance w' = "10000000000000000 wei") /\
  (exists w', wallets s' !! 1 = Some w' /\
              status w' = idle /\ balance w' = "0") /\
  length (wallets s') = 2.
Proof.
  cbn zeta. split; [reflexivity|]. split; [reflexivity|]. split; [reflexivity|].
  destruct (funded_fleet Sample.lib Sample.script Sample.ready Sample.funder
              10000000000000000%Z eq_refl eq_refl eq_refl)
    as (Hlen & Hw & _); [discriminate|].
  split; [|split; [|exact Hlen]].
  - destruct (Hw 0 Sample.wallet1 eq_refl) as (w' & H0 & _ & _ & _ & Hb & Hs).
    exists w'. split; [exact H0|]. split; [exact Hs|exact Hb].
  - destruct (Hw 1 Sample.wallet2 eq_refl) as (w' & H1 & _ & _ & _ & Hb & Hs).
    exists w'. split; [exact H1|]. split; [exact Hs|exact Hb].
Defined.

Lemma funder_preview_witness :
  isValidPrivateKey Sample.lib Sample.key1 = true /\
  checkBalance Sample.lib Sample.key1 (Some 5%Z) None = Some "5 wei" /\
  checkBalance Sample.lib "not a key" (Some 5%Z) (Some "5 wei") = None.
Proof.
  split; [reflexivity|].
  destruct (funder_preview Sample.lib Sample.key1 (Some 5%Z) None Sample.ready)
    as (_ & Hok & _).
  destruct (Hok 5%Z eq_refl eq_refl) as [Hshow _].
  split; [exact Hshow|].
  destruct (funder_preview Sample.lib "not a key" (Some 5%Z) (Some "5 wei")
              Sample.ready) as (Hbad & _).
  apply Hbad. reflexivity.
Defined.

Lemma model_failure_defaults_witness :
  targetContract (form Sample.ready) <> "" /\
  JS.or_else "mint" (aiPrompt (form Sample.ready)) <> "" /\
  customData (form (handleAiGeneration "mint"
                      (fst (generateInteractionData true (fun _ => None)
                              (ModelText "no json")))
                      Sample.ready)) = "0x".
Proof.
  split; [discriminate|]. split; [discriminate|].
  destruct (model_failure_defaults Sample.lib true (fun _ => None)
              (ModelText "no json") "mint" Sample.ready) as (_ & Hc & _).
  - right; right; right. exists "no json". by split.
  - discriminate.
  - discriminate.
  - exact Hc.
Defined.

Lemma swarm_total_witness :
  isBusy Sample.ready = false /\
  forallb during_run Sample.swarm_events = true /\
  let s := run Sample.lib (handleStartSwarm Sample.ready) Sample.swarm_events in
  totalTx (stats s) = 2 /\ totalTx (stats s) <= 2 * 3.
Proof.
  split; [reflexivity|]. split; [reflexivity|]. cbn zeta.
  destruct (swarm_total Sample.lib Sample.ready Sample.swarm_events)
    as (Htot & Hle & _).
  - reflexivity.
  - discriminate.
  - discriminate.
  - reflexivity.
  - split; [rewrite Htot; reflexivity|exact Hle].
Defined.



Lemma swarm_completion_witness :
  let s := run Sample.lib (handleStartSwarm Sample.ready)
             [NonceSettled 0 None; NonceSettled 1 None] in
  let s1 := step Sample.lib s (AllSettled Sample.balances) in
  let s2 := run Sample.lib s1 [BalanceSettled 0] in
  isSwarming s = true /\ forallb returned (tasks s) = true /\
  isSwarming s1 = false /\ map balance (wallets s1) = ["0"; "0"] /\
  isSwarming s2 = false /\
  (exists w', wallets s2 !! 0 = Some w' /\
              balance w' = "10000000000000000 wei") /\
  step Sample.lib Sample.ready (AllSettled Sample.balances) = Sample.ready.
Proof.
  cbn zeta.
  destruct (swarm_completion Sample.lib
              (run Sample.lib (handleStartSwarm Sample.ready)
                 [NonceSettled 0 None; NonceSettled 1 None])
              Sample.balances) as [_ H].
  destruct (H eq_refl eq_refl) as (Hs1 & _ & _ & Hw1 & _ & Hlater).
  destruct (Hlater 1) as (Hs2 & _ & _ & Hw2); [cbn; lia|].
  destruct (Hw2 0 Sample.wallet1 eq_refl) as (w' & Hw' & _ & _ & _ & _ & Hb).
  split; [reflexivity|]. split; [reflexivity|]. split; [exact Hs1|].
  split; [rewrite Hw1; reflexivity|]. split; [exact Hs2|].
  split; [exists w'; split; [exact Hw'|exact Hb]|].
  destruct (swarm_completion Sample.lib Sample.ready Sample.balances)
    as [H0 _].
  apply H0. left. reflexivity.
Defined.

Lemma single_writer_witness :
  let s := handleStartSwarm Sample.ready in
  1 <> 0 /\
  wallets (step Sample.lib s (NonceSettled 0 (Some 7))) !! 1 = Some Sample.wallet2 /\
  status <$> wallets (step Sample.lib s (NonceSettled 0 (Some 7))) !! 0 =
    Some sending.
Proof.
  cbn zeta. split; [discriminate|]. split; [|reflexivity].
  destruct (single_writer Sample.lib (handleStartSwarm Sample.ready)
              (NonceSettled 0 (Some 7)) 0 1) as (Hw & _).
  - left. exists (Some 7). reflexivity.
  - discriminate.
  - rewrite Hw. reflexivity.
Defined.

Lemma no_task_outlives_swarm_witness :
  let s := run Sample.lib (initial Sample.blank_form) Sample.session in
  isSwarming s = false /\ length (wallets s) = 2 /\
  step Sample.lib s (SendSettled 0 (Accepted (Sample.confirmed_tx "0xh"))) = s.
Proof.
  cbn zeta. split; [reflexivity|]. split; [reflexivity|].
  destruct (no_task_outlives_swarm Sample.lib Sample.blank_form Sample.session)
    as [_ H].
  destruct (H eq_refl) as [_ Hw].
  destruct (Hw 0) as (_ & Hsend & _). apply Hsend.
Defined.

Lemma swarm_terminates_witness :
  let nonce := fun w : nat => match w with 0 => Some 7 | _ => None end in
  let sent := fun (w i : nat) =>
                match i with
                | 1 => Rejected "" "nonce too low"
                | _ => Accepted (Sample.unconfirmed_tx "0xh")
                end in
  let events := fleet_schedule 2 nonce sent 3 in
  let s := run Sample.lib (handleStartSwarm Sample.ready) events in
  isBusy Sample.ready = false /\
  length events = 14 /\
  forallb returned (tasks s) = true /\
  stats s = mkStats 3 2 1 /\
  isSwarming (step Sample.lib s (AllSettled Sample.balances)) = false.
Proof.
  cbn zeta. split; [reflexivity|]. split; [reflexivity|].
  destruct (swarm_terminates Sample.lib Sample.ready
              (fun w : nat => match w with 0 => Some 7 | _ => None end)
              (fun (w i : nat) =>
                 match i with
                 | 1 => Rejected "" "nonce too low"
                 | _ => Accepted (Sample.unconfirmed_tx "0xh")
                 end)
              Sample.balances) as (_ & _ & Hall & Hend).
  - reflexivity.
  - discriminate.
  - discriminate.
  - split; [exact Hall|]. split; [reflexivity|exact Hend].
Defined.

Lemma swarm_nonces_witness :
  isBusy Sample.ready = false /\
  forallb during_run Sample.swarm_events = true /\
  let s := run Sample.lib (handleStartSwarm Sample.ready) Sample.swarm_events in
  fetched 0 Sample.swarm_events = Some (Some 7) /\
  fetched 1 Sample.swarm_events = Some None /\
  requests (Fleet 0) (since_start s) =
    [GetTransactionCount "0xA1";
     SendTransaction Sample.key1 (mkReq "0xABC" 0 (Some "0x") (Some 7) None);
     SendTransaction Sample.key1 (mkReq "0xABC" 0 (Some "0x") (Some 8) None);
     SendTransaction Sample.key1 (mkReq "0xABC" 0 (Some "0x") (Some 9) None)] /\
  requests (Fleet 1) (since_start s) = [GetTransactionCount "0xA2"].
Proof.
  split; [reflexivity|]. split; [reflexivity|]. cbn zeta.
  split; [reflexivity|]. split; [reflexivity|].
  destruct (swarm_nonces Sample.lib Sample.ready Sample.swarm_events)
    as [_ H].
  - reflexivity.
  - discriminate.
  - discriminate.
  - repeat constructor.
  - reflexivity.
  - split.
    + pose proof (H 0 (mkTask Sample.wallet1 (AwaitSend 2 10) (Some 7)) eq_refl)
        as H0.
      cbn zeta in H0. destruct H0 as (_ & kp & Hkp & Hm).
      change (fetched 0 Sample.swarm_events) with (Some (Some 7)) in Hm.
      cbn [t_pc t_wallet] in Hm. destruct Hm as (m & Hreqs & -> & _).
      vm_compute in Hkp. injection Hkp as <-. rewrite Hreqs. reflexivity.
    + pose proof (H 1 (mkTask Sample.wallet2 Returned None) eq_refl) as H1.
      cbn zeta in H1. destruct H1 as (_ & kp & _ & Hm).
      change (fetched 1 Sample.swarm_events) with (Some (@None nat)) in Hm.
      destruct Hm as [_ Hreqs]. rewrite Hreqs. reflexivity.
Defined.

(** C7, as the claim has it, fails: the import of a text with a line that
    is no key skips the line and adds no entry of warning level to the
    application log. *)
Lemma import_warning_not_logged : ~ invalid_lines_logged Sample.lib.
Proof.
  intros H.
  specialize (H Sample.random (initial Sample.import_form) eq_refl eq_refl).
  vm_compute in H. discriminate.
Qed.

Lemma updateFleetBalances_frame_witness :
  let awaited :=
    updateFleetBalances Sample.lib (wallets Sample.ready) Sample.balances
      Sample.ready in
  let settled :=
    run Sample.lib (start_refresh Sample.balances Sample.ready)
      [BalanceSettled 0; BalanceSettled 0] in
  refreshed Sample.lib Sample.balances (wallets Sample.ready) (wallets awaited) /\
  refreshed Sample.lib Sample.balances (wallets Sample.ready) (wallets settled) /\
  map balance (wallets awaited) = ["10000000000000000 wei"; "0"] /\
  map balance (wallets settled) = ["10000000000000000 wei"; "0"] /\
  map status (wallets settled) = map status (wallets Sample.ready).
Proof.
  cbn zeta.
  destruct (updateFleetBalances_frame Sample.lib (wallets Sample.ready)
              Sample.balances Sample.ready) as [(Ha & _) Hs].
  destruct (Hs eq_refl) as (Hs' & _).
  split; [exact Ha|]. split; [exact Hs'|]. by repeat split.
Defined.
